(** * The catalog generator of pegboard-tools, [scripts/generate-catalog.js]

    A shallow embedding of the script: the directory scan, the per-tool
    processing and the aggregation into the catalog document, followed by
    the properties of the specification that concern them.

    Conventions of the embedding.
    - A JavaScript string is a Rocq [string]; its characters stand for code
      units (restricted to 0..255).
    - The file system is a tree of directories and regular files; symbolic
      links and special files are out of scope. A regular file is
      represented by what [JSON.parse] makes of its text.
    - Paths are POSIX strings.  [path.join], [path.dirname] and
      [path.basename] are modelled on normalized paths (no trailing or
      repeated slash, no [.] or [..] segment), which are the only ones the
      script builds from [process.cwd()] and directory entries.
    - Console output is a list of structured diagnostics; an exception is a
      value of type [error].  Code that logs or throws runs in the monad
      [M]. *)

From Stdlib Require Import List String Ascii ZArith NArith QArith Bool Lia.
From Stdlib Require Import Sorted Permutation.
Import ListNotations.
Set Warnings "-register-all".
Open Scope list_scope.
Open Scope Z_scope.
Open Scope string_scope.

(* ================================================================== *)
(** * JavaScript values read from descriptors *)
(* ================================================================== *)

(** The result of [JSON.parse].  A number is carried as the rational it
    denotes; an object as its own properties. *)
Inductive json : Type :=
| JNull
| JBool (b : bool)
| JNum (q : Q)
| JStr (s : string)
| JArr (items : list json)
| JObj (props : list (string * json)).

(** ToBoolean: [null], [false], [0] and the empty string are falsy. *)
Definition truthy (v : json) : bool :=
  match v with
  | JNull => false
  | JBool b => b
  | JNum q => negb (Qeq_bool q 0)
  | JStr s => negb (s =? "")
  | JArr _ => true
  | JObj _ => true
  end.

(** ToBoolean of a possibly [undefined] value. *)
Definition truthy_opt (v : option json) : bool :=
  match v with
  | Some x => truthy x
  | None => false
  end.

(** [a || b] where [a] may be [undefined]. *)
Definition js_or (a : option json) (b : json) : json :=
  match a with
  | Some x => if truthy x then x else b
  | None => b
  end.

Fixpoint assoc {V : Type} (k : string) (l : list (string * V)) : option V :=
  match l with
  | [] => None
  | (k', v) :: rest => if k' =? k then Some v else assoc k rest
  end.

(* ================================================================== *)
(** * Errors, diagnostics and the monad of the script *)
(* ================================================================== *)

Inductive error : Type :=
| ENOENT (p : string)
| ENOTDIR (p : string)
| EISDIR (p : string)
| SyntaxError
| TypeError (what : string)
| ExecError (what : string)
| InvalidToolPath (metadataPath : string)
| ToolsDirNotFound.

(** One constructor per [console.log], [console.warn] or [console.error]
    call of the script. *)
Inductive diag : Type :=
| WarnUnknownSoftwareType (softwareType : string)
| WarnNoGitHistory (dirPath : string)
| WarnGitFailed (dirPath : string) (e : error)
| ErrSkipping (toolName mainFileName : string)
| ErrFailedToProcess (metadataPath : string) (e : error)
| LogProcessed (name : json) (softwareType : string) (deps : nat)
    (id : option json)
| LogGenerating
| LogFound (nfiles ntypes : nat)
| LogSoftwareTypes (softwareTypes : list string)
| WarnUnknownCategory (softwareType : string)
| LogSummary (total : nat) (rows : list (string * nat * nat))
| ErrFatal (e : error).

Inductive outcome (A : Type) : Type :=
| Ok (a : A)
| Throw (e : error).
Arguments Ok {A} a.
Arguments Throw {A} e.

(** A computation prints diagnostics and either returns or throws. *)
Definition M (A : Type) : Type := (list diag * outcome A)%type.

Definition ret {A} (a : A) : M A := ([], Ok a).
Definition throw {A} (e : error) : M A := ([], Throw e).
Definition tell (d : diag) : M unit := ([d], Ok tt).
Definition lift {A} (o : outcome A) : M A := ([], o).

Definition bind {A B} (m : M A) (f : A -> M B) : M B :=
  match m with
  | (d, Ok a) => let (d', r) := f a in ((d ++ d')%list, r)
  | (d, Throw e) => (d, Throw e)
  end.

(** [try { body } catch (error) { handler }] *)
Definition try_catch {A} (body : M A) (handler : error -> M A) : M A :=
  match body with
  | (d, Ok a) => (d, Ok a)
  | (d, Throw e) => let (d', r) := handler e in ((d ++ d')%list, r)
  end.

Notation "x <- m ;; k" := (bind m (fun x => k))
  (at level 61, m at next level, right associativity).
Notation "m ;;; k" := (bind m (fun _ => k))
  (at level 61, right associativity).

Definition obind {A B} (o : outcome A) (f : A -> outcome B) : outcome B :=
  match o with
  | Ok a => f a
  | Throw e => Throw e
  end.

(* ================================================================== *)
(** * Strings and paths *)
(* ================================================================== *)

Definition slash : ascii := "/"%char.
Definition backslash : ascii := "\"%char.

(** [s.split(sep)] for a one-character separator. *)
Fixpoint split_on (sep : ascii) (s : string) : list string :=
  match s with
  | EmptyString => [EmptyString]
  | String c s' =>
      if Ascii.eqb c sep then EmptyString :: split_on sep s'
      else match split_on sep s' with
           | [] => [String c EmptyString]
           | x :: xs => String c x :: xs
           end
  end.

(** [s.replace(/\\/g, '/')] *)
Fixpoint replace_backslashes (s : string) : string :=
  match s with
  | EmptyString => EmptyString
  | String c s' =>
      String (if Ascii.eqb c backslash then slash else c)
             (replace_backslashes s')
  end.

(** [arr.indexOf(x)]: the first index holding [x], or -1. *)
Fixpoint indexOf (x : string) (arr : list string) : Z :=
  match arr with
  | [] => -1
  | y :: rest =>
      if y =? x then 0
      else let i := indexOf x rest in
           if (i =? -1)%Z then -1 else i + 1
  end.

(** [path.join(dir, entry)] for a normalized [dir] and an entry name. *)
Definition path_join (dir entry : string) : string :=
  if dir =? "/" then "/" ++ entry else dir ++ "/" ++ entry.

(** Cuts a path at its last slash. *)
Fixpoint last_slash_split (p : string) : option (string * string) :=
  match p with
  | EmptyString => None
  | String c p' =>
      match last_slash_split p' with
      | Some (d, b) => Some (String c d, b)
      | None => if Ascii.eqb c slash then Some (EmptyString, p') else None
      end
  end.

(** [path.dirname] *)
Definition path_dirname (p : string) : string :=
  match last_slash_split p with
  | None => "."
  | Some (EmptyString, _) => "/"
  | Some (d, _) => d
  end.

(** [path.basename] *)
Definition path_basename (p : string) : string :=
  match last_slash_split p with
  | None => p
  | Some (_, b) => b
  end.

Definition is_space (c : ascii) : bool :=
  let n := nat_of_ascii c in
  ((9 <=? n)%nat && (n <=? 13)%nat) || (n =? 32)%nat || (n =? 160)%nat.

Fixpoint trim_start (s : string) : string :=
  match s with
  | EmptyString => EmptyString
  | String c s' => if is_space c then trim_start s' else s
  end.

Fixpoint trim_end (s : string) : string :=
  match s with
  | EmptyString => EmptyString
  | String c s' =>
      match trim_end s' with
      | EmptyString => if is_space c then EmptyString else String c EmptyString
      | t => String c t
      end
  end.

(** [s.trim()] *)
Definition trim (s : string) : string := trim_end (trim_start s).

(* ================================================================== *)
(** * The environment of a run *)
(* ================================================================== *)

Inductive node : Type :=
| File (parsed : option json)
| Dir (entries : list (string * node)).

(** What the script reads from its environment: the file system, the
    working directory, the answer of [git log -1 --format=%aI] for a
    directory, the clock (one instant for the whole run), the collation of
    the locale and the printing of numbers. *)
Record world : Type := {
  root : node;
  cwd : string;
  git_log : string -> outcome string;
  now : string;
  localeCompare : string -> string -> Z;
  Number_toString : Q -> string
}.

Definition nonempty (s : string) : bool := negb (s =? "").

Fixpoint walk (n : node) (segs : list string) : option node :=
  match segs with
  | [] => Some n
  | s :: rest =>
      match n with
      | Dir es =>
          match assoc s es with
          | Some c => walk c rest
          | None => None
          end
      | File _ => None
      end
  end.

Definition resolve (w : world) (p : string) : option node :=
  walk (root w) (filter nonempty (split_on slash p)).

Definition existsSync (w : world) (p : string) : bool :=
  match resolve w p with
  | Some _ => true
  | None => false
  end.

Definition isDirectory (n : node) : bool :=
  match n with
  | Dir _ => true
  | File _ => false
  end.

Definition isFile (n : node) : bool :=
  match n with
  | File _ => true
  | Dir _ => false
  end.

(** [fs.readdirSync(p)]: the names in the directory, in listing order,
    each with the node that [fs.statSync(path.join(p, name))] finds. *)
Definition readdirSync (w : world) (p : string)
  : outcome (list (string * node)) :=
  match resolve w p with
  | Some (Dir es) => Ok es
  | Some (File _) => Throw (ENOTDIR p)
  | None => Throw (ENOENT p)
  end.

(** [JSON.parse(fs.readFileSync(p, 'utf8'))] *)
Definition readJSON (w : world) (p : string) : outcome json :=
  match resolve w p with
  | Some (File (Some v)) => Ok v
  | Some (File None) => Throw SyntaxError
  | Some (Dir _) => Throw (EISDIR p)
  | None => Throw (ENOENT p)
  end.

(* ================================================================== *)
(** * JavaScript objects used as maps *)
(* ================================================================== *)

(** An ordinary object: its own properties in creation order. *)
Definition jsobject (V : Type) : Type := list (string * V).

(** The properties every ordinary object inherits from
    [Object.prototype]. *)
Definition Object_prototype_keys : list string :=
  [ "constructor"; "__defineGetter__"; "__defineSetter__";
    "hasOwnProperty"; "__lookupGetter__"; "__lookupSetter__";
    "isPrototypeOf"; "propertyIsEnumerable"; "toString"; "valueOf";
    "__proto__"; "toLocaleString" ].

Inductive property (V : Type) : Type :=
| Own (v : V)
| Inherited
| Undefined.
Arguments Own {V} v.
Arguments Inherited {V}.
Arguments Undefined {V}.

(** [o[k]]: an own property, else one found on the prototype. *)
Definition get_property {V} (o : jsobject V) (k : string) : property V :=
  match assoc k o with
  | Some v => Own v
  | None =>
      if existsb (String.eqb k) Object_prototype_keys then Inherited
      else Undefined
  end.

(** Defining or assigning the own property [k]: an existing property
    keeps its place, a new one is created last. *)
Fixpoint own_set {V} (k : string) (v : V) (o : jsobject V) : jsobject V :=
  match o with
  | [] => [(k, v)]
  | (k', v') :: rest =>
      if k' =? k then (k', v) :: rest else (k', v') :: own_set k v rest
  end.

(** [Object.fromEntries] *)
Definition Object_fromEntries {V} (l : list (string * V)) : jsobject V :=
  fold_left (fun o kv => own_set (fst kv) (snd kv) o) l [].

Definition digit_of (c : ascii) : option N :=
  let n := N_of_ascii c in
  if ((48 <=? n) && (n <=? 57))%N then Some (n - 48)%N else None.

Fixpoint parse_digits (acc : N) (s : string) : option N :=
  match s with
  | EmptyString => Some acc
  | String c s' =>
      match digit_of c with
      | Some d => parse_digits (10 * acc + d)%N s'
      | None => None
      end
  end.

(** A property key is an array index when it is the canonical decimal
    form of an integer below 2^32 - 1. *)
Definition array_index (k : string) : option N :=
  match k with
  | EmptyString => None
  | String c rest =>
      if Ascii.eqb c "0"%char && negb (rest =? "") then None
      else match parse_digits 0%N k with
           | Some n => if (n <? 4294967295)%N then Some n else None
           | None => None
           end
  end.

Fixpoint insert_index (x : N * string) (l : list (N * string))
  : list (N * string) :=
  match l with
  | [] => [x]
  | y :: rest =>
      if (fst x <=? fst y)%N then x :: y :: rest
      else y :: insert_index x rest
  end.

Fixpoint index_keys (ks : list string) : list (N * string) :=
  match ks with
  | [] => []
  | k :: rest =>
      match array_index k with
      | Some n => insert_index (n, k) (index_keys rest)
      | None => index_keys rest
      end
  end.

Definition is_index (k : string) : bool :=
  match array_index k with
  | Some _ => true
  | None => false
  end.

(** The order in which [Object.keys], [Object.values], [Object.entries]
    and [JSON.stringify] visit own properties: array indices in
    ascending numeric order, then the other keys in creation order. *)
Definition key_order (ks : list string) : list string :=
  (map snd (index_keys ks) ++ filter (fun k => negb (is_index k)) ks)%list.

Definition ownKeys {V} (o : jsobject V) : list string :=
  key_order (map fst o).

Fixpoint Object_entries_of {V} (o : jsobject V) (ks : list string)
  : list (string * V) :=
  match ks with
  | [] => []
  | k :: rest =>
      match assoc k o with
      | Some v => (k, v) :: Object_entries_of o rest
      | None => Object_entries_of o rest
      end
  end.

Definition Object_entries {V} (o : jsobject V) : list (string * V) :=
  Object_entries_of o (ownKeys o).

Definition Object_values {V} (o : jsobject V) : list V :=
  map snd (Object_entries o).

(* ================================================================== *)
(** * Sorting *)
(* ================================================================== *)

(** Comparison of strings by code units, the order of [arr.sort()]
    without a comparator. *)
Fixpoint code_unit_leb (a b : string) : bool :=
  match a, b with
  | EmptyString, _ => true
  | String _ _, EmptyString => false
  | String x a', String y b' =>
      if (nat_of_ascii x <? nat_of_ascii y)%nat then true
      else if (nat_of_ascii y <? nat_of_ascii x)%nat then false
      else code_unit_leb a' b'
  end.

Fixpoint insert_string (x : string) (l : list string) : list string :=
  match l with
  | [] => [x]
  | y :: rest =>
      if code_unit_leb x y then x :: y :: rest
      else y :: insert_string x rest
  end.

(** [arr.sort()] on an array of strings. *)
Fixpoint sort_strings (l : list string) : list string :=
  match l with
  | [] => []
  | x :: rest => insert_string x (sort_strings rest)
  end.

(** [arr.sort(cmp)].  The sort of V8 is stable.  It inserts each element
    into the sorted elements that stand before it, and it hands the
    comparator the element to insert as first argument and one of the
    sorted elements as second: the later element of the array is always
    the first argument.  The model keeps both.  [insert_by cmp x sorted]
    takes the sorted elements last first, and walks from the last one
    down to the first one that [x] does not precede.  (V8 looks for that
    place by bisection, and merges runs in long arrays; for a consistent
    comparator every stable sort returns the same array.) *)
Fixpoint insert_by {A} (cmp : A -> A -> outcome Z) (x : A) (sorted : list A)
  : outcome (list A) :=
  match sorted with
  | [] => Ok [x]
  | y :: rest =>
      obind (cmp x y) (fun c =>
        if (c <? 0)%Z
        then obind (insert_by cmp x rest) (fun r => Ok (y :: r))
        else Ok (x :: y :: rest))
  end.

(** The elements of [l] are inserted one after the other, first to last,
    into [sorted], which is held last first. *)
Fixpoint sort_from {A} (cmp : A -> A -> outcome Z) (sorted l : list A)
  : outcome (list A) :=
  match l with
  | [] => Ok (rev sorted)
  | x :: rest =>
      obind (insert_by cmp x sorted) (fun sorted' =>
        sort_from cmp sorted' rest)
  end.

Definition sort_by {A} (cmp : A -> A -> outcome Z) (l : list A)
  : outcome (list A) :=
  sort_from cmp [] l.

(* ================================================================== *)
(** * The functions of [generate-catalog.js] *)
(* ================================================================== *)

(** The extension of each configured software type. *)
Definition SOFTWARE_CONFIG : jsobject string :=
  [ ("blender", "py"); ("sketchup", "rb"); ("rhino", "py");
    ("revit", "py") ].

(** The body of [traverse] inside [findMetadataFiles], run on the
    directory node found at [currentDir]. *)
Fixpoint traverse (currentDir : string) (n : node) {struct n}
  : list string :=
  match n with
  | File _ => []
  | Dir es =>
      (fix each (es : list (string * node)) : list string :=
         match es with
         | [] => []
         | (entry, child) :: rest =>
             let fullPath := path_join currentDir entry in
             ((match child with
               | Dir _ => traverse fullPath child
               | File _ =>
                   if entry =? "metadata.json" then [fullPath] else []
               end) ++ each rest)%list
         end) es
  end.

Definition findMetadataFiles (w : world) (dir : string)
  : outcome (list string) :=
  match resolve w dir with
  | Some (Dir es) => Ok (traverse dir (Dir es))
  | Some (File _) => Throw (ENOTDIR dir)
  | None => Throw (ENOENT dir)
  end.

Definition pathParts (metadataPath : string) : list string :=
  split_on slash (replace_backslashes metadataPath).

Definition extractSoftwareType (metadataPath : string) : outcome string :=
  let pathParts := pathParts metadataPath in
  let toolsIndex := indexOf "tools" pathParts in
  if (toolsIndex =? -1)%Z
     || (toolsIndex + 1 >=? Z.of_nat (List.length pathParts))%Z
  then Throw (InvalidToolPath metadataPath)
  else Ok (nth (Z.to_nat (toolsIndex + 1)) pathParts "").

Definition extractToolName (metadataPath : string) : string :=
  path_basename (path_dirname metadataPath).

(** [config] is truthy for an inherited property too, whose [extension]
    is [undefined]. *)
Definition getMainFileName (softwareType : string) : M string :=
  match get_property SOFTWARE_CONFIG softwareType with
  | Undefined =>
      tell (WarnUnknownSoftwareType softwareType) ;;;
      ret "tool.py"
  | Own extension => ret ("tool." ++ extension)
  | Inherited => ret "tool.undefined"
  end.

Definition findDependencies (w : world) (metadataPath softwareType : string)
  : M (list string) :=
  let toolDir := path_dirname metadataPath in
  entries <- lift (readdirSync w toolDir) ;;
  mainFileName <- getMainFileName softwareType ;;
  let excludedFiles := ["metadata.json"; mainFileName] in
  ret (map fst
         (filter
            (fun entry =>
               if existsb (String.eqb (fst entry)) excludedFiles then false
               else isFile (snd entry))
            entries)).

Definition verifyMainToolFile (w : world) (metadataPath softwareType : string)
  : M bool :=
  let toolDir := path_dirname metadataPath in
  mainFileName <- getMainFileName softwareType ;;
  let mainFilePath := path_join toolDir mainFileName in
  ret (existsSync w mainFilePath).

Definition getLastCommitDate (w : world) (dirPath : string) : M string :=
  try_catch
    (result <- lift (git_log w dirPath) ;;
     let date := trim result in
     if date =? "" then
       tell (WarnNoGitHistory dirPath) ;;;
       ret (now w)
     else ret date)
    (fun error =>
       tell (WarnGitFailed dirPath error) ;;;
       ret (now w)).

Definition discoverSoftwareTypes (w : world) (toolsDir : string)
  : outcome (list string) :=
  obind (readdirSync w toolsDir) (fun entries =>
  let softwareTypes :=
    map fst (filter (fun entry => isDirectory (snd entry)) entries) in
  Ok (sort_strings softwareTypes)).

(** [metadata.k] for [k] among [name], [description] and [id], which no
    prototype of a parsed value defines. *)
Definition member (metadata : json) (k : string) : outcome (option json) :=
  match metadata with
  | JNull => Throw (TypeError "Cannot read properties of null")
  | JObj props => Ok (assoc k props)
  | _ => Ok None
  end.

Record ToolRecord : Type := {
  name : json;
  description : json;
  folder : string;
  updated_at : string;
  dependencies : option (list string);
  id : option json
}.

Record ProcessResult : Type := {
  tool : ToolRecord;
  softwareType : string
}.

(** ToString of a parsed value, as a template literal and [localeCompare]
    apply it.  An array is converted by [join], which converts its
    elements other than [null].  An object is converted by the [toString]
    it inherits, unless it has an own property [toString]: in a parsed
    value that property is not callable, neither is an own [valueOf], and
    the inherited [valueOf] returns the object itself, so that the
    conversion throws. *)
Fixpoint ToString (w : world) (v : json) {struct v} : outcome string :=
  match v with
  | JNull => Ok "null"
  | JBool true => Ok "true"
  | JBool false => Ok "false"
  | JNum q => Ok (Number_toString w q)
  | JStr s => Ok s
  | JArr items =>
      (fix join (items : list json) : outcome string :=
         match items with
         | [] => Ok ""
         | [x] => match x with JNull => Ok "" | _ => ToString w x end
         | x :: rest =>
             obind (match x with JNull => Ok "" | _ => ToString w x end)
               (fun s =>
             obind (join rest) (fun t => Ok (s ++ "," ++ t)))
         end) items
  | JObj props =>
      match assoc "toString" props with
      | Some _ => Throw (TypeError "Cannot convert object to primitive value")
      | None => Ok "[object Object]"
      end
  end.

(** The body of the [try] block of [processTool].  The template literals
    of the success line convert [metadata.id], when it counts as true, and
    then [tool.name] to strings. *)
Definition processTool_try (w : world) (metadataPath : string)
  : M (option ProcessResult) :=
  metadata <- lift (readJSON w metadataPath) ;;
  softwareType <- lift (extractSoftwareType metadataPath) ;;
  let toolName := extractToolName metadataPath in
  present <- verifyMainToolFile w metadataPath softwareType ;;
  if negb present then
    mainFileName <- getMainFileName softwareType ;;
    tell (ErrSkipping toolName mainFileName) ;;;
    ret None
  else
    deps <- findDependencies w metadataPath softwareType ;;
    lastCommitDate <- getLastCommitDate w (path_dirname metadataPath) ;;
    metadata_name <- lift (member metadata "name") ;;
    metadata_description <- lift (member metadata "description") ;;
    metadata_id <- lift (member metadata "id") ;;
    let tool :=
      {| name := js_or metadata_name (JStr toolName);
         description := js_or metadata_description (JStr "");
         folder := toolName;
         updated_at := lastCommitDate;
         dependencies :=
           if (0 <? List.length deps)%nat then Some deps else None;
         id := if truthy_opt metadata_id then metadata_id else None |} in
    lift (match id tool with
          | Some v => ToString w v
          | None => Ok ""
          end) ;;;
    lift (ToString w (name tool)) ;;;
    tell (LogProcessed (name tool) softwareType (List.length deps)
            (id tool)) ;;;
    ret (Some {| tool := tool; softwareType := softwareType |}).

Definition processTool (w : world) (metadataPath : string)
  : M (option ProcessResult) :=
  try_catch (processTool_try w metadataPath)
    (fun error =>
       tell (ErrFailedToProcess metadataPath error) ;;;
       ret None).

(** [(a, b) => a.name.localeCompare(b.name)] *)
Definition compareByName (w : world) (a b : ToolRecord) : outcome Z :=
  match name a with
  | JStr s =>
      obind (ToString w (name b)) (fun t => Ok (localeCompare w s t))
  | _ => Throw (TypeError "a.name.localeCompare is not a function")
  end.

Record Catalog : Type := {
  version : string;
  generated_at : string;
  tools : jsobject (list ToolRecord)
}.

(** One turn of the loop over [metadataFiles] in [main]. *)
Definition add_result (w : world) (tools : jsobject (list ToolRecord))
    (metadataPath : string) : M (jsobject (list ToolRecord)) :=
  result <- processTool w metadataPath ;;
  match result with
  | Some r =>
      match get_property tools (softwareType r) with
      | Own arr =>
          ret (own_set (softwareType r) (arr ++ [tool r])%list tools)
      | Inherited =>
          throw (TypeError "catalog.tools[softwareType].push is not a function")
      | Undefined =>
          tell (WarnUnknownCategory (softwareType r)) ;;;
          ret tools
      end
  | None => ret tools
  end.

Fixpoint process_all (w : world) (tools : jsobject (list ToolRecord))
    (metadataFiles : list string) : M (jsobject (list ToolRecord)) :=
  match metadataFiles with
  | [] => ret tools
  | metadataPath :: rest =>
      tools' <- add_result w tools metadataPath ;;
      process_all w tools' rest
  end.

(** [Object.values(catalog.tools).forEach(tools => tools.sort(...))]:
    each array is sorted in place, in the order of [ownKeys]. *)
Fixpoint sort_each (w : world) (keys : list string)
    (tools : jsobject (list ToolRecord))
  : outcome (jsobject (list ToolRecord)) :=
  match keys with
  | [] => Ok tools
  | k :: rest =>
      match assoc k tools with
      | Some arr =>
          obind (sort_by (compareByName w) arr) (fun sorted =>
            sort_each w rest (own_set k sorted tools))
      | None => sort_each w rest tools
      end
  end.

Definition sort_all (w : world) (tools : jsobject (list ToolRecord))
  : outcome (jsobject (list ToolRecord)) :=
  sort_each w (ownKeys tools) tools.

(** [fs.writeFileSync(catalogPath, ...)] fails on a directory. *)
Definition writeFileSync (w : world) (p : string) : outcome unit :=
  match resolve w p with
  | Some (Dir _) => Throw (EISDIR p)
  | _ => Ok tt
  end.

Definition has_dependencies (t : ToolRecord) : bool :=
  match dependencies t with
  | Some l => (0 <? List.length l)%nat
  | None => false
  end.

Definition logCatalogSummary (catalog : Catalog) : M unit :=
  let totalTools :=
    fold_left (fun sum l => (sum + List.length l)%nat)
      (Object_values (tools catalog)) 0%nat in
  tell (LogSummary totalTools
          (map (fun e =>
                  (fst e, List.length (snd e),
                   List.length (filter has_dependencies (snd e))))
             (filter (fun e => negb (List.length (snd e) =? 0)%nat)
                (Object_entries (tools catalog))))).

(** The body of the [try] block of [main]; its value is the catalog
    written to [catalog.json]. *)
Definition main_try (w : world) : M Catalog :=
  tell LogGenerating ;;;
  let toolsDir := path_join (cwd w) "tools" in
  if negb (existsSync w toolsDir) then throw ToolsDirNotFound
  else
    metadataFiles <- lift (findMetadataFiles w toolsDir) ;;
    softwareTypes <- lift (discoverSoftwareTypes w toolsDir) ;;
    tell (LogFound (List.length metadataFiles)
            (List.length softwareTypes)) ;;;
    tell (LogSoftwareTypes softwareTypes) ;;;
    let tools0 :=
      Object_fromEntries (map (fun type => (type, [])) softwareTypes) in
    tools1 <- process_all w tools0 metadataFiles ;;
    tools2 <- lift (sort_all w tools1) ;;
    let catalog :=
      {| version := "1.0.0"; generated_at := now w; tools := tools2 |} in
    let catalogPath := path_join (cwd w) "catalog.json" in
    lift (writeFileSync w catalogPath) ;;;
    logCatalogSummary catalog ;;;
    ret catalog.

(** A finished run: the exit status of the process, the catalog written
    to [catalog.json] if one was, and the console. *)
Record run : Type := {
  exit_status : Z;
  written : option Catalog;
  console : list diag
}.

Definition main (w : world) : run :=
  match main_try w with
  | (d, Ok catalog) =>
      {| exit_status := 0; written := Some catalog; console := d |}
  | (d, Throw error) =>
      {| exit_status := 1; written := None;
         console := (d ++ [ErrFatal error])%list |}
  end.

(** The [tools] mapping of the written document, in the order
    [JSON.stringify] prints it. *)
Definition document_tools (c : Catalog) : list (string * list ToolRecord) :=
  Object_entries (tools c).

(* ================================================================== *)
(** * Notions used to state the properties *)
(* ================================================================== *)

(** The value [getMainFileName] returns, without its warning. *)
Definition mainFileName_of (softwareType : string) : string :=
  match get_property SOFTWARE_CONFIG softwareType with
  | Own extension => "tool." ++ extension
  | Inherited => "tool.undefined"
  | Undefined => "tool.py"
  end.

(** The tools root of a run. *)
Definition toolsDir_of (w : world) : string := path_join (cwd w) "tools".

(** A path names a regular file. *)
Definition is_regular_file (w : world) (p : string) : Prop :=
  exists content, resolve w p = Some (File content).

(** The entries of a tool directory that count as dependency files:
    regular files other than the descriptor and the main file. *)
Definition is_dependency (mainFileName : string) (entry : string * node)
  : bool :=
  negb (fst entry =? "metadata.json")
  && negb (fst entry =? mainFileName)
  && isFile (snd entry).

(** The descriptor read at a path. *)
Definition descriptor (w : world) (metadataPath : string) : outcome json :=
  readJSON w metadataPath.

(** The property [k] of a descriptor, [None] when it has none. *)
Definition field (metadata : json) (k : string) : option json :=
  match metadata with
  | JObj props => assoc k props
  | _ => None
  end.

(** The records that the descriptors [files] contribute to category [k],
    in the order of [files]. *)
Fixpoint collected (w : world) (files : list string) (k : string)
  : list ToolRecord :=
  match files with
  | [] => []
  | p :: rest =>
      match snd (processTool w p) with
      | Ok (Some r) =>
          if softwareType r =? k then tool r :: collected w rest k
          else collected w rest k
      | _ => collected w rest k
      end
  end.

(** [a] may stand before [b] for the comparator [cmp]. *)
Definition precedes {A : Type} (cmp : A -> A -> outcome Z) (a b : A) : Prop :=
  exists z, cmp a b = Ok z /\ (z <= 0)%Z.

(** [a] may stand after [b] for the comparator [cmp]. *)
Definition follows {A : Type} (cmp : A -> A -> outcome Z) (a b : A) : Prop :=
  precedes cmp b a.

(** Order of two records by name under the collation of the run. *)
Definition name_le (w : world) (a b : ToolRecord) : Prop :=
  precedes (compareByName w) a b.

Definition name_lt (w : world) (a b : ToolRecord) : Prop :=
  exists z, compareByName w a b = Ok z /\ (z < 0)%Z.

Definition has_string_name (t : ToolRecord) : Prop :=
  exists s, name t = JStr s.

(** [dir] and its node reach the directory [dir'] with node [n'] by
    descending through entries. *)
Inductive reaches (dir : string) (n : node) : string -> node -> Prop :=
| reaches_here : reaches dir n dir n
| reaches_down : forall dir' es entry child,
    reaches dir n dir' (Dir es) ->
    In (entry, child) es ->
    reaches dir n (path_join dir' entry) child.

(** Comparison by code units, used as the collation of the sample
    environments below. *)
Fixpoint code_unit_compare (a b : string) : Z :=
  match a, b with
  | EmptyString, EmptyString => 0
  | EmptyString, String _ _ => -1
  | String _ _, EmptyString => 1
  | String x a', String y b' =>
      if (nat_of_ascii x <? nat_of_ascii y)%nat then -1
      else if (nat_of_ascii y <? nat_of_ascii x)%nat then 1
      else code_unit_compare a' b'
  end.

(** A sample environment: the repository is checked out at [/repo], the
    version control knows every directory, the collation compares code
    units. *)
Definition sample_world (repo : list (string * node)) : world :=
  {| root := Dir [("repo", Dir repo)];
     cwd := "/repo";
     git_log := fun _ => Ok "2024-05-01T10:00:00+00:00";
     now := "2024-06-01T00:00:00.000Z";
     localeCompare := code_unit_compare;
     Number_toString := fun _ => "0" |}.

Definition descriptor_file (props : list (string * json)) : node :=
  File (Some (JObj props)).

(** Any file that is not a descriptor. *)
Definition plain_file : node := File None.

(** A name without slash or backslash. *)
Fixpoint plain_name (s : string) : bool :=
  match s with
  | EmptyString => true
  | String c s' =>
      negb (Ascii.eqb c slash) && negb (Ascii.eqb c backslash)
      && plain_name s'
  end.

(** A directory path other than the root and the empty path. *)
Definition proper (d : string) : Prop := d <> "" /\ d <> "/".

(** What [traverse] collects from one entry of a directory. *)
Definition found_in_entry (currentDir : string) (e : string * node)
  : list string :=
  match snd e with
  | Dir _ => traverse (path_join currentDir (fst e)) (snd e)
  | File _ =>
      if fst e =? "metadata.json"
      then [path_join currentDir (fst e)] else []
  end.

(** The descriptor of [tools/blender/a] is not valid JSON. *)
Definition tree_malformed : list (string * node) :=
  [("tools", Dir
     [("blender", Dir
        [("a", Dir
           [("metadata.json", File None);
            ("tool.py", plain_file)])])])].

(** [w] with another answer of the version control. *)
Definition with_git_log (w : world) (g : string -> outcome string) : world :=
  {| root := root w;
     cwd := cwd w;
     git_log := g;
     now := now w;
     localeCompare := localeCompare w;
     Number_toString := Number_toString w |}.

(** [tools/blender/a] with a descriptor, its main file, one more file
    and a subdirectory. *)
Definition tree_one_tool : list (string * node) :=
  [("tools", Dir
     [("blender", Dir
        [("a", Dir
           [("metadata.json",
             descriptor_file [("name", JStr "A"); ("id", JStr "tool-a")]);
            ("tool.py", plain_file);
            ("helper.py", plain_file);
            ("assets", Dir [])])])])].

(** What the run makes of [tree_one_tool]. *)
Definition record_a : ToolRecord :=
  {| name := JStr "A";
     description := JStr "";
     folder := "a";
     updated_at := "2024-05-01T10:00:00+00:00";
     dependencies := Some ["helper.py"];
     id := Some (JStr "tool-a") |}.

Definition result_a : ProcessResult :=
  {| tool := record_a; softwareType := "blender" |}.

Definition catalog_one_tool : Catalog :=
  {| version := "1.0.0";
     generated_at := "2024-06-01T00:00:00.000Z";
     tools := [("blender", [record_a])] |}.

(** Two tools of one category, found in the order [zeta], [alpha], and a
    tool of another category without its main file. *)
Definition tree_two_tools : list (string * node) :=
  [("tools", Dir
     [("blender", Dir
        [("zeta", Dir
           [("metadata.json", descriptor_file [("name", JStr "Zeta")]);
            ("tool.py", plain_file)]);
         ("alpha", Dir
           [("metadata.json", descriptor_file [("name", JStr "Alpha")]);
            ("tool.py", plain_file)])]);
      ("sketchup", Dir
        [("draft", Dir
           [("metadata.json", descriptor_file [("name", JStr "Draft")])])])])].

Definition record_named (n f : string) : ToolRecord :=
  {| name := JStr n;
     description := JStr "";
     folder := f;
     updated_at := "2024-05-01T10:00:00+00:00";
     dependencies := None;
     id := None |}.

(** What the run makes of [tree_two_tools]: the tool without main file
    is skipped, the others are sorted. *)
Definition catalog_two_tools : Catalog :=
  {| version := "1.0.0";
     generated_at := "2024-06-01T00:00:00.000Z";
     tools :=
       [("blender",
         [record_named "Alpha" "alpha"; record_named "Zeta" "zeta"]);
        ("sketchup", [])] |}.

(** The descriptor of [tools/blender/a] gives the empty string as name. *)
Definition tree_empty_name : list (string * node) :=
  [("tools", Dir
     [("blender", Dir
        [("a", Dir
           [("metadata.json",
             descriptor_file [("name", JStr ""); ("description", JStr "")]);
            ("tool.py", plain_file)])])])].

(** [tools/blender/a/tool.py] is a directory. *)
Definition tree_main_is_directory : list (string * node) :=
  [("tools", Dir
     [("blender", Dir
        [("a", Dir
           [("metadata.json", descriptor_file [("name", JStr "A")]);
            ("tool.py", Dir [])])])])].

(** Two categories whose names are integers, and one whose name starts
    with a dot. *)
Definition tree_numeric_categories : list (string * node) :=
  [("tools", Dir [("10", Dir []); (".archive", Dir []); ("9", Dir [])])].

(** Two tools of one category with the same display name. *)
Definition tree_same_names : list (string * node) :=
  [("tools", Dir
     [("blender", Dir
        [("a", Dir
           [("metadata.json", descriptor_file [("name", JStr "Align")]);
            ("tool.py", plain_file)]);
         ("b", Dir
           [("metadata.json", descriptor_file [("name", JStr "Align")]);
            ("tool.py", plain_file)])])])].

(** Two tools of one category whose descriptors give numbers as names. *)
Definition tree_numeric_names : list (string * node) :=
  [("tools", Dir
     [("blender", Dir
        [("a", Dir
           [("metadata.json", descriptor_file [("name", JNum 1)]);
            ("tool.py", plain_file)]);
         ("b", Dir
           [("metadata.json", descriptor_file [("name", JNum 2)]);
            ("tool.py", plain_file)])])])].

(** A descriptor directly inside a category directory, and one inside a
    tool directory nested one level deeper than expected. *)
Definition blender_odd_depths : list (string * node) :=
  [("metadata.json", descriptor_file []);
   ("tool.py", plain_file);
   ("group", Dir
      [("a", Dir
         [("metadata.json", descriptor_file [("name", JStr "A")]);
          ("tool.py", plain_file)])])].

Definition tree_odd_depths : list (string * node) :=
  [("tools", Dir [("blender", Dir blender_odd_depths)])].

(** A record whose name is the string [s]. *)
Definition name_is (s : string) (t : ToolRecord) : bool :=
  match name t with
  | JStr s' => s' =? s
  | _ => false
  end.

(** A string of white space only. *)
Fixpoint blank (s : string) : bool :=
  match s with
  | EmptyString => true
  | String c s' => is_space c && blank s'
  end.

Fixpoint distinct (l : list string) : bool :=
  match l with
  | [] => true
  | x :: rest => negb (existsb (String.eqb x) rest) && distinct rest
  end.

(** A tree as a file system holds it: in every directory the names are
    distinct, not empty and without slash or backslash. *)
Fixpoint well_formed (n : node) : bool :=
  match n with
  | File _ => true
  | Dir es =>
      distinct (map fst es)
      && (fix all (es : list (string * node)) : bool :=
            match es with
            | [] => true
            | (entry, child) :: rest =>
                plain_name entry && nonempty entry && well_formed child
                && all rest
            end) es
  end.

(** The diagnostics of a list that warn about the unknown type [st]. *)
Definition unknown_type_warnings (st : string) (d : list diag) : list diag :=
  filter (fun x => match x with
                   | WarnUnknownSoftwareType st' => st' =? st
                   | _ => false
                   end) d.

(** A Windows spelling of a descriptor path, as the replacement of
    backslashes in [extractSoftwareType] expects it. *)
Definition windows_descriptor_path : string :=
  "C:\repo\tools\sketchup\offset\metadata.json".

(** A tool of a type that is not configured. *)
Definition tree_unknown_type : list (string * node) :=
  [("tools", Dir
     [("unknownsoft", Dir
        [("c", Dir
           [("metadata.json", descriptor_file []);
            ("tool.py", plain_file)])])])].

(** A descriptor that holds a JSON array. *)
Definition tree_array_descriptor : list (string * node) :=
  [("tools", Dir
     [("blender", Dir
        [("a", Dir
           [("metadata.json", File (Some (JArr [JStr "A"])));
            ("tool.py", plain_file)])])])].

(** The result of processing a tool that has only a folder name. *)
Definition record_named_result (f st : string) : ProcessResult :=
  {| tool := record_named f f; softwareType := st |}.

(** A category directory whose name holds a backslash: the paths below
    it read as if [constructor] were the category. *)
Definition tree_backslash_constructor : list (string * node) :=
  [("tools", Dir
     [("constructor\plugins", Dir
        [("a", Dir
           [("metadata.json", descriptor_file []);
            ("tool.undefined", plain_file)])])])].

(** The same with [legacy] read as the category. *)
Definition tree_backslash_legacy : list (string * node) :=
  [("tools", Dir
     [("legacy\2019", Dir
        [("a", Dir
           [("metadata.json", descriptor_file []);
            ("tool.py", plain_file)])])])].

(** The tools root is a regular file. *)
Definition tree_tools_is_a_file : list (string * node) :=
  [("tools", plain_file)].

(** The tools root of [tree_numeric_categories], listed in another
    order. *)
Definition tree_numeric_categories_relisted : list (string * node) :=
  [("tools", Dir [("9", Dir []); ("10", Dir []); (".archive", Dir [])])].

(** The segments that the file system walks for a path. *)
Definition segments (p : string) : list string :=
  filter nonempty (split_on slash p).

(** The place of the catalog is taken by a directory. *)
Definition tree_catalog_is_a_directory : list (string * node) :=
  [("tools", Dir [("blender", Dir [])]); ("catalog.json", Dir [])].

(** A record without its timestamp, and a mapping without the timestamps
    of its records. *)
Definition without_date (t : ToolRecord) : ToolRecord :=
  {| name := name t;
     description := description t;
     folder := folder t;
     updated_at := "";
     dependencies := dependencies t;
     id := id t |}.

Definition without_dates (o : jsobject (list ToolRecord))
  : jsobject (list ToolRecord) :=
  map (fun e => (fst e, map without_date (snd e))) o.

(** The conversion of [v] to a string does not throw. *)
Definition printable (w : world) (v : json) : Prop :=
  exists s, ToString w v = Ok s.

(** The values that the success line of [processTool] converts to
    strings, for the descriptor [metadata] of the folder [toolName]: the
    id, when it counts as true, and the name of the record. *)
Definition logged (metadata : json) (toolName : string) : list json :=
  ((if truthy_opt (field metadata "id")
    then match field metadata "id" with
         | Some v => [v]
         | None => []
         end
    else [])
   ++ [js_or (field metadata "name") (JStr toolName)])%list.

(** A checkout below a directory that is itself named [tools]: the
    working directory is [/srv/tools/peg], and a descriptor lies directly
    inside the category directory [tools/blender]. *)
Definition world_below_tools : world :=
  {| root :=
       Dir [("srv", Dir
          [("tools", Dir
             [("peg", Dir
                [("tools", Dir
                   [("blender", Dir
                      [("metadata.json",
                        descriptor_file [("name", JStr "B")]);
                       ("tool.py", plain_file)])])])])])];
     cwd := "/srv/tools/peg";
     git_log := fun _ => Ok "2024-05-01T10:00:00+00:00";
     now := "2024-06-01T00:00:00.000Z";
     localeCompare := code_unit_compare;
     Number_toString := fun _ => "0" |}.

(** The descriptor of [tools/blender/a] gives as name an object with an
    own property [toString], which cannot be converted to a string. *)
Definition tree_unconvertible_name : list (string * node) :=
  [("tools", Dir
     [("blender", Dir
        [("a", Dir
           [("metadata.json",
             descriptor_file [("name", JObj [("toString", JNum 1)])]);
            ("tool.py", plain_file)])])])].

(* ================================================================== *)
(** * The tool processor *)
(* ================================================================== *)

(** Induction on a parsed value, with the hypothesis for every item of
    an array. *)
Lemma json_tree_ind (P : json -> Prop) :
  P JNull -> (forall b, P (JBool b)) -> (forall q, P (JNum q)) ->
  (forall s, P (JStr s)) ->
  (forall items, Forall P items -> P (JArr items)) ->
  (forall props, P (JObj props)) ->
  forall v, P v.
Proof.
  intros Hnull Hbool Hnum Hstr Harr Hobj.
  fix IH 1. intros [| b | q | s | items | props].
  - exact Hnull.
  - apply Hbool.
  - apply Hnum.
  - apply Hstr.
  - apply Harr. induction items as [| x items IHitems]; constructor.
    + apply IH.
    + exact IHitems.
  - apply Hobj.
Qed.

(** The conversion to a string does not look at the version control. *)
Lemma ToString_with_git_log (w : world) (g : string -> outcome string) v :
  ToString (with_git_log w g) v = ToString w v.
Proof.
  induction v as [| b | q | s | items IH | props] using json_tree_ind;
    try reflexivity.
  cbn [ToString]. induction IH as [| x items Hx _ IHitems]; [reflexivity |].
  destruct items as [| y items].
  - destruct x; try reflexivity; exact Hx.
  - rewrite IHitems. destruct x; try reflexivity; rewrite Hx; reflexivity.
Qed.

Section ToolProcessor.

Variable w : world.

Lemma bind_Ok {A B} (m : M A) (f : A -> M B) d b :
  bind m f = (d, Ok b) ->
  exists d1 a d2, m = (d1, Ok a) /\ f a = (d2, Ok b) /\ d = (d1 ++ d2)%list.
Proof.
  unfold bind. destruct m as [d1 [a | e]]; [| discriminate].
  destruct (f a) as [d2 r] eqn:Hf. intros H. inversion H; subst.
  exists d1, a, d2. auto.
Qed.

Lemma bind_intro {A B} (m : M A) (f : A -> M B) d1 a d2 b :
  m = (d1, Ok a) -> f a = (d2, Ok b) -> bind m f = ((d1 ++ d2)%list, Ok b).
Proof.
  intros -> Hf. unfold bind. rewrite Hf. reflexivity.
Qed.

Lemma snd_bind_Ok {A B} (m : M A) (f : A -> M B) d a :
  m = (d, Ok a) -> snd (bind m f) = snd (f a).
Proof.
  intros ->. unfold bind. destruct (f a). reflexivity.
Qed.

Lemma snd_bind_Throw {A B} (m : M A) (f : A -> M B) e :
  snd m = Throw e -> snd (bind m f) = Throw e.
Proof.
  destruct m as [d o]. simpl. intros ->. reflexivity.
Qed.

Lemma fst_bind_incl {A B} (m : M A) (f : A -> M B) x :
  In x (fst m) -> In x (fst (bind m f)).
Proof.
  destruct m as [d [a | e]]; simpl; [| tauto].
  destruct (f a). simpl. intros H. apply in_or_app. left. exact H.
Qed.

Lemma fst_bind_Ok_incl {A B} (m : M A) (f : A -> M B) d a x :
  m = (d, Ok a) -> In x (fst (f a)) -> In x (fst (bind m f)).
Proof.
  intros -> H. unfold bind. destruct (f a). simpl in *.
  apply in_or_app. right. exact H.
Qed.

Lemma getMainFileName_value softwareType :
  snd (getMainFileName softwareType) = Ok (mainFileName_of softwareType).
Proof.
  unfold getMainFileName, mainFileName_of.
  destruct (get_property SOFTWARE_CONFIG softwareType); reflexivity.
Qed.

Lemma getLastCommitDate_returns dirPath :
  exists date, snd (getLastCommitDate w dirPath) = Ok date.
Proof.
  unfold getLastCommitDate, try_catch, bind, lift, tell, ret.
  destruct (git_log w dirPath) as [result | e]; simpl.
  - destruct (trim result =? ""); simpl; eauto.
  - eauto.
Qed.

Lemma member_field metadata k v :
  member metadata k = Ok v -> v = field metadata k /\ metadata <> JNull.
Proof.
  destruct metadata; simpl; intros H; inversion H; subst; split; congruence.
Qed.

Lemma excluded_is_dependency mainFileName entries :
  filter
    (fun entry : string * node =>
       if existsb (String.eqb (fst entry)) ["metadata.json"; mainFileName]
       then false else isFile (snd entry)) entries
  = filter (is_dependency mainFileName) entries.
Proof.
  apply filter_ext. intros [e n]. unfold is_dependency. simpl.
  destruct (e =? "metadata.json"), (e =? mainFileName); reflexivity.
Qed.

Lemma member_defined metadata k :
  metadata <> JNull -> member metadata k = Ok (field metadata k).
Proof.
  destruct metadata; simpl; congruence.
Qed.

(** The only error of a conversion to a string. *)
Lemma ToString_error v e :
  ToString w v = Throw e ->
  e = TypeError "Cannot convert object to primitive value".
Proof.
  induction v as [| b | q | s | items IH | props] using json_tree_ind;
    try discriminate.
  - destruct b; discriminate.
  - cbn [ToString]. induction IH as [| x items Hx _ IHitems]; [discriminate |].
    destruct items as [| y items].
    + destruct x; try discriminate; exact Hx.
    + match goal with
      | |- obind ?a _ = _ -> _ => destruct a as [sx | ex] eqn:Hex
      end; cbn [obind].
      * match goal with
        | |- obind ?b _ = _ -> _ => destruct b as [t | et] eqn:Hj
        end; cbn [obind]; [discriminate |].
        exact IHitems.
      * intros H. inversion H; subst. apply Hx.
        destruct x; try discriminate; exact Hex.
  - simpl. destruct (assoc "toString" props); [| discriminate].
    intros H. inversion H. reflexivity.
Qed.

(** The two conversions of the success line succeed exactly when the
    logged values can be converted. *)
Lemma conversions_of_logged metadata toolName :
  Forall (printable w) (logged metadata toolName) <->
  exists si sn,
    match (if truthy_opt (field metadata "id")
           then field metadata "id" else None) with
    | Some v => ToString w v
    | None => Ok ""
    end = Ok si /\
    ToString w (js_or (field metadata "name") (JStr toolName)) = Ok sn.
Proof.
  unfold logged.
  destruct (field metadata "id") as [v |]; simpl.
  - destruct (truthy v); simpl.
    + split.
      * intros H. inversion H as [| ? ? [si Hsi] H']; subst.
        inversion H' as [| ? ? [sn Hsn] _]; subst. eauto.
      * intros (si & sn & Hsi & Hsn).
        constructor; [exists si; exact Hsi |].
        constructor; [exists sn; exact Hsn | constructor].
    + split.
      * intros H. inversion H as [| ? ? [sn Hsn] _]; subst. eauto.
      * intros (si & sn & _ & Hsn).
        constructor; [exists sn; exact Hsn | constructor].
  - split.
    + intros H. inversion H as [| ? ? [sn Hsn] _]; subst. eauto.
    + intros (si & sn & _ & Hsn).
      constructor; [exists sn; exact Hsn | constructor].
Qed.

(** What a successful call has read, converted and built. *)
Lemma processTool_inversion p d r :
  processTool w p = (d, Ok (Some r)) ->
  exists metadata entries date,
    descriptor w p = Ok metadata /\
    metadata <> JNull /\
    extractSoftwareType p = Ok (softwareType r) /\
    existsSync w (path_join (path_dirname p)
                    (mainFileName_of (softwareType r))) = true /\
    readdirSync w (path_dirname p) = Ok entries /\
    snd (getLastCommitDate w (path_dirname p)) = Ok date /\
    tool r =
      (let deps :=
         map fst (filter (is_dependency (mainFileName_of (softwareType r)))
                    entries) in
       {| name := js_or (field metadata "name") (JStr (extractToolName p));
          description := js_or (field metadata "description") (JStr "");
          folder := extractToolName p;
          updated_at := date;
          dependencies :=
            if (0 <? List.length deps)%nat then Some deps else None;
          id := if truthy_opt (field metadata "id")
                then field metadata "id" else None |}) /\
    Forall (printable w) (logged metadata (extractToolName p)).
Proof.
  unfold processTool, processTool_try, descriptor.
  destruct (readJSON w p) as [metadata | e]; simpl; [| discriminate].
  destruct (extractSoftwareType p) as [st | e]; simpl; [| discriminate].
  unfold verifyMainToolFile, findDependencies.
  pose proof (getMainFileName_value st) as Hm.
  destruct (getMainFileName st) as [dm om]; simpl in Hm; subst om; simpl.
  destruct (existsSync w (path_join (path_dirname p) (mainFileName_of st)))
    eqn:Hex; simpl; [| discriminate].
  destruct (readdirSync w (path_dirname p)) as [entries | e]; simpl;
    [| discriminate].
  destruct (getLastCommitDate_returns (path_dirname p)) as [date Hdate].
  destruct (getLastCommitDate w (path_dirname p)) as [dg og];
    simpl in Hdate; subst og; simpl.
  destruct (member metadata "name") as [mn | e] eqn:Hn; simpl;
    [| discriminate].
  destruct (member metadata "description") as [md | e] eqn:Hd; simpl;
    [| discriminate].
  destruct (member metadata "id") as [mi | e] eqn:Hi; simpl;
    [| discriminate].
  destruct (match (if truthy_opt mi then mi else None) with
            | Some v => ToString w v
            | None => Ok ""
            end) as [si | e] eqn:Hsi; simpl; [| discriminate].
  destruct (ToString w (js_or mn (JStr (extractToolName p))))
    as [sn | e] eqn:Hsn; simpl; [| discriminate].
  intros H. inversion H; subst; clear H. simpl.
  apply member_field in Hn, Hd, Hi.
  destruct Hn as [-> Hnn], Hd as [-> _], Hi as [-> _].
  exists metadata, entries, date.
  split; [reflexivity |]. split; [exact Hnn |]. split; [reflexivity |].
  split; [exact Hex |]. split; [reflexivity |]. split; [reflexivity |].
  split.
  - rewrite <- (excluded_is_dependency (mainFileName_of st) entries).
    reflexivity.
  - apply conversions_of_logged. eauto.
Qed.

(** What a successful call has read and built. *)
Lemma processTool_success p d r :
  processTool w p = (d, Ok (Some r)) ->
  exists metadata entries date,
    descriptor w p = Ok metadata /\
    metadata <> JNull /\
    extractSoftwareType p = Ok (softwareType r) /\
    existsSync w (path_join (path_dirname p)
                    (mainFileName_of (softwareType r))) = true /\
    readdirSync w (path_dirname p) = Ok entries /\
    snd (getLastCommitDate w (path_dirname p)) = Ok date /\
    tool r =
      (let deps :=
         map fst (filter (is_dependency (mainFileName_of (softwareType r)))
                    entries) in
       {| name := js_or (field metadata "name") (JStr (extractToolName p));
          description := js_or (field metadata "description") (JStr "");
          folder := extractToolName p;
          updated_at := date;
          dependencies :=
            if (0 <? List.length deps)%nat then Some deps else None;
          id := if truthy_opt (field metadata "id")
                then field metadata "id" else None |}).
Proof.
  intros H.
  destruct (processTool_inversion p d r H)
    as (metadata & entries & date & H1 & H2 & H3 & H4 & H5 & H6 & H7 & _).
  exists metadata, entries, date. auto 10.
Qed.

(** The values that a successful call printed could be converted. *)
Lemma processTool_success_logged p d r metadata :
  processTool w p = (d, Ok (Some r)) ->
  descriptor w p = Ok metadata ->
  Forall (printable w) (logged metadata (extractToolName p)).
Proof.
  intros H Hd.
  destruct (processTool_inversion p d r H)
    as (m & entries & date & H1 & _ & _ & _ & _ & _ & _ & Hl).
  assert (m = metadata) by congruence. subst m. exact Hl.
Qed.

(** The try block wrapped in its catch never throws. *)
Lemma processTool_returns p :
  exists res, snd (processTool w p) = Ok res.
Proof.
  unfold processTool, try_catch.
  destruct (processTool_try w p) as [d [res | e]]; simpl; eauto.
Qed.

Lemma no_warning_in_timestamp st dirPath :
  unknown_type_warnings st (fst (getLastCommitDate w dirPath)) = [].
Proof.
  unfold getLastCommitDate, try_catch, bind, lift, tell, ret.
  destruct (git_log w dirPath) as [out | e]; simpl; [| reflexivity].
  destruct (trim out =? ""); reflexivity.
Qed.

(** The diagnostics and the value of a call that gets past the reading of
    the descriptor, the derivation of the category and the conversions of
    the success line. *)
Lemma processTool_unfolded p metadata st entries :
  descriptor w p = Ok metadata ->
  metadata <> JNull ->
  extractSoftwareType p = Ok st ->
  existsSync w (path_join (path_dirname p) (mainFileName_of st)) = true ->
  readdirSync w (path_dirname p) = Ok entries ->
  Forall (printable w) (logged metadata (extractToolName p)) ->
  exists r,
    processTool w p
    = ((fst (getMainFileName st) ++ fst (getMainFileName st)
        ++ fst (getLastCommitDate w (path_dirname p))
        ++ [LogProcessed (name (tool r)) st
              (List.length
                 (map fst (filter (is_dependency (mainFileName_of st))
                             entries)))
              (id (tool r))])%list,
       Ok (Some r)) /\
    softwareType r = st.
Proof.
  intros Hd Hnn Hst Hex Hdir Hlog. unfold descriptor in Hd.
  destruct (proj1 (conversions_of_logged metadata (extractToolName p)) Hlog)
    as (si & sn & Hsi & Hsn).
  unfold processTool, processTool_try. rewrite Hd, Hst. simpl.
  unfold verifyMainToolFile, findDependencies.
  pose proof (getMainFileName_value st) as Hm.
  destruct (getMainFileName st) as [dm om]; simpl in Hm; subst om; simpl.
  rewrite Hex. simpl. rewrite Hdir. simpl.
  destruct (getLastCommitDate_returns (path_dirname p)) as [date Hdate].
  destruct (getLastCommitDate w (path_dirname p)) as [dg og].
  simpl in Hdate; subst og; simpl.
  rewrite !(member_defined metadata _ Hnn). simpl.
  rewrite Hsi. simpl. rewrite Hsn. simpl.
  rewrite <- (excluded_is_dependency (mainFileName_of st) entries).
  simpl. rewrite app_nil_r.
  match goal with
  | |- exists r, (_, Ok (Some ?x)) = _ /\ _ => exists x
  end.
  split; reflexivity.
Qed.

Lemma processTool_skipped p metadata st :
  descriptor w p = Ok metadata ->
  extractSoftwareType p = Ok st ->
  existsSync w (path_join (path_dirname p) (mainFileName_of st)) = false ->
  processTool w p
  = ((fst (getMainFileName st) ++ fst (getMainFileName st)
      ++ [ErrSkipping (extractToolName p) (mainFileName_of st)])%list,
     Ok None).
Proof.
  intros Hd Hst Hex. unfold descriptor in Hd.
  unfold processTool, processTool_try, verifyMainToolFile.
  rewrite Hd, Hst. simpl.
  pose proof (getMainFileName_value st) as Hm.
  destruct (getMainFileName st) as [dm om]; simpl in Hm; subst om; simpl.
  rewrite Hex. simpl. rewrite app_nil_r. reflexivity.
Qed.

Lemma processTool_null_descriptor p st entries :
  descriptor w p = Ok JNull ->
  extractSoftwareType p = Ok st ->
  existsSync w (path_join (path_dirname p) (mainFileName_of st)) = true ->
  readdirSync w (path_dirname p) = Ok entries ->
  snd (processTool w p) = Ok None /\
  In (ErrFailedToProcess p (TypeError "Cannot read properties of null"))
     (fst (processTool w p)).
Proof.
  intros Hd Hst Hex Hdir. unfold descriptor in Hd.
  unfold processTool, processTool_try. rewrite Hd, Hst. simpl.
  unfold verifyMainToolFile, findDependencies.
  pose proof (getMainFileName_value st) as Hm.
  destruct (getMainFileName st) as [dm om]; simpl in Hm; subst om; simpl.
  rewrite Hex. simpl. rewrite Hdir. simpl.
  destruct (getLastCommitDate_returns (path_dirname p)) as [date Hdate].
  destruct (getLastCommitDate w (path_dirname p)) as [dg og].
  simpl in Hdate; subst og; simpl.
  split; [reflexivity |].
  repeat (apply in_or_app; right). left. reflexivity.
Qed.

(** A name or an id that cannot be converted for the success line makes
    the call fail inside its [try] block, after the record is built. *)
Lemma processTool_unprintable p metadata st entries :
  descriptor w p = Ok metadata ->
  metadata <> JNull ->
  extractSoftwareType p = Ok st ->
  existsSync w (path_join (path_dirname p) (mainFileName_of st)) = true ->
  readdirSync w (path_dirname p) = Ok entries ->
  ~ Forall (printable w) (logged metadata (extractToolName p)) ->
  snd (processTool w p) = Ok None /\
  In (ErrFailedToProcess p
        (TypeError "Cannot convert object to primitive value"))
     (fst (processTool w p)).
Proof.
  intros Hd Hnn Hst Hex Hdir Hlog. unfold descriptor in Hd.
  unfold processTool, processTool_try. rewrite Hd, Hst. simpl.
  unfold verifyMainToolFile, findDependencies.
  pose proof (getMainFileName_value st) as Hm.
  destruct (getMainFileName st) as [dm om]; simpl in Hm; subst om; simpl.
  rewrite Hex. simpl. rewrite Hdir. simpl.
  destruct (getLastCommitDate_returns (path_dirname p)) as [date Hdate].
  destruct (getLastCommitDate w (path_dirname p)) as [dg og].
  simpl in Hdate; subst og; simpl.
  rewrite !(member_defined metadata _ Hnn). simpl.
  destruct (match (if truthy_opt (field metadata "id")
                   then field metadata "id" else None) with
            | Some v => ToString w v
            | None => Ok ""
            end) as [si | e] eqn:Hsi; simpl.
  - destruct (ToString w (js_or (field metadata "name")
                            (JStr (extractToolName p))))
      as [sn | e] eqn:Hsn; simpl.
    + exfalso. apply Hlog. apply conversions_of_logged. eauto.
    + rewrite (ToString_error _ _ Hsn). split; [reflexivity |].
      repeat (apply in_or_app; right). left. reflexivity.
  - assert (He : e = TypeError "Cannot convert object to primitive value").
    { destruct (if truthy_opt (field metadata "id")
                then field metadata "id" else None) as [v |];
        [exact (ToString_error _ _ Hsi) | discriminate]. }
    rewrite He. split; [reflexivity |].
    repeat (apply in_or_app; right). left. reflexivity.
Qed.

(** A call that returns [null] has printed why. *)
Lemma processTool_null_reported p :
  snd (processTool w p) = Ok None ->
  (exists e, In (ErrFailedToProcess p e) (fst (processTool w p)))
  \/ (exists m, In (ErrSkipping (extractToolName p) m)
                   (fst (processTool w p))).
Proof.
  unfold processTool, try_catch.
  destruct (processTool_try w p) as [d [[r |] | e]] eqn:Htry; simpl.
  - discriminate.
  - intros _. right. unfold processTool_try in Htry.
    destruct (readJSON w p) as [metadata | e]; simpl in Htry;
      [| discriminate].
    destruct (extractSoftwareType p) as [st | e]; simpl in Htry;
      [| discriminate].
    unfold verifyMainToolFile, findDependencies in Htry.
    pose proof (getMainFileName_value st) as Hm.
    destruct (getMainFileName st) as [dm om]; simpl in Hm; subst om.
    simpl in Htry.
    destruct (existsSync w (path_join (path_dirname p) (mainFileName_of st)));
      simpl in Htry.
    + destruct (readdirSync w (path_dirname p)) as [entries | e];
        simpl in Htry; [| discriminate].
      destruct (getLastCommitDate_returns (path_dirname p)) as [date Hdate].
      destruct (getLastCommitDate w (path_dirname p)) as [dg og].
      simpl in Hdate; subst og; simpl in Htry.
      destruct (member metadata "name") as [mn | e]; simpl in Htry;
        [| discriminate].
      destruct (member metadata "description"); simpl in Htry;
        [| discriminate].
      destruct (member metadata "id") as [mi | e]; simpl in Htry;
        [| discriminate].
      destruct (match (if truthy_opt mi then mi else None) with
                | Some v => ToString w v
                | None => Ok ""
                end); simpl in Htry; [| discriminate].
      destruct (ToString w (js_or mn (JStr (extractToolName p))));
        simpl in Htry; discriminate.
    + inversion Htry; subst. exists (mainFileName_of st).
      repeat (apply in_or_app; right). left. reflexivity.
  - intros _. left. exists e. apply in_or_app. right. left. reflexivity.
Qed.

(** A descriptor that gives [null] leaves the mapping of the loop as it
    is, and the loop ends as it does without that descriptor. *)
Lemma add_result_of_null tools0 p :
  snd (processTool w p) = Ok None ->
  snd (add_result w tools0 p) = Ok tools0.
Proof.
  unfold add_result. destruct (processTool w p) as [d o]. simpl.
  intros ->. reflexivity.
Qed.

Lemma snd_process_all_app l1 :
  forall l2 tools0,
    snd (process_all w tools0 (l1 ++ l2))
    = match snd (process_all w tools0 l1) with
      | Ok tools1 => snd (process_all w tools1 l2)
      | Throw e => Throw e
      end.
Proof.
  induction l1 as [| q l1 IH]; intros l2 tools0; [reflexivity |].
  simpl app. cbn [process_all].
  destruct (add_result w tools0 q) as [d [tools' | e]] eqn:Hstep.
  - rewrite !(snd_bind_Ok _ _ d tools' eq_refl). apply IH.
  - reflexivity.
Qed.

Lemma process_all_without_null p before after tools0 :
  snd (processTool w p) = Ok None ->
  snd (process_all w tools0 (before ++ p :: after))
  = snd (process_all w tools0 (before ++ after)).
Proof.
  intros Hnull. rewrite !snd_process_all_app.
  destruct (snd (process_all w tools0 before)) as [tools1 | e];
    [| reflexivity].
  cbn [process_all].
  pose proof (add_result_of_null tools1 p Hnull) as Hstep.
  destruct (add_result w tools1 p) as [d o]. simpl in Hstep. subst o.
  exact (snd_bind_Ok (d, Ok tools1)
           (fun tools' => process_all w tools' after) d tools1 eq_refl).
Qed.

End ToolProcessor.

(* ------------------------------------------------------------------ *)
(** ** Optional fields of a record *)

(** C4. For a successfully processed tool, the [dependencies] field is
    present if and only if the tool directory lists at least one regular
    file other than [metadata.json] and the main file of the category;
    when present it holds exactly those names, in listing order. *)
Theorem C4_dependencies_field (w : world) (p : string) (d : list diag)
    (r : ProcessResult) :
  processTool w p = (d, Ok (Some r)) ->
  exists entries,
    readdirSync w (path_dirname p) = Ok entries /\
    ((exists l, dependencies (tool r) = Some l) <->
     (exists e, In e entries /\
                fst e <> "metadata.json" /\
                fst e <> mainFileName_of (softwareType r) /\
                isFile (snd e) = true)) /\
    (forall l, dependencies (tool r) = Some l ->
       l = map fst
             (filter (is_dependency (mainFileName_of (softwareType r)))
                entries)).
Proof.
  intros H.
  destruct (processTool_success w p d r H)
    as (metadata & entries & date & _ & _ & _ & _ & Hdir & _ & Ht).
  exists entries. split; [exact Hdir |].
  rewrite Ht. cbn [dependencies].
  set (main := mainFileName_of (softwareType r)).
  set (kept := filter (is_dependency main) entries).
  assert (Hkept : forall e, In e kept <->
            In e entries /\ fst e <> "metadata.json" /\ fst e <> main /\
            isFile (snd e) = true).
  { intros e. unfold kept. rewrite filter_In. unfold is_dependency.
    rewrite !andb_true_iff, !negb_true_iff, !String.eqb_neq. tauto. }
  split; [split |].
  - intros [l Hl]. destruct kept as [| e kept'] eqn:Hk.
    + simpl in Hl. discriminate.
    + exists e. apply Hkept. left. reflexivity.
  - intros [e He]. apply Hkept in He.
    destruct kept as [| e' kept']; [destruct He |].
    simpl. eauto.
  - intros l Hl. rewrite length_map in Hl.
    destruct (0 <? List.length kept)%nat; congruence.
Qed.

Lemma C4_dependencies_field_witness :
  exists entries,
    readdirSync (sample_world tree_one_tool)
      (path_dirname "/repo/tools/blender/a/metadata.json") = Ok entries /\
    map fst (filter (is_dependency "tool.py") entries) = ["helper.py"].
Proof.
  destruct (C4_dependencies_field (sample_world tree_one_tool)
              "/repo/tools/blender/a/metadata.json"
              (fst (processTool (sample_world tree_one_tool)
                      "/repo/tools/blender/a/metadata.json"))
              result_a
              eq_refl)
    as (entries & Hdir & _ & Hlist).
  exists entries. split; [exact Hdir |].
  symmetry. apply Hlist. reflexivity.
Defined.

(** C5. For a successfully processed tool whose descriptor has a string
    as [id], the record has an [id] exactly when that string is not empty,
    and it is then the descriptor's; a descriptor without [id] gives a
    record without [id]. *)
Theorem C5_id_field (w : world) (p : string) (d : list diag)
    (r : ProcessResult) :
  processTool w p = (d, Ok (Some r)) ->
  exists metadata,
    descriptor w p = Ok metadata /\
    (forall s, field metadata "id" = Some (JStr s) ->
       ((exists v, id (tool r) = Some v) <-> s <> "") /\
       (forall v, id (tool r) = Some v -> v = JStr s)) /\
    (field metadata "id" = None -> id (tool r) = None).
Proof.
  intros H.
  destruct (processTool_success w p d r H)
    as (metadata & entries & date & Hdesc & _ & _ & _ & _ & _ & Ht).
  exists metadata. split; [exact Hdesc |].
  rewrite Ht. cbn [id]. split.
  - intros s Hs. rewrite Hs. simpl.
    destruct (s =? "") eqn:He; simpl.
    + apply String.eqb_eq in He. subst s. split.
      * split; [intros [v Hv]; discriminate | congruence].
      * discriminate.
    + apply String.eqb_neq in He. split.
      * split; [intros _; exact He | intros _; eauto].
      * congruence.
  - intros Hnone. rewrite Hnone. reflexivity.
Qed.

Lemma C5_id_field_witness :
  exists metadata,
    descriptor (sample_world tree_one_tool)
      "/repo/tools/blender/a/metadata.json" = Ok metadata /\
    field metadata "id" = Some (JStr "tool-a").
Proof.
  destruct (C5_id_field (sample_world tree_one_tool)
              "/repo/tools/blender/a/metadata.json"
              (fst (processTool (sample_world tree_one_tool)
                      "/repo/tools/blender/a/metadata.json"))
              result_a
              eq_refl)
    as (metadata & Hdesc & _ & _).
  exists metadata. split; [exact Hdesc |].
  vm_compute in Hdesc. inversion Hdesc. reflexivity.
Defined.

(* ------------------------------------------------------------------ *)
(** ** Name and description *)

(** C6 as stated fails: a descriptor that supplies the empty string as
    [name] gets the folder name instead. *)
Lemma C6_empty_name_counterexample :
  exists metadata r,
    descriptor (sample_world tree_empty_name)
      "/repo/tools/blender/a/metadata.json" = Ok metadata /\
    field metadata "name" = Some (JStr "") /\
    snd (processTool (sample_world tree_empty_name)
           "/repo/tools/blender/a/metadata.json") = Ok (Some r) /\
    name (tool r) = JStr "a" /\
    name (tool r) <> JStr "".
Proof.
  exists (JObj [("name", JStr ""); ("description", JStr "")]).
  eexists. split; [reflexivity |]. split; [reflexivity |].
  split; [vm_compute; reflexivity |].
  split; [reflexivity | discriminate].
Qed.

(** C6, amended. For a successfully processed tool, [name] is the
    descriptor's [name] string when that string is not empty, and the
    folder name when the descriptor has no [name] or an empty one;
    [description] is the descriptor's string when it has one and the
    empty string when it has none. *)
Theorem C6_name_and_description (w : world) (p : string) (d : list diag)
    (r : ProcessResult) :
  processTool w p = (d, Ok (Some r)) ->
  exists metadata,
    descriptor w p = Ok metadata /\
    folder (tool r) = extractToolName p /\
    (forall s, field metadata "name" = Some (JStr s) -> s <> "" ->
       name (tool r) = JStr s) /\
    (field metadata "name" = None \/ field metadata "name" = Some (JStr "") ->
       name (tool r) = JStr (folder (tool r))) /\
    (forall s, field metadata "description" = Some (JStr s) ->
       description (tool r) = JStr s) /\
    (field metadata "description" = None ->
       description (tool r) = JStr "").
Proof.
  intros H.
  destruct (processTool_success w p d r H)
    as (metadata & entries & date & Hdesc & _ & _ & _ & _ & _ & Ht).
  exists metadata. split; [exact Hdesc |].
  rewrite Ht. cbn [name description folder].
  split; [reflexivity |]. repeat split.
  - intros s Hs Hne. rewrite Hs. simpl.
    apply String.eqb_neq in Hne. rewrite Hne. reflexivity.
  - intros [Hn | Hn]; rewrite Hn; reflexivity.
  - intros s Hs. rewrite Hs. simpl.
    destruct (s =? "") eqn:He; simpl; [| reflexivity].
    apply String.eqb_eq in He. subst s. reflexivity.
  - intros Hn. rewrite Hn. reflexivity.
Qed.

Lemma C6_name_and_description_witness :
  exists metadata,
    descriptor (sample_world tree_one_tool)
      "/repo/tools/blender/a/metadata.json" = Ok metadata /\
    field metadata "name" = Some (JStr "A") /\
    field metadata "description" = None.
Proof.
  destruct (C6_name_and_description (sample_world tree_one_tool)
              "/repo/tools/blender/a/metadata.json"
              (fst (processTool (sample_world tree_one_tool)
                      "/repo/tools/blender/a/metadata.json"))
              result_a
              eq_refl)
    as (metadata & Hdesc & _).
  exists metadata. split; [exact Hdesc |].
  vm_compute in Hdesc. inversion Hdesc. split; reflexivity.
Defined.

(* ------------------------------------------------------------------ *)
(** ** Failures of one tool *)

Lemma getLastCommitDate_failed (w : world) (dirPath : string) (e : error) :
  git_log w dirPath = Throw e ->
  getLastCommitDate w dirPath = ([WarnGitFailed dirPath e], Ok (now w)).
Proof.
  intros H. unfold getLastCommitDate. rewrite H. reflexivity.
Qed.

(** Whether a tool is skipped does not depend on the version control. *)
Lemma processTool_skip_independent_of_git (w : world)
    (g : string -> outcome string) (p : string) :
  snd (processTool (with_git_log w g) p) = Ok None <->
  snd (processTool w p) = Ok None.
Proof.
  unfold processTool, processTool_try.
  change (readJSON (with_git_log w g) p) with (readJSON w p).
  destruct (readJSON w p) as [metadata | e]; simpl; [| tauto].
  destruct (extractSoftwareType p) as [st | e]; simpl; [| tauto].
  unfold verifyMainToolFile, findDependencies.
  change (existsSync (with_git_log w g)) with (existsSync w).
  change (readdirSync (with_git_log w g)) with (readdirSync w).
  pose proof (getMainFileName_value st) as Hm.
  destruct (getMainFileName st) as [dm om]; simpl in Hm; subst om; simpl.
  destruct (existsSync w (path_join (path_dirname p) (mainFileName_of st)));
    simpl; [| tauto].
  destruct (readdirSync w (path_dirname p)) as [entries | e]; simpl;
    [| tauto].
  destruct (getLastCommitDate_returns w (path_dirname p)) as [d1 H1].
  destruct (getLastCommitDate_returns (with_git_log w g) (path_dirname p))
    as [d2 H2].
  destruct (getLastCommitDate w (path_dirname p)) as [dg1 o1].
  destruct (getLastCommitDate (with_git_log w g) (path_dirname p))
    as [dg2 o2].
  simpl in H1, H2. subst o1 o2. simpl.
  destruct (member metadata "name") as [mn | e]; simpl; [| tauto].
  destruct (member metadata "description"); simpl; [| tauto].
  destruct (member metadata "id") as [mi | e]; simpl; [| tauto].
  destruct (if truthy_opt mi then mi else None) as [vi |]; simpl;
    rewrite ?ToString_with_git_log.
  - destruct (ToString w vi); simpl; [| tauto].
    destruct (ToString w (js_or mn (JStr (extractToolName p)))); simpl;
      [| tauto].
    split; discriminate.
  - destruct (ToString w (js_or mn (JStr (extractToolName p)))); simpl;
      [| tauto].
    split; discriminate.
Qed.

(** C7 as stated fails: when the timestamp lookup fails the tool is not
    dropped; its record carries the time of the run. *)
Lemma C7_timestamp_failure_counterexample :
  exists d r,
    git_log
      (with_git_log (sample_world tree_one_tool)
         (fun _ => Throw (ExecError "git: not found")))
      "/repo/tools/blender/a" = Throw (ExecError "git: not found") /\
    processTool
      (with_git_log (sample_world tree_one_tool)
         (fun _ => Throw (ExecError "git: not found")))
      "/repo/tools/blender/a/metadata.json" = (d, Ok (Some r)) /\
    updated_at (tool r) = "2024-06-01T00:00:00.000Z".
Proof.
  eexists. eexists. split; [reflexivity |].
  split; [vm_compute; reflexivity | reflexivity].
Qed.

(** C7, amended. [processTool] never throws.  Unreadable or malformed
    descriptor content, an invalid path structure and a missing main file
    each give [null] and a diagnostic; so do, once the main file is found
    and the tool directory listed, a descriptor that holds [null] and a
    name or an id that cannot be converted to a string for the success
    line.  A failed timestamp lookup does not: it never changes whether
    the tool is skipped, and a record built after it carries the time of
    the run, with a warning.  Every [null] comes with a diagnostic, and it
    does not stop the loop of the run: the mapping is left as it is, and
    the loop ends with the same mapping, or the same error, as without
    that descriptor. *)
Theorem C7_failures_contained (w : world) (p : string) :
  (exists res, snd (processTool w p) = Ok res) /\
  (forall e, descriptor w p = Throw e ->
     processTool w p = ([ErrFailedToProcess p e], Ok None)) /\
  (resolve w p = Some (File None) ->
     processTool w p = ([ErrFailedToProcess p SyntaxError], Ok None)) /\
  (forall metadata e,
     descriptor w p = Ok metadata ->
     extractSoftwareType p = Throw e ->
     processTool w p = ([ErrFailedToProcess p e], Ok None)) /\
  (forall metadata st,
     descriptor w p = Ok metadata ->
     extractSoftwareType p = Ok st ->
     existsSync w (path_join (path_dirname p) (mainFileName_of st)) = false ->
     snd (processTool w p) = Ok None /\
     In (ErrSkipping (extractToolName p) (mainFileName_of st))
        (fst (processTool w p))) /\
  (forall g,
     snd (processTool (with_git_log w g) p) = Ok None <->
     snd (processTool w p) = Ok None) /\
  (forall d r e,
     processTool w p = (d, Ok (Some r)) ->
     git_log w (path_dirname p) = Throw e ->
     updated_at (tool r) = now w /\
     In (WarnGitFailed (path_dirname p) e) d) /\
  (forall metadata st entries,
     descriptor w p = Ok metadata ->
     extractSoftwareType p = Ok st ->
     existsSync w (path_join (path_dirname p) (mainFileName_of st)) = true ->
     readdirSync w (path_dirname p) = Ok entries ->
     (metadata = JNull ->
      snd (processTool w p) = Ok None /\
      In (ErrFailedToProcess p (TypeError "Cannot read properties of null"))
         (fst (processTool w p))) /\
     (metadata <> JNull ->
      ~ Forall (printable w) (logged metadata (extractToolName p)) ->
      snd (processTool w p) = Ok None /\
      In (ErrFailedToProcess p
            (TypeError "Cannot convert object to primitive value"))
         (fst (processTool w p)))) /\
  (snd (processTool w p) = Ok None ->
   ((exists e, In (ErrFailedToProcess p e) (fst (processTool w p)))
    \/ (exists m, In (ErrSkipping (extractToolName p) m)
                     (fst (processTool w p)))) /\
   forall tools0 before after,
     snd (add_result w tools0 p) = Ok tools0 /\
     snd (process_all w tools0 (before ++ p :: after))
     = snd (process_all w tools0 (before ++ after))).
Proof.
  split; [apply processTool_returns |].
  split.
  { intros e H. unfold descriptor in H.
    unfold processTool, processTool_try. rewrite H. reflexivity. }
  split.
  { intros H. unfold processTool, processTool_try, readJSON.
    rewrite H. reflexivity. }
  split.
  { intros metadata e Hd He. unfold descriptor in Hd.
    unfold processTool, processTool_try. rewrite Hd, He. reflexivity. }
  split.
  { intros metadata st Hd Hst Hex.
    rewrite (processTool_skipped w p metadata st Hd Hst Hex).
    split; [reflexivity |]. cbn [fst].
    apply in_or_app. right. apply in_or_app. right. left. reflexivity. }
  split; [intros g; apply processTool_skip_independent_of_git |].
  split.
  { intros d r e H Hg.
    destruct (processTool_inversion w p d r H)
      as (m & entries & date & H1 & H2 & H3 & H4 & H5 & H6 & H7 & H8).
    rewrite (getLastCommitDate_failed w _ e Hg) in H6. simpl in H6.
    injection H6 as <-.
    split; [rewrite H7; reflexivity |].
    destruct (processTool_unfolded w p m _ entries H1 H2 H3 H4 H5 H8)
      as (r' & Hr' & _).
    rewrite Hr' in H. injection H as <- _.
    rewrite (getLastCommitDate_failed w _ e Hg). cbn [fst].
    apply in_or_app. right. apply in_or_app. right. left. reflexivity. }
  split.
  { intros metadata st entries Hd Hst Hex Hdir. split.
    - intros ->.
      exact (processTool_null_descriptor w p st entries Hd Hst Hex Hdir).
    - intros Hnn Hlog.
      exact (processTool_unprintable w p metadata st entries
               Hd Hnn Hst Hex Hdir Hlog). }
  intros Hnull. split; [exact (processTool_null_reported w p Hnull) |].
  intros tools0 before after.
  split; [exact (add_result_of_null w tools0 p Hnull) |].
  exact (process_all_without_null w p before after tools0 Hnull).
Qed.

Lemma C7_failures_contained_witness :
  processTool (sample_world tree_malformed)
    "/repo/tools/blender/a/metadata.json"
  = ([ErrFailedToProcess "/repo/tools/blender/a/metadata.json" SyntaxError],
     Ok None) /\
  snd (processTool (sample_world tree_unconvertible_name)
         "/repo/tools/blender/a/metadata.json") = Ok None /\
  In (ErrFailedToProcess "/repo/tools/blender/a/metadata.json"
        (TypeError "Cannot convert object to primitive value"))
     (fst (processTool (sample_world tree_unconvertible_name)
             "/repo/tools/blender/a/metadata.json")).
Proof.
  split.
  - apply (proj1 (proj2 (proj2
             (C7_failures_contained (sample_world tree_malformed)
                "/repo/tools/blender/a/metadata.json")))).
    reflexivity.
  - destruct (C7_failures_contained (sample_world tree_unconvertible_name)
                "/repo/tools/blender/a/metadata.json")
      as (_ & _ & _ & _ & _ & _ & _ & Hcases & _).
    apply (proj2 (Hcases (JObj [("name", JObj [("toString", JNum 1)])])
                    "blender"
                    [("metadata.json",
                      descriptor_file
                        [("name", JObj [("toString", JNum 1)])]);
                     ("tool.py", plain_file)]
                    eq_refl eq_refl eq_refl eq_refl)).
    + discriminate.
    + intros H. inversion H as [| ? ? [s Hs] _]. discriminate.
Defined.

(* ================================================================== *)
(** * Paths *)
(* ================================================================== *)

Section Paths.

Lemma split_on_not_nil sep s : split_on sep s <> [].
Proof.
  destruct s as [| c s]; simpl; [discriminate |].
  destruct (Ascii.eqb c sep); [discriminate |].
  destruct (split_on sep s); discriminate.
Qed.

Lemma split_on_app sep a b :
  split_on sep (a ++ String sep b) = (split_on sep a ++ split_on sep b)%list.
Proof.
  induction a as [| c a IH]; simpl.
  - rewrite Ascii.eqb_refl. reflexivity.
  - destruct (Ascii.eqb c sep).
    + rewrite IH. reflexivity.
    + rewrite IH. pose proof (split_on_not_nil sep a) as Hne.
      destruct (split_on sep a); [contradiction | reflexivity].
Qed.

Lemma replace_backslashes_app a b :
  replace_backslashes (a ++ b)
  = replace_backslashes a ++ replace_backslashes b.
Proof.
  induction a as [| c a IH]; simpl; [reflexivity |].
  rewrite IH. reflexivity.
Qed.

Lemma pathParts_app a b :
  pathParts (a ++ "/" ++ b) = (pathParts a ++ pathParts b)%list.
Proof.
  unfold pathParts. rewrite replace_backslashes_app. simpl.
  apply split_on_app.
Qed.

Lemma plain_name_replace s :
  plain_name s = true -> replace_backslashes s = s.
Proof.
  induction s as [| c s IH]; simpl; [reflexivity |].
  rewrite !andb_true_iff, !negb_true_iff. intros [[_ Hb] Hs].
  rewrite Hb, (IH Hs). reflexivity.
Qed.

Lemma plain_name_split s :
  plain_name s = true -> split_on slash s = [s].
Proof.
  induction s as [| c s IH]; simpl; [reflexivity |].
  rewrite !andb_true_iff, !negb_true_iff. intros [[Hs _] Hp].
  rewrite Hs, (IH Hp). reflexivity.
Qed.

Lemma plain_name_parts s : plain_name s = true -> pathParts s = [s].
Proof.
  intros H. unfold pathParts. rewrite (plain_name_replace s H).
  apply plain_name_split, H.
Qed.

Lemma plain_name_no_slash s :
  plain_name s = true -> last_slash_split s = None.
Proof.
  induction s as [| c s IH]; simpl; [reflexivity |].
  rewrite !andb_true_iff, !negb_true_iff. intros [[Hs _] Hp].
  rewrite (IH Hp), Hs. reflexivity.
Qed.

Lemma last_slash_split_app d e :
  last_slash_split e = None ->
  last_slash_split (d ++ String slash e) = Some (d, e).
Proof.
  intros He. induction d as [| c d IH]; simpl.
  - rewrite He. reflexivity.
  - rewrite IH. reflexivity.
Qed.

Lemma path_join_proper d e : proper d -> path_join d e = d ++ "/" ++ e.
Proof.
  intros [_ Hr]. unfold path_join.
  apply String.eqb_neq in Hr. rewrite Hr. reflexivity.
Qed.

Lemma path_join_is_proper d e : proper d -> proper (path_join d e).
Proof.
  intros H. rewrite (path_join_proper d e H).
  destruct H as [He Hr]. destruct d as [| c d]; [congruence |].
  split; simpl; [discriminate |].
  destruct d as [| c' d]; simpl; [| discriminate].
  intros Heq. inversion Heq.
Qed.

Lemma path_join_entry_proper d e : e <> "" -> proper (path_join d e).
Proof.
  intros He. destruct (String.eqb_spec d "/") as [-> | Hd].
  - unfold path_join. simpl.
    destruct e as [| c e]; [congruence |]. split; discriminate.
  - destruct d as [| c d].
    + unfold path_join. simpl.
      destruct e as [| c e]; [congruence |]. split; discriminate.
    + apply path_join_is_proper. split; [discriminate | exact Hd].
Qed.

Lemma path_dirname_join d e :
  proper d -> plain_name e = true -> path_dirname (path_join d e) = d.
Proof.
  intros Hd He. rewrite (path_join_proper d e Hd).
  change (d ++ "/" ++ e) with (d ++ String slash e).
  unfold path_dirname.
  rewrite (last_slash_split_app d e (plain_name_no_slash e He)).
  destruct Hd as [Hne _]. destruct d; [congruence | reflexivity].
Qed.

Lemma path_basename_join d e :
  proper d -> plain_name e = true -> path_basename (path_join d e) = e.
Proof.
  intros Hd He. rewrite (path_join_proper d e Hd).
  change (d ++ "/" ++ e) with (d ++ String slash e).
  unfold path_basename.
  rewrite (last_slash_split_app d e (plain_name_no_slash e He)).
  reflexivity.
Qed.

Lemma pathParts_join d e :
  proper d ->
  pathParts (path_join d e) = (pathParts d ++ pathParts e)%list.
Proof.
  intros Hd. rewrite (path_join_proper d e Hd). apply pathParts_app.
Qed.

(** The parts of the tools root end with the anchor. *)
Lemma pathParts_toolsDir c :
  ~ In "tools" (pathParts c) ->
  exists pre,
    pathParts (path_join c "tools") = (pre ++ ["tools"])%list /\
    ~ In "tools" pre.
Proof.
  intros Hc. unfold path_join. destruct (c =? "/") eqn:Hr.
  - exists [""]. split; [reflexivity |].
    simpl. intros [H | []]. discriminate.
  - exists (pathParts c). split; [| exact Hc].
    apply pathParts_app.
Qed.

Lemma indexOf_first x pre rest :
  ~ In x pre ->
  indexOf x (pre ++ x :: rest) = Z.of_nat (List.length pre).
Proof.
  induction pre as [| y pre IH]; intros Hn.
  - simpl. rewrite String.eqb_refl. reflexivity.
  - cbn [app indexOf List.length].
    destruct (y =? x) eqn:Hy.
    + apply String.eqb_eq in Hy. exfalso. apply Hn. left. exact Hy.
    + rewrite IH by (intros Hin; apply Hn; right; exact Hin).
      replace (Z.of_nat (List.length pre) =? -1)%Z with false
        by (symmetry; apply Z.eqb_neq; lia).
      lia.
Qed.

Lemma indexOf_absent x l : ~ In x l -> indexOf x l = (-1)%Z.
Proof.
  induction l as [| y l IH]; intros Hn; [reflexivity |].
  cbn [indexOf]. destruct (y =? x) eqn:Hy.
  - apply String.eqb_eq in Hy. exfalso. apply Hn. left. exact Hy.
  - rewrite IH by (intros Hin; apply Hn; right; exact Hin). reflexivity.
Qed.

Lemma first_occurrence (x : string) (l : list string) :
  In x l -> exists pre rest, l = (pre ++ x :: rest)%list /\ ~ In x pre.
Proof.
  induction l as [| y l IH]; intros Hin; [destruct Hin |].
  destruct (String.eqb_spec y x) as [-> | Hne].
  - exists (@nil string), l. split; [reflexivity | intros []].
  - destruct Hin as [Heq | Hin]; [congruence |].
    destruct (IH Hin) as (pre & rest & -> & Hpre).
    exists (y :: pre), rest. split; [reflexivity |].
    intros [H | H]; [congruence | contradiction].
Qed.

End Paths.

(* ================================================================== *)
(** * The category of a descriptor *)
(* ================================================================== *)

Lemma extractSoftwareType_anchor p pre c post :
  pathParts p = (pre ++ "tools" :: c :: post)%list ->
  ~ In "tools" pre ->
  extractSoftwareType p = Ok c.
Proof.
  intros Hp Hpre. unfold extractSoftwareType. rewrite Hp.
  rewrite (indexOf_first "tools" pre (c :: post) Hpre).
  rewrite length_app. cbn [List.length].
  replace (Z.of_nat (List.length pre) =? -1)%Z with false
    by (symmetry; apply Z.eqb_neq; lia).
  replace (Z.of_nat (List.length pre) + 1
           >=? Z.of_nat (List.length pre + S (S (List.length post))))%Z
    with false by (symmetry; rewrite Z.geb_leb; apply Z.leb_gt; lia).
  cbn [orb]. f_equal.
  replace (Z.to_nat (Z.of_nat (List.length pre) + 1))
    with (List.length pre + 1)%nat by lia.
  rewrite app_nth2 by lia.
  replace (List.length pre + 1 - List.length pre)%nat with 1%nat by lia.
  reflexivity.
Qed.

Lemma extractSoftwareType_no_anchor p :
  ~ In "tools" (pathParts p) ->
  extractSoftwareType p = Throw (InvalidToolPath p).
Proof.
  intros H. unfold extractSoftwareType.
  rewrite (indexOf_absent "tools" _ H). reflexivity.
Qed.

Lemma extractSoftwareType_anchor_last p pre :
  pathParts p = (pre ++ ["tools"])%list ->
  ~ In "tools" pre ->
  extractSoftwareType p = Throw (InvalidToolPath p).
Proof.
  intros Hp Hpre. unfold extractSoftwareType. rewrite Hp.
  rewrite (indexOf_first "tools" pre [] Hpre).
  rewrite length_app. cbn [List.length].
  replace (Z.of_nat (List.length pre) + 1
           >=? Z.of_nat (List.length pre + 1))%Z
    with true by (symmetry; rewrite Z.geb_leb; apply Z.leb_le; lia).
  rewrite orb_true_r. reflexivity.
Qed.

(** The three shapes of the parts of a path. *)
Lemma pathParts_shape p :
  ~ In "tools" (pathParts p)
  \/ (exists pre, pathParts p = (pre ++ ["tools"])%list /\ ~ In "tools" pre)
  \/ (exists pre c post,
        pathParts p = (pre ++ "tools" :: c :: post)%list /\
        ~ In "tools" pre).
Proof.
  destruct (in_dec string_dec "tools" (pathParts p)) as [Hin | Hout];
    [| left; exact Hout].
  right. destruct (first_occurrence _ _ Hin) as (pre & rest & Hp & Hpre).
  destruct rest as [| c post].
  - left. exists pre. split; assumption.
  - right. exists pre, c, post. split; assumption.
Qed.

(** The category of a descriptor that lies where the layout expects it:
    two levels below the tools root. *)
Lemma extractSoftwareType_expected_layout c cat toolName :
  ~ In "tools" (pathParts c) ->
  plain_name cat = true ->
  extractSoftwareType
    (path_join (path_join (path_join (path_join c "tools") cat) toolName)
       "metadata.json") = Ok cat.
Proof.
  intros Hc Hcat.
  destruct (pathParts_toolsDir c Hc) as (pre & Hparts & Hpre).
  assert (Ht : proper (path_join c "tools"))
    by (apply path_join_entry_proper; discriminate).
  assert (Hcd : proper (path_join (path_join c "tools") cat))
    by (apply path_join_is_proper, Ht).
  assert (Htd : proper (path_join (path_join (path_join c "tools") cat)
                          toolName))
    by (apply path_join_is_proper, Hcd).
  apply (extractSoftwareType_anchor _ pre cat
           (pathParts toolName ++ pathParts "metadata.json")%list);
    [| exact Hpre].
  rewrite (pathParts_join _ _ Htd), (pathParts_join _ _ Hcd),
    (pathParts_join _ _ Ht), Hparts, (plain_name_parts cat Hcat).
  rewrite <- !app_assoc. reflexivity.
Qed.

(** C9 as stated fails: the category is read after the anchor, whatever
    the depth of the descriptor.  For a tool directory nested one level
    deeper the parent of the parent directory is another one, and for a
    descriptor directly inside a category directory it is the tools
    root. *)
Lemma C9_parent_of_parent_counterexample :
  findMetadataFiles (sample_world tree_odd_depths) "/repo/tools"
    = Ok ["/repo/tools/blender/metadata.json";
          "/repo/tools/blender/group/a/metadata.json"] /\
  extractSoftwareType "/repo/tools/blender/group/a/metadata.json"
    = Ok "blender" /\
  path_basename
    (path_dirname (path_dirname "/repo/tools/blender/group/a/metadata.json"))
    = "group" /\
  extractSoftwareType "/repo/tools/blender/metadata.json" = Ok "blender" /\
  path_basename
    (path_dirname (path_dirname "/repo/tools/blender/metadata.json"))
    = "tools".
Proof.
  vm_compute. repeat split; reflexivity.
Qed.

(** C9, amended. The category of a descriptor path is the part that
    follows the first part equal to [tools]; the derivation fails exactly
    when no part is [tools] or the first such part is the last one.  It is
    the name of the parent of the parent directory for a descriptor two
    levels below the tools root, [<cwd>/tools/<category>/<tool>/
    metadata.json], when no part of the working directory is [tools] and
    the names have no slash or backslash. *)
Theorem C9_category_of_path (p : string) :
  (forall c,
     extractSoftwareType p = Ok c <->
     exists pre post,
       pathParts p = (pre ++ "tools" :: c :: post)%list /\
       ~ In "tools" pre) /\
  ((exists e, extractSoftwareType p = Throw e) <->
   (~ In "tools" (pathParts p) \/
    exists pre, pathParts p = (pre ++ ["tools"])%list /\ ~ In "tools" pre)) /\
  (forall c cat toolName,
     ~ In "tools" (pathParts c) ->
     plain_name cat = true ->
     plain_name toolName = true ->
     p = path_join (path_join (path_join (path_join c "tools") cat) toolName)
           "metadata.json" ->
     extractSoftwareType p = Ok cat /\
     path_basename (path_dirname (path_dirname p)) = cat).
Proof.
  split; [| split].
  - intros c. split.
    + intros H.
      destruct (pathParts_shape p)
        as [H0 | [(pre & Hp & Hpre) | (pre & c' & post & Hp & Hpre)]].
      * rewrite (extractSoftwareType_no_anchor p H0) in H. discriminate.
      * rewrite (extractSoftwareType_anchor_last p pre Hp Hpre) in H.
        discriminate.
      * rewrite (extractSoftwareType_anchor p pre c' post Hp Hpre) in H.
        inversion H; subst. exists pre, post. split; assumption.
    + intros (pre & post & Hp & Hpre).
      exact (extractSoftwareType_anchor p pre c post Hp Hpre).
  - split.
    + intros [e H].
      destruct (pathParts_shape p)
        as [H0 | [(pre & Hp & Hpre) | (pre & c' & post & Hp & Hpre)]].
      * left. exact H0.
      * right. exists pre. split; assumption.
      * rewrite (extractSoftwareType_anchor p pre c' post Hp Hpre) in H.
        discriminate.
    + intros [H0 | (pre & Hp & Hpre)].
      * eexists. exact (extractSoftwareType_no_anchor p H0).
      * eexists. exact (extractSoftwareType_anchor_last p pre Hp Hpre).
  - intros c cat toolName Hc Hcat Htool ->.
    split; [exact (extractSoftwareType_expected_layout c cat toolName Hc Hcat) |].
    assert (Ht : proper (path_join c "tools"))
      by (apply path_join_entry_proper; discriminate).
    assert (Hcd : proper (path_join (path_join c "tools") cat))
      by (apply path_join_is_proper, Ht).
    assert (Htd : proper (path_join (path_join (path_join c "tools") cat)
                            toolName))
      by (apply path_join_is_proper, Hcd).
    rewrite (path_dirname_join _ "metadata.json" Htd eq_refl).
    rewrite (path_dirname_join _ toolName Hcd Htool).
    apply (path_basename_join _ cat Ht Hcat).
Qed.

Lemma C9_category_of_path_witness :
  extractSoftwareType "/repo/tools/blender/a/metadata.json" = Ok "blender" /\
  path_basename
    (path_dirname (path_dirname "/repo/tools/blender/a/metadata.json"))
    = "blender".
Proof.
  apply (proj2 (proj2
           (C9_category_of_path "/repo/tools/blender/a/metadata.json"))
           "/repo" "blender" "a").
  - vm_compute. intros [H | [H | []]]; discriminate.
  - reflexivity.
  - reflexivity.
  - reflexivity.
Defined.

(* ================================================================== *)
(** * The tree scanner *)
(* ================================================================== *)

Section Scanner.

(** Induction on a tree, with the hypothesis for every entry of a
    directory. *)
Lemma node_tree_ind (P : node -> Prop) :
  (forall content, P (File content)) ->
  (forall es, Forall (fun e => P (snd e)) es -> P (Dir es)) ->
  forall n, P n.
Proof.
  intros Hfile Hdir.
  fix IH 1. intros [content | es].
  - apply Hfile.
  - apply Hdir. induction es as [| [entry child] es IHes].
    + constructor.
    + constructor; [apply IH | exact IHes].
Qed.

Lemma traverse_Dir currentDir es :
  traverse currentDir (Dir es) = flat_map (found_in_entry currentDir) es.
Proof.
  induction es as [| [entry child] es IH]; [reflexivity |].
  cbn [flat_map]. rewrite <- IH. destruct child; reflexivity.
Qed.

Lemma reaches_from_entry dir es entry child dir' n' :
  In (entry, child) es ->
  reaches (path_join dir entry) child dir' n' ->
  reaches dir (Dir es) dir' n'.
Proof.
  intros Hin H. induction H as [| dir' es' entry' child' _ IH Hin'].
  - apply (reaches_down dir (Dir es) dir es entry child);
      [apply reaches_here | exact Hin].
  - apply (reaches_down dir (Dir es) dir' es' entry' child');
      [exact IH | exact Hin'].
Qed.

(** Every path found is a [metadata.json] that is not a directory, in
    some directory below the start. *)
Lemma traverse_sound n :
  forall dir q,
    In q (traverse dir n) ->
    exists dir' es content,
      reaches dir n dir' (Dir es) /\
      In ("metadata.json", File content) es /\
      q = path_join dir' "metadata.json".
Proof.
  induction n as [content | es IH] using node_tree_ind; intros dir q Hq.
  - destruct Hq.
  - rewrite traverse_Dir in Hq. apply in_flat_map in Hq.
    destruct Hq as ([entry child] & Hin & Hq).
    rewrite Forall_forall in IH. specialize (IH _ Hin).
    unfold found_in_entry in Hq. cbn [fst snd] in Hq, IH.
    destruct child as [content | ces].
    + destruct (String.eqb_spec entry "metadata.json") as [-> | Hne];
        [| destruct Hq].
      destruct Hq as [<- | []].
      exists dir, es, content. split; [apply reaches_here |].
      split; [exact Hin | reflexivity].
    + destruct (IH _ _ Hq) as (dir' & es' & content & Hr & Hm & Heq).
      exists dir', es', content. split; [| split; assumption].
      exact (reaches_from_entry dir es entry (Dir ces) dir' (Dir es') Hin Hr).
Qed.

Lemma traverse_descends dir n dir' n' :
  reaches dir n dir' n' ->
  forall q, In q (traverse dir' n') -> In q (traverse dir n).
Proof.
  induction 1 as [| dir' es entry child _ IH Hin]; intros q Hq;
    [exact Hq |].
  apply IH. rewrite traverse_Dir. apply in_flat_map.
  exists (entry, child). split; [exact Hin |].
  unfold found_in_entry. cbn [fst snd].
  destruct child; [destruct Hq | exact Hq].
Qed.

(** Every [metadata.json] that is not a directory is found, at whatever
    depth below the start its directory lies. *)
Lemma traverse_complete dir n dir' es content :
  reaches dir n dir' (Dir es) ->
  In ("metadata.json", File content) es ->
  In (path_join dir' "metadata.json") (traverse dir n).
Proof.
  intros Hr Hin. apply (traverse_descends dir n dir' (Dir es) Hr).
  rewrite traverse_Dir. apply in_flat_map.
  exists ("metadata.json", File content). split; [exact Hin |].
  left. reflexivity.
Qed.

End Scanner.

(* ================================================================== *)
(** * Objects *)
(* ================================================================== *)

Section Objects.

Context {V : Type}.

Lemma assoc_In_keys (k : string) (o : jsobject V) (v : V) :
  assoc k o = Some v -> In k (map fst o).
Proof.
  induction o as [| [k' v'] o IH]; simpl; [discriminate |].
  destruct (String.eqb_spec k' k) as [-> | Hne]; [left; reflexivity |].
  intros H. right. apply IH, H.
Qed.

Lemma assoc_None_iff (k : string) (o : jsobject V) :
  assoc k o = None <-> ~ In k (map fst o).
Proof.
  induction o as [| [k' v'] o IH]; simpl; [tauto |].
  destruct (String.eqb_spec k' k) as [-> | Hne].
  - split; [discriminate | intros H; exfalso; apply H; left; reflexivity].
  - rewrite IH. tauto.
Qed.

Lemma In_keys_assoc (k : string) (o : jsobject V) :
  In k (map fst o) -> exists v, assoc k o = Some v.
Proof.
  intros Hin. destruct (assoc k o) as [v |] eqn:H; [eauto |].
  apply assoc_None_iff in H. contradiction.
Qed.

Lemma assoc_own_set_same (k : string) (v : V) (o : jsobject V) :
  assoc k (own_set k v o) = Some v.
Proof.
  induction o as [| [k' v'] o IH]; simpl.
  - rewrite String.eqb_refl. reflexivity.
  - destruct (k' =? k) eqn:Hk; simpl; rewrite Hk; [reflexivity | exact IH].
Qed.

Lemma assoc_own_set_other (k k0 : string) (v : V) (o : jsobject V) :
  k0 <> k -> assoc k0 (own_set k v o) = assoc k0 o.
Proof.
  intros Hne. induction o as [| [k' v'] o IH]; simpl.
  - destruct (String.eqb_spec k k0); [congruence | reflexivity].
  - destruct (String.eqb_spec k' k) as [-> | Hk]; simpl.
    + destruct (String.eqb_spec k k0); [congruence | reflexivity].
    + rewrite IH. reflexivity.
Qed.

Lemma keys_own_set_present (k : string) (v : V) (o : jsobject V) :
  In k (map fst o) -> map fst (own_set k v o) = map fst o.
Proof.
  induction o as [| [k' v'] o IH]; simpl; [intros [] |].
  destruct (String.eqb_spec k' k) as [-> | Hk]; simpl; [reflexivity |].
  intros [H | H]; [congruence |]. rewrite (IH H). reflexivity.
Qed.

Lemma keys_own_set_absent (k : string) (v : V) (o : jsobject V) :
  ~ In k (map fst o) -> map fst (own_set k v o) = (map fst o ++ [k])%list.
Proof.
  induction o as [| [k' v'] o IH]; simpl; [reflexivity |].
  intros Hn. destruct (String.eqb_spec k' k) as [-> | Hk].
  - exfalso. apply Hn. left. reflexivity.
  - simpl. rewrite IH by tauto. reflexivity.
Qed.

Lemma In_keys_own_set (k k0 : string) (v : V) (o : jsobject V) :
  In k0 (map fst (own_set k v o)) <-> k0 = k \/ In k0 (map fst o).
Proof.
  destruct (in_dec string_dec k (map fst o)) as [Hin | Hout].
  - rewrite (keys_own_set_present k v o Hin).
    split; [tauto | intros [-> | H]; assumption].
  - rewrite (keys_own_set_absent k v o Hout), in_app_iff. simpl.
    split; [intros [H | [H | []]]; auto | intros [H | H]; auto].
Qed.

Lemma get_property_Own (o : jsobject V) (k : string) (v : V) :
  get_property o k = Own v <-> assoc k o = Some v.
Proof.
  unfold get_property. destruct (assoc k o) as [v' |].
  - split; intros H; inversion H; reflexivity.
  - destruct (existsb (String.eqb k) Object_prototype_keys);
      split; discriminate.
Qed.

Lemma get_property_not_own (o : jsobject V) (k : string) :
  (forall v, get_property o k <> Own v) -> assoc k o = None.
Proof.
  intros H. destruct (assoc k o) as [v |] eqn:Ha; [| reflexivity].
  exfalso. apply (H v), get_property_Own, Ha.
Qed.

Lemma get_property_Inherited (o : jsobject V) (k : string) :
  get_property o k = Inherited ->
  assoc k o = None /\ In k Object_prototype_keys.
Proof.
  unfold get_property. destruct (assoc k o) as [v |]; [discriminate |].
  destruct (existsb (String.eqb k) Object_prototype_keys) eqn:He; [| discriminate].
  intros _. split; [reflexivity |].
  apply existsb_exists in He. destruct He as (x & Hin & Hx).
  apply String.eqb_eq in Hx. subst x. exact Hin.
Qed.

End Objects.

(** The object that [main] starts from: one empty array per type. *)
Lemma fromEntries_fold (types : list string) (o : jsobject (list ToolRecord)) :
  fold_left (fun o kv => own_set (fst kv) (snd kv) o)
    (map (fun type : string => (type, @nil ToolRecord)) types) o
  = fold_left (fun o type => own_set type [] o) types o.
Proof.
  revert o. induction types as [| t types IH]; intros o; [reflexivity |].
  simpl. apply IH.
Qed.

Lemma initial_tools_keys (types : list string) :
  forall k,
    In k (map fst (Object_fromEntries
                     (map (fun type : string => (type, @nil ToolRecord))
                        types)))
    <-> In k types.
Proof.
  unfold Object_fromEntries. rewrite fromEntries_fold.
  assert (H : forall o k,
            In k (map fst (fold_left
                             (fun o type => own_set type (@nil ToolRecord) o)
                             types o))
            <-> In k (map fst o) \/ In k types).
  { induction types as [| t types IH]; intros o k; simpl; [tauto |].
    rewrite IH, In_keys_own_set. split; [| intros [H | [H | H]]]; auto.
    intros [[H | H] | H]; auto. }
  intros k. rewrite H. simpl. tauto.
Qed.

Lemma initial_tools_order (types : list string) :
  NoDup types ->
  map fst (Object_fromEntries
             (map (fun type : string => (type, @nil ToolRecord)) types))
  = types.
Proof.
  unfold Object_fromEntries. rewrite fromEntries_fold.
  assert (H : forall o,
            NoDup types ->
            (forall k, In k types -> ~ In k (map fst o)) ->
            map fst (fold_left
                       (fun o type => own_set type (@nil ToolRecord) o)
                       types o)
            = (map fst o ++ types)%list).
  { induction types as [| t types IH]; intros o Hnd Hdisj; simpl.
    - rewrite app_nil_r. reflexivity.
    - inversion Hnd as [| ? ? Hnotin Hnd']; subst.
      rewrite IH; [| exact Hnd' |].
      + rewrite keys_own_set_absent by (apply Hdisj; left; reflexivity).
        rewrite <- app_assoc. reflexivity.
      + intros k Hk. rewrite In_keys_own_set. intros [-> | Hin].
        * contradiction.
        * apply (Hdisj k); [right; exact Hk | exact Hin]. }
  intros Hnd. rewrite H; [reflexivity | exact Hnd | intros k _ []].
Qed.

Lemma initial_tools_empty (types : list string) :
  forall k arr,
    assoc k (Object_fromEntries
               (map (fun type : string => (type, @nil ToolRecord)) types))
    = Some arr ->
    arr = [].
Proof.
  unfold Object_fromEntries. rewrite fromEntries_fold.
  assert (H : forall o,
            (forall k arr, assoc k o = Some arr -> arr = []) ->
            forall k arr,
              assoc k (fold_left
                         (fun o type => own_set type (@nil ToolRecord) o)
                         types o) = Some arr ->
              arr = []).
  { induction types as [| t types IH]; intros o Ho k arr; simpl;
      [apply Ho |].
    apply IH. intros k' arr'.
    destruct (String.eqb_spec k' t) as [-> | Hne].
    - rewrite assoc_own_set_same. congruence.
    - rewrite assoc_own_set_other by exact Hne. apply Ho. }
  apply H. intros k arr. simpl. discriminate.
Qed.

Section KeyOrder.

Lemma In_insert_index x y l :
  In y (insert_index x l) <-> y = x \/ In y l.
Proof.
  induction l as [| z l IH]; simpl.
  - split; [intros [H | []]; auto | intros [H | []]; auto].
  - destruct (fst x <=? fst z)%N; simpl.
    + split; [intros [H | H]; auto | intros [H | H]; auto].
    + rewrite IH. tauto.
Qed.

Lemma In_index_keys n k ks :
  In (n, k) (index_keys ks) <-> In k ks /\ array_index k = Some n.
Proof.
  induction ks as [| k' ks IH]; simpl; [tauto |].
  destruct (array_index k') as [n' |] eqn:Hk'.
  - rewrite In_insert_index, IH. split.
    + intros [H | [H1 H2]]; [inversion H; subst; auto | auto].
    + intros [[H | H] Hn]; [subst; left; congruence | auto].
  - rewrite IH. split; [tauto |].
    intros [[H | H] Hn]; [subst; congruence | auto].
Qed.

Lemma In_key_order k ks : In k (key_order ks) <-> In k ks.
Proof.
  unfold key_order. rewrite in_app_iff, in_map_iff, filter_In.
  unfold is_index. split.
  - intros [([n k'] & Heq & Hin) | [Hin _]]; [| exact Hin].
    simpl in Heq. subst k'. apply In_index_keys in Hin. tauto.
  - intros Hin. destruct (array_index k) as [n |] eqn:Hk.
    + left. exists (n, k). split; [reflexivity |].
      apply In_index_keys. auto.
    + right. auto.
Qed.

Lemma key_order_without_indices ks :
  (forall k, In k ks -> array_index k = None) -> key_order ks = ks.
Proof.
  intros H. unfold key_order.
  assert (Hi : index_keys ks = []).
  { induction ks as [| k ks IH]; [reflexivity |].
    simpl. rewrite (H k) by (left; reflexivity).
    apply IH. intros k' Hk'. apply H. right. exact Hk'. }
  rewrite Hi. simpl.
  induction ks as [| k ks IH]; [reflexivity |].
  simpl. unfold is_index at 1. rewrite (H k) by (left; reflexivity). simpl.
  rewrite IH; [reflexivity | |].
  - intros k' Hk'. apply H. right. exact Hk'.
  - simpl in Hi. rewrite (H k) in Hi by (left; reflexivity). exact Hi.
Qed.

Context {V : Type}.

Lemma In_Object_entries_of (o : jsobject V) ks k v :
  In (k, v) (Object_entries_of o ks) <-> In k ks /\ assoc k o = Some v.
Proof.
  induction ks as [| k' ks IH]; simpl; [tauto |].
  destruct (assoc k' o) as [v' |] eqn:Hk'; simpl; rewrite IH.
  - split.
    + intros [H | [H1 H2]]; [inversion H; subst; auto | auto].
    + intros [[H | H] Ha]; [subst; left; congruence | auto].
  - split; [tauto |].
    intros [[H | H] Ha]; [subst; congruence | auto].
Qed.

Lemma keys_Object_entries_of (o : jsobject V) ks :
  (forall k, In k ks -> In k (map fst o)) ->
  map fst (Object_entries_of o ks) = ks.
Proof.
  induction ks as [| k ks IH]; intros H; [reflexivity |].
  simpl. destruct (In_keys_assoc k o (H k (or_introl eq_refl))) as [v Hv].
  rewrite Hv. simpl. rewrite IH; [reflexivity |].
  intros k' Hk'. apply H. right. exact Hk'.
Qed.

(** The keys of the printed mapping are the own keys, in key order. *)
Lemma keys_Object_entries (o : jsobject V) :
  map fst (Object_entries o) = key_order (map fst o).
Proof.
  unfold Object_entries, ownKeys. apply keys_Object_entries_of.
  intros k. apply In_key_order.
Qed.

Lemma In_Object_entries (o : jsobject V) k v :
  In (k, v) (Object_entries o) <-> assoc k o = Some v.
Proof.
  unfold Object_entries, ownKeys. rewrite In_Object_entries_of.
  split; [tauto |]. intros H. split; [| exact H].
  apply In_key_order. exact (assoc_In_keys k o v H).
Qed.

End KeyOrder.

(* ================================================================== *)
(** * Sorting with a comparator *)
(* ================================================================== *)

Section SortedLists.

Context {A : Type}.
Variable R : A -> A -> Prop.

Lemma HdRel_app_front (S : A -> A -> Prop) x l1 l2 :
  l1 <> [] -> HdRel S x (l1 ++ l2) -> HdRel S x l1.
Proof.
  destruct l1 as [| y l1]; [congruence |].
  intros _ H. inversion H; subst. constructor. assumption.
Qed.

Lemma Sorted_snoc l x :
  Sorted R l -> HdRel (fun a b => R b a) x (rev l) -> Sorted R (l ++ [x]).
Proof.
  induction 1 as [| a l Hs IH Hhd]; intros Hx; simpl.
  - repeat constructor.
  - simpl in Hx. destruct l as [| b l].
    + inversion Hx; subst. repeat constructor. assumption.
    + constructor.
      * apply IH. apply (HdRel_app_front _ x (rev (b :: l)) [a]); [| exact Hx].
        simpl. destruct (rev l); discriminate.
      * inversion Hhd; subst. constructor. assumption.
Qed.

(** A list in which every element follows the next one is ordered when
    read backwards. *)
Lemma Sorted_rev l : Sorted (fun a b => R b a) l -> Sorted R (rev l).
Proof.
  induction 1 as [| x l Hs IH Hhd]; simpl; [constructor |].
  apply Sorted_snoc; [exact IH |]. rewrite rev_involutive. exact Hhd.
Qed.

Lemma Sorted_middle l1 a b l2 : Sorted R (l1 ++ a :: b :: l2) -> R a b.
Proof.
  induction l1 as [| x l1 IH]; simpl; intros H; inversion H; subst.
  - match goal with Hh : HdRel _ _ _ |- _ => inversion Hh; subst end.
    assumption.
  - apply IH. assumption.
Qed.

End SortedLists.

Section Sorting.

Context {A : Type}.
Variable cmp : A -> A -> outcome Z.

Lemma insert_by_perm x l r :
  insert_by cmp x l = Ok r -> Permutation (x :: l) r.
Proof.
  revert r. induction l as [| y l IH]; intros r; simpl.
  - intros H. inversion H. apply Permutation_refl.
  - destruct (cmp x y) as [c | e]; simpl; [| discriminate].
    destruct (c <? 0)%Z.
    + destruct (insert_by cmp x l) as [r' | e]; simpl; [| discriminate].
      intros H. inversion H; subst.
      apply perm_trans with (y :: x :: l); [apply perm_swap |].
      apply perm_skip, IH. reflexivity.
    + intros H. inversion H. apply Permutation_refl.
Qed.

Lemma sort_from_perm l :
  forall s r, sort_from cmp s l = Ok r -> Permutation (s ++ l)%list r.
Proof.
  induction l as [| x l IH]; intros s r; simpl.
  - intros H. inversion H. rewrite app_nil_r. apply Permutation_rev.
  - destruct (insert_by cmp x s) as [s' | e] eqn:Hi; simpl; [| discriminate].
    intros H.
    apply perm_trans with (s' ++ l)%list; [| apply IH, H].
    apply perm_trans with ((x :: s) ++ l)%list.
    + apply Permutation_sym, Permutation_middle.
    + apply Permutation_app_tail, insert_by_perm, Hi.
Qed.

Lemma sort_by_perm l r : sort_by cmp l = Ok r -> Permutation l r.
Proof.
  exact (sort_from_perm l [] r).
Qed.

Variable dom : A -> Prop.

Hypothesis cmp_defined :
  forall a b, dom a -> dom b -> exists z, cmp a b = Ok z.

(** When the comparator does not put [a] before [b], it lets [b] stand
    before [a]; when it lets [a] stand before [b], it does not put [b]
    before [a]. *)
Hypothesis cmp_later :
  forall a b z,
    dom a -> dom b -> cmp a b = Ok z -> (0 <= z)%Z -> precedes cmp b a.

Hypothesis cmp_earlier :
  forall a b,
    dom a -> dom b -> precedes cmp a b ->
    exists z, cmp b a = Ok z /\ (0 <= z)%Z.

Lemma insert_by_defined x l :
  dom x -> Forall dom l -> exists r, insert_by cmp x l = Ok r.
Proof.
  intros Hx Hl. induction Hl as [| y l Hy Hl IH]; simpl; [eauto |].
  destruct (cmp_defined x y Hx Hy) as [c Hc]. rewrite Hc. simpl.
  destruct (c <? 0)%Z; [| eauto].
  destruct IH as [r Hr]. rewrite Hr. simpl. eauto.
Qed.

Lemma sort_from_defined l :
  forall s, Forall dom s -> Forall dom l -> exists r, sort_from cmp s l = Ok r.
Proof.
  induction l as [| x l IH]; intros s Hs Hl; simpl; [eauto |].
  inversion Hl; subst.
  destruct (insert_by_defined x s) as [s' Hs']; [assumption | assumption |].
  rewrite Hs'. simpl. apply IH; [| assumption].
  apply (Permutation_Forall (insert_by_perm x s s' Hs')).
  constructor; assumption.
Qed.

Lemma sort_by_defined l :
  Forall dom l -> exists r, sort_by cmp l = Ok r.
Proof.
  intros Hl. apply sort_from_defined; [constructor | exact Hl].
Qed.

Lemma insert_by_head x y l r :
  insert_by cmp x l = Ok r ->
  follows cmp y x -> HdRel (follows cmp) y l -> HdRel (follows cmp) y r.
Proof.
  destruct l as [| y' l]; simpl.
  - intros H Hyx _. inversion H. constructor. exact Hyx.
  - destruct (cmp x y') as [c | e]; simpl; [| discriminate].
    destruct (c <? 0)%Z.
    + destruct (insert_by cmp x l) as [r' | e]; simpl; [| discriminate].
      intros H _ Hhd. inversion H. inversion Hhd; subst.
      constructor. assumption.
    + intros H Hyx _. inversion H. constructor. exact Hyx.
Qed.

(** Inserting keeps the sorted elements, held last first, in order. *)
Lemma insert_by_sorted x l r :
  dom x -> Forall dom l ->
  insert_by cmp x l = Ok r ->
  Sorted (follows cmp) l -> Sorted (follows cmp) r.
Proof.
  intros Hx Hl. revert r.
  induction Hl as [| y l Hy Hl IH]; intros r; simpl.
  - intros H _. inversion H. repeat constructor.
  - destruct (cmp x y) as [c | e] eqn:Hc; simpl; [| discriminate].
    destruct (Z.ltb_spec c 0) as [Hlt | Hge].
    + destruct (insert_by cmp x l) as [r' | e] eqn:Hr; simpl;
        [| discriminate].
      intros H Hs. inversion H; subst. inversion Hs; subst.
      constructor; [apply IH; [reflexivity | assumption] |].
      apply (insert_by_head x y l r' Hr); [| assumption].
      exists c. split; [exact Hc | lia].
    + intros H Hs. inversion H; subst.
      constructor; [exact Hs |]. constructor.
      exact (cmp_later x y c Hx Hy Hc Hge).
Qed.

Lemma sort_from_sorted l :
  forall s r,
    Forall dom s -> Forall dom l ->
    Sorted (follows cmp) s ->
    sort_from cmp s l = Ok r -> Sorted (precedes cmp) r.
Proof.
  induction l as [| x l IH]; intros s r Hs Hl Hsorted; simpl.
  - intros H. inversion H; subst. apply Sorted_rev. exact Hsorted.
  - inversion Hl; subst.
    destruct (insert_by cmp x s) as [s' | e] eqn:Hi; simpl; [| discriminate].
    apply IH; [| assumption |].
    + apply (Permutation_Forall (insert_by_perm x s s' Hi)).
      constructor; assumption.
    + apply (insert_by_sorted x s s'); assumption.
Qed.

(** The result of the sort is ordered. *)
Lemma sort_by_sorted l r :
  Forall dom l -> sort_by cmp l = Ok r -> Sorted (precedes cmp) r.
Proof.
  intros Hl. apply sort_from_sorted; [constructor | exact Hl | constructor].
Qed.

Lemma sort_from_sorted_fixpoint l :
  forall s,
    Forall dom (rev s ++ l)%list ->
    Sorted (precedes cmp) (rev s ++ l)%list ->
    sort_from cmp s l = Ok (rev s ++ l)%list.
Proof.
  induction l as [| x l IH]; intros s Hd Hs; simpl.
  - rewrite app_nil_r. reflexivity.
  - assert (Hi : insert_by cmp x s = Ok (x :: s)).
    { destruct s as [| y s']; [reflexivity |]. simpl.
      simpl in Hs, Hd. rewrite <- app_assoc in Hs, Hd. simpl in Hs, Hd.
      pose proof (Sorted_middle _ _ _ _ _ Hs) as Hyx.
      rewrite Forall_app in Hd. destruct Hd as [_ Hd].
      inversion Hd as [| ? ? Hy Hd']; subst.
      inversion Hd' as [| ? ? Hx _]; subst.
      destruct (cmp_earlier y x Hy Hx Hyx) as (c & Hc & Hge).
      rewrite Hc. simpl.
      destruct (Z.ltb_spec c 0); [lia | reflexivity]. }
    rewrite Hi. simpl.
    assert (He : (rev (x :: s) ++ l = rev s ++ x :: l)%list)
      by (simpl; rewrite <- app_assoc; reflexivity).
    rewrite <- He. apply IH; rewrite He; assumption.
Qed.

(** A sorted array is left as it is. *)
Lemma sort_by_sorted_fixpoint l :
  Forall dom l -> Sorted (precedes cmp) l -> sort_by cmp l = Ok l.
Proof.
  intros Hd Hs. exact (sort_from_sorted_fixpoint l [] Hd Hs).
Qed.

End Sorting.

(* ================================================================== *)
(** * The catalog aggregator *)
(* ================================================================== *)

Section Aggregator.

Variable w : world.

Lemma collected_cons p files k :
  collected w (p :: files) k
  = (match snd (processTool w p) with
     | Ok (Some r) => if softwareType r =? k then [tool r] else []
     | _ => []
     end ++ collected w files k)%list.
Proof.
  simpl. destruct (snd (processTool w p)) as [[r |] | e]; try reflexivity.
  destruct (softwareType r =? k); reflexivity.
Qed.

(** Every collected record comes from a successful call on one of the
    descriptors. *)
Lemma In_collected t files k :
  In t (collected w files k) ->
  exists p r,
    In p files /\ snd (processTool w p) = Ok (Some r) /\
    softwareType r = k /\ tool r = t.
Proof.
  induction files as [| p files IH]; [intros [] |].
  rewrite collected_cons, in_app_iff. intros [H | H].
  - destruct (snd (processTool w p)) as [[r |] | e] eqn:Hp;
      try (destruct H; fail).
    destruct (String.eqb_spec (softwareType r) k) as [Hk | Hk];
      [| destruct H].
    destruct H as [<- | []].
    exists p, r. split; [left; reflexivity | auto].
  - destruct (IH H) as (p' & r & Hin & Hrest).
    exists p', r. split; [right; exact Hin | exact Hrest].
Qed.

Lemma collected_one_more p files k :
  collected w (p :: files) k
  = (collected w [p] k ++ collected w files k)%list.
Proof.
  rewrite !collected_cons. simpl. rewrite app_nil_r. reflexivity.
Qed.

(** One turn of the loop keeps the keys and appends the record, if any,
    to the array of its category. *)
Lemma add_result_appends tools0 p d tools' :
  add_result w tools0 p = (d, Ok tools') ->
  map fst tools' = map fst tools0 /\
  (forall k arr,
     assoc k tools0 = Some arr ->
     assoc k tools' = Some (arr ++ collected w [p] k)%list).
Proof.
  unfold add_result.
  destruct (processTool_returns w p) as [res Hres].
  assert (Hone : forall k,
            collected w [p] k
            = match res with
              | Some r => if softwareType r =? k then [tool r] else []
              | None => []
              end).
  { intros k. rewrite collected_cons, Hres. simpl.
    rewrite app_nil_r. destruct res; reflexivity. }
  destruct (processTool w p) as [dp op]. simpl in Hres. subst op.
  unfold bind at 1. cbn beta iota.
  destruct res as [r |]; cbn beta iota.
  - destruct (get_property tools0 (softwareType r)) as [arr0 | |] eqn:Hg.
    + apply get_property_Own in Hg.
      unfold bind, ret. intros H. inversion H; subst.
      split; [apply keys_own_set_present, (assoc_In_keys _ _ _ Hg) |].
      intros k arr Hk. rewrite Hone.
      destruct (String.eqb_spec (softwareType r) k) as [<- | Hne].
      * rewrite assoc_own_set_same. congruence.
      * rewrite assoc_own_set_other by congruence.
        rewrite app_nil_r. exact Hk.
    + unfold bind, throw. discriminate.
    + assert (Ha : assoc (softwareType r) tools0 = None)
        by (apply get_property_not_own; intros v; rewrite Hg; discriminate).
      unfold bind, tell, ret. intros H. inversion H; subst.
      split; [reflexivity |]. intros k arr Hk. rewrite Hone.
      destruct (String.eqb_spec (softwareType r) k) as [<- | Hne];
        [congruence |].
      rewrite app_nil_r. exact Hk.
  - unfold bind, ret. intros H. inversion H; subst.
    split; [reflexivity |]. intros k arr Hk. rewrite Hone, app_nil_r.
    exact Hk.
Qed.

(** The loop keeps the keys and appends to each array the records of its
    category, in the order of the descriptors. *)
Lemma process_all_appends files :
  forall tools0 d tools1,
    process_all w tools0 files = (d, Ok tools1) ->
    map fst tools1 = map fst tools0 /\
    (forall k arr,
       assoc k tools0 = Some arr ->
       assoc k tools1 = Some (arr ++ collected w files k)%list).
Proof.
  induction files as [| p files IH]; intros tools0 d tools1.
  - simpl. unfold ret. intros H. inversion H; subst.
    split; [reflexivity |]. intros k arr Hk. rewrite app_nil_r. exact Hk.
  - cbn [process_all]. unfold bind.
    destruct (add_result w tools0 p) as [d1 [tools' | e]] eqn:Hstep;
      [| discriminate].
    destruct (process_all w tools' files) as [d2 o2] eqn:Hrest.
    intros H. inversion H; subst.
    destruct (add_result_appends _ _ _ _ Hstep) as [Hk1 Hv1].
    destruct (IH _ _ _ Hrest) as [Hk2 Hv2].
    split; [congruence |].
    intros k arr Hk. rewrite collected_one_more, app_assoc.
    apply Hv2, Hv1, Hk.
Qed.

End Aggregator.

Section Run.

Variable w : world.

(** Sorting each array keeps the keys, permutes every array, and leaves
    the arrays of the visited keys as a sort returned them. *)
Lemma sort_each_spec keys :
  forall tools1 tools2,
    sort_each w keys tools1 = Ok tools2 ->
    map fst tools2 = map fst tools1 /\
    (forall k a2,
       assoc k tools2 = Some a2 ->
       exists a1,
         assoc k tools1 = Some a1 /\
         Permutation a1 a2 /\
         (In k keys -> exists a', sort_by (compareByName w) a' = Ok a2) /\
         (~ In k keys -> a2 = a1)).
Proof.
  induction keys as [| k0 keys IH]; intros tools1 tools2; simpl.
  - intros H. inversion H; subst. split; [reflexivity |].
    intros k a2 Hk. exists a2.
    split; [exact Hk |]. split; [apply Permutation_refl |].
    split; [intros [] | reflexivity].
  - destruct (assoc k0 tools1) as [arr |] eqn:Hk0.
    + destruct (sort_by (compareByName w) arr) as [s | e] eqn:Hs; simpl;
        [| discriminate].
      intros H. destruct (IH _ _ H) as [Hkeys Hvals].
      split.
      { rewrite Hkeys. apply keys_own_set_present.
        exact (assoc_In_keys _ _ _ Hk0). }
      intros k a2 Hk. destruct (Hvals k a2 Hk) as (a1 & Ha1 & Hp & Hin & Hout).
      destruct (String.eqb_spec k k0) as [-> | Hne].
      * rewrite assoc_own_set_same in Ha1. inversion Ha1; subst a1.
        exists arr. split; [exact Hk0 |].
        split; [exact (perm_trans (sort_by_perm _ _ _ Hs) Hp) |].
        split; [| intros Hn; exfalso; apply Hn; left; reflexivity].
        intros _. destruct (in_dec string_dec k0 keys) as [Hi | Hn].
        -- exact (Hin Hi).
        -- rewrite (Hout Hn). exists arr. exact Hs.
      * rewrite assoc_own_set_other in Ha1 by exact Hne.
        exists a1. split; [exact Ha1 |]. split; [exact Hp |].
        split; [intros [Heq | Hi]; [congruence | exact (Hin Hi)] |].
        intros Hn. apply Hout. intros Hi. apply Hn. right. exact Hi.
    + intros H. destruct (IH _ _ H) as [Hkeys Hvals].
      split; [exact Hkeys |].
      intros k a2 Hk. destruct (Hvals k a2 Hk) as (a1 & Ha1 & Hp & Hin & Hout).
      exists a1. split; [exact Ha1 |]. split; [exact Hp |].
      split.
      * intros [Heq | Hi]; [| exact (Hin Hi)].
        subst k0. congruence.
      * intros Hn. apply Hout. intros Hi. apply Hn. right. exact Hi.
Qed.

Lemma sort_all_spec tools1 tools2 :
  sort_all w tools1 = Ok tools2 ->
  map fst tools2 = map fst tools1 /\
  (forall k a2,
     assoc k tools2 = Some a2 ->
     exists a1 a',
       assoc k tools1 = Some a1 /\
       Permutation a1 a2 /\
       sort_by (compareByName w) a' = Ok a2).
Proof.
  unfold sort_all. intros H.
  destruct (sort_each_spec _ _ _ H) as [Hkeys Hvals].
  split; [exact Hkeys |].
  intros k a2 Hk. destruct (Hvals k a2 Hk) as (a1 & Ha1 & Hp & Hin & _).
  destruct Hin as [a' Ha'].
  { unfold ownKeys. apply In_key_order. exact (assoc_In_keys _ _ _ Ha1). }
  exists a1, a'. auto.
Qed.

(** What a run that wrote a catalog went through. *)
Lemma main_written c :
  written (main w) = Some c ->
  exists tes types d1 tools1,
    resolve w (toolsDir_of w) = Some (Dir tes) /\
    discoverSoftwareTypes w (toolsDir_of w) = Ok types /\
    process_all w
      (Object_fromEntries
         (map (fun type : string => (type, @nil ToolRecord)) types))
      (traverse (toolsDir_of w) (Dir tes)) = (d1, Ok tools1) /\
    sort_all w tools1 = Ok (tools c) /\
    version c = "1.0.0" /\
    generated_at c = now w /\
    exit_status (main w) = 0%Z.
Proof.
  unfold main. destruct (main_try w) as [d [c' | e]] eqn:Hrun; simpl;
    [| discriminate].
  intros H. inversion H; subst c'. clear H.
  unfold main_try in Hrun. fold (toolsDir_of w) in Hrun.
  apply bind_Ok in Hrun as (d0 & [] & d0' & _ & Hrun & ->).
  destruct (existsSync w (toolsDir_of w)); cbn [negb] in Hrun;
    [| discriminate].
  apply bind_Ok in Hrun as (df & files & df' & Hfiles & Hrun & ->).
  apply bind_Ok in Hrun as (dt & types & dt' & Htypes & Hrun & ->).
  apply bind_Ok in Hrun as (dl & [] & dl' & _ & Hrun & ->).
  apply bind_Ok in Hrun as (dl2 & [] & dl2' & _ & Hrun & ->).
  apply bind_Ok in Hrun as (d1 & tools1 & d1' & Hall & Hrun & ->).
  apply bind_Ok in Hrun as (ds & tools2 & ds' & Hsort & Hrun & ->).
  apply bind_Ok in Hrun as (dw & [] & dw' & _ & Hrun & ->).
  apply bind_Ok in Hrun as (dy & [] & dy' & _ & Hrun & ->).
  unfold ret in Hrun. inversion Hrun; subst c. clear Hrun.
  unfold lift in Hfiles, Htypes, Hsort.
  inversion Hfiles as [[Hd Hf]]. inversion Htypes as [[Hd' Ht]].
  inversion Hsort as [[Hd'' Hs]]. clear Hfiles Htypes Hsort.
  unfold findMetadataFiles in Hf.
  destruct (resolve w (toolsDir_of w)) as [[content | tes] |] eqn:Hres;
    try discriminate.
  inversion Hf; subst files.
  exists tes, types, d1, tools1. cbn [tools version generated_at].
  repeat split; auto.
Qed.

End Run.

(* ================================================================== *)
(** * Category discovery *)
(* ================================================================== *)

Section Discovery.

Lemma insert_string_perm x l : Permutation (x :: l) (insert_string x l).
Proof.
  induction l as [| y l IH]; simpl; [apply Permutation_refl |].
  destruct (code_unit_leb x y); [apply Permutation_refl |].
  apply perm_trans with (y :: x :: l); [apply perm_swap |].
  apply perm_skip, IH.
Qed.

Lemma sort_strings_perm l : Permutation l (sort_strings l).
Proof.
  induction l as [| x l IH]; simpl; [apply perm_nil |].
  apply perm_trans with (x :: sort_strings l);
    [apply perm_skip, IH | apply insert_string_perm].
Qed.

Lemma code_unit_leb_total a b :
  code_unit_leb a b = false -> code_unit_leb b a = true.
Proof.
  revert b. induction a as [| x a IH]; intros [| y b]; simpl; try congruence.
  destruct (Nat.ltb_spec (nat_of_ascii x) (nat_of_ascii y)) as [Hlt | Hge];
    [discriminate |].
  destruct (Nat.ltb_spec (nat_of_ascii y) (nat_of_ascii x)) as [Hlt' | Hge'];
    [reflexivity |].
  apply IH.
Qed.

Lemma insert_string_sorted x l :
  Sorted (fun a b => code_unit_leb a b = true) l ->
  Sorted (fun a b => code_unit_leb a b = true) (insert_string x l).
Proof.
  induction 1 as [| y l Hs IH Hhd]; simpl; [repeat constructor |].
  destruct (code_unit_leb x y) eqn:Hxy.
  - constructor; [constructor; assumption |]. constructor. exact Hxy.
  - constructor; [exact IH |].
    destruct Hhd as [| z l Hyz]; simpl.
    + constructor. apply code_unit_leb_total, Hxy.
    + destruct (code_unit_leb x z); constructor;
        [apply code_unit_leb_total, Hxy | exact Hyz].
Qed.

Lemma sort_strings_sorted l :
  Sorted (fun a b => code_unit_leb a b = true) (sort_strings l).
Proof.
  induction l as [| x l IH]; simpl; [constructor |].
  apply insert_string_sorted, IH.
Qed.

Lemma NoDup_keys_filter {V} (f : string * V -> bool) (l : list (string * V)) :
  NoDup (map fst l) -> NoDup (map fst (filter f l)).
Proof.
  induction l as [| [k v] l IH]; simpl; [intros; constructor |].
  intros H. inversion H as [| ? ? Hnotin Hnd]; subst.
  destruct (f (k, v)); simpl; [| apply IH, Hnd].
  constructor; [| apply IH, Hnd].
  intros Hin. apply Hnotin.
  apply in_map_iff in Hin. destruct Hin as ([k' v'] & Heq & Hin).
  apply filter_In in Hin. apply in_map_iff. exists (k', v'). tauto.
Qed.

(** The discovered types are the names of the entries of the tools root
    that are directories, sorted by code units. *)
Lemma discoverSoftwareTypes_spec (w : world) (dir : string) types :
  discoverSoftwareTypes w dir = Ok types ->
  exists entries,
    readdirSync w dir = Ok entries /\
    (forall k, In k types <->
               exists n, In (k, n) entries /\ isDirectory n = true) /\
    Sorted (fun a b => code_unit_leb a b = true) types /\
    (NoDup (map fst entries) -> NoDup types).
Proof.
  unfold discoverSoftwareTypes.
  destruct (readdirSync w dir) as [entries | e]; simpl; [| discriminate].
  intros H. inversion H; subst. clear H.
  exists entries. split; [reflexivity |]. split; [| split].
  - intros k. split.
    + intros Hin.
      apply (Permutation_in _ (Permutation_sym (sort_strings_perm _))) in Hin.
      apply in_map_iff in Hin. destruct Hin as ([k' n] & Heq & Hin).
      simpl in Heq. subst k'. apply filter_In in Hin. exists n. exact Hin.
    + intros (n & Hin & Hd).
      apply (Permutation_in _ (sort_strings_perm _)).
      apply in_map_iff. exists (k, n). split; [reflexivity |].
      apply filter_In. auto.
  - apply sort_strings_sorted.
  - intros Hnd.
    apply (Permutation_NoDup (sort_strings_perm _)).
    apply NoDup_keys_filter, Hnd.
Qed.

End Discovery.

(* ================================================================== *)
(** * The categories of the catalog *)
(* ================================================================== *)

(** What the written catalog holds: the keys are the discovered types,
    in creation order when these are distinct; each array is a sorted
    rearrangement of the records collected for its category. *)
Lemma catalog_contents (w : world) (c : Catalog) :
  written (main w) = Some c ->
  exists files types,
    findMetadataFiles w (toolsDir_of w) = Ok files /\
    discoverSoftwareTypes w (toolsDir_of w) = Ok types /\
    (forall k, In k (map fst (tools c)) <-> In k types) /\
    (NoDup types -> map fst (tools c) = types) /\
    (forall k l,
       assoc k (tools c) = Some l ->
       Permutation (collected w files k) l /\
       exists l', sort_by (compareByName w) l' = Ok l).
Proof.
  intros H.
  destruct (main_written w c H)
    as (tes & types & d1 & tools1 & Hres & Htypes & Hall & Hsort & _).
  exists (traverse (toolsDir_of w) (Dir tes)), types.
  split; [unfold findMetadataFiles; rewrite Hres; reflexivity |].
  split; [exact Htypes |].
  destruct (process_all_appends w _ _ _ _ Hall) as [Hk1 Hv1].
  destruct (sort_all_spec w _ _ Hsort) as [Hk2 Hv2].
  split; [| split].
  - intros k. rewrite Hk2, Hk1. apply initial_tools_keys.
  - intros Hnd. rewrite Hk2, Hk1. apply initial_tools_order, Hnd.
  - intros k l Hl.
    destruct (Hv2 k l Hl) as (a1 & a' & Ha1 & Hp & Hs).
    split; [| exists a'; exact Hs].
    destruct (In_keys_assoc k _
                (eq_ind _ (fun ks => In k ks) (assoc_In_keys _ _ _ Ha1) _ Hk1))
      as [a0 Ha0].
    pose proof (initial_tools_empty types k a0 Ha0) as ->.
    rewrite (Hv1 k [] Ha0) in Ha1. simpl in Ha1.
    inversion Ha1; subst. exact Hp.
Qed.

(** C2 as stated fails on the order: the discovered types
    [".archive"; "10"; "9"] are sorted by code units, while the mapping of
    the document lists the keys "9" and "10" first, in numeric order, and
    ".archive" last. *)
Lemma C2_numeric_categories_counterexample :
  exists c,
    written (main (sample_world tree_numeric_categories)) = Some c /\
    discoverSoftwareTypes (sample_world tree_numeric_categories)
      "/repo/tools" = Ok [".archive"; "10"; "9"] /\
    map fst (document_tools c) = ["9"; "10"; ".archive"].
Proof.
  eexists. split; [vm_compute; reflexivity |].
  split; vm_compute; reflexivity.
Qed.

(** C2, amended. The keys of the [tools] mapping of the document are
    exactly the names of the immediate subdirectories of the tools root,
    and each key holds the records collected for it, none for a category
    without valid tool.  The discovered names are sorted by code units;
    the mapping lists the names that are array indices first, in numeric
    order, and the other names after them in sorted order, so that it is
    in sorted order when no name is an array index. *)
Theorem C2_category_keys (w : world) (c : Catalog) :
  written (main w) = Some c ->
  exists entries types files,
    readdirSync w (toolsDir_of w) = Ok entries /\
    discoverSoftwareTypes w (toolsDir_of w) = Ok types /\
    findMetadataFiles w (toolsDir_of w) = Ok files /\
    (forall k, In k types <->
               exists n, In (k, n) entries /\ isDirectory n = true) /\
    Sorted (fun a b => code_unit_leb a b = true) types /\
    (forall k, In k (map fst (document_tools c)) <-> In k types) /\
    (forall k l, In (k, l) (document_tools c) ->
                 Permutation (collected w files k) l) /\
    (NoDup (map fst entries) ->
     map fst (document_tools c) = key_order types) /\
    (NoDup (map fst entries) ->
     (forall k, In k types -> array_index k = None) ->
     map fst (document_tools c) = types).
Proof.
  intros H.
  destruct (catalog_contents w c H)
    as (files & types & Hfiles & Htypes & Hkeys & Horder & Hvals).
  destruct (discoverSoftwareTypes_spec w _ types Htypes)
    as (entries & Hdir & Hin & Hsorted & Hnd).
  exists entries, types, files.
  repeat (split; [assumption |]).
  unfold document_tools. rewrite keys_Object_entries.
  split; [| split; [| split]].
  - intros k. rewrite In_key_order. apply Hkeys.
  - intros k l Hl. apply In_Object_entries in Hl.
    apply (Hvals k l Hl).
  - intros Hd. rewrite (Horder (Hnd Hd)). reflexivity.
  - intros Hd Hno. rewrite (Horder (Hnd Hd)).
    apply key_order_without_indices, Hno.
Qed.

Lemma C2_category_keys_witness :
  map fst (document_tools catalog_one_tool) = ["blender"].
Proof.
  destruct (C2_category_keys (sample_world tree_one_tool) catalog_one_tool
              eq_refl)
    as (entries & types & files & Hdir & Htypes & _ & _ & _ & _ & _ & _ & Ho).
  vm_compute in Hdir. inversion Hdir; subst entries.
  vm_compute in Htypes. inversion Htypes; subst types.
  apply Ho.
  - repeat constructor. intros [].
  - intros k [<- | []]. reflexivity.
Defined.

(* ================================================================== *)
(** * Records and main files *)
(* ================================================================== *)

(** Every record of the document was built from a descriptor found by
    the scan, in whose directory an entry with the name of the main file
    exists. *)
Lemma record_has_main_entry (w : world) (c : Catalog) k l t :
  written (main w) = Some c ->
  In (k, l) (document_tools c) ->
  In t l ->
  exists files p r,
    findMetadataFiles w (toolsDir_of w) = Ok files /\
    In p files /\
    snd (processTool w p) = Ok (Some r) /\
    softwareType r = k /\ tool r = t /\
    existsSync w (path_join (path_dirname p) (mainFileName_of k)) = true.
Proof.
  intros H Hl Ht.
  destruct (catalog_contents w c H)
    as (files & types & Hfiles & _ & _ & _ & Hvals).
  apply In_Object_entries in Hl.
  destruct (Hvals k l Hl) as [Hp _].
  apply (Permutation_in _ (Permutation_sym Hp)) in Ht.
  destruct (In_collected w t files k Ht) as (p & r & Hin & Hr & Hk & Htool).
  exists files, p, r. repeat (split; [assumption |]).
  destruct (processTool w p) as [d o] eqn:Hproc. simpl in Hr. subst o.
  destruct (processTool_success w p d r Hproc)
    as (_ & _ & _ & _ & _ & _ & Hex & _).
  rewrite Hk in Hex. exact Hex.
Qed.

(** C1 fails on the code where the main file name is taken by a
    directory: [tools/blender/a/tool.py] is not a regular file, and the
    tool is in the catalog. *)
Theorem C1_directory_named_as_main_file :
  resolve (sample_world tree_main_is_directory)
    "/repo/tools/blender/a/tool.py" = Some (Dir []) /\
  ~ is_regular_file (sample_world tree_main_is_directory)
      "/repo/tools/blender/a/tool.py" /\
  exists c,
    written (main (sample_world tree_main_is_directory)) = Some c /\
    document_tools c
    = [("blender",
        [{| name := JStr "A";
            description := JStr "";
            folder := "a";
            updated_at := "2024-05-01T10:00:00+00:00";
            dependencies := None;
            id := None |}])].
Proof.
  split; [reflexivity |]. split.
  - intros [content H]. vm_compute in H. discriminate.
  - eexists. split; reflexivity.
Qed.

(* ================================================================== *)
(** * The order of the records *)
(* ================================================================== *)

Section NameOrder.

Variable w : world.

Hypothesis collation_antisym :
  forall a b, (localeCompare w a b <= 0)%Z <-> (0 <= localeCompare w b a)%Z.

Lemma compareByName_defined a b :
  has_string_name a -> has_string_name b ->
  exists z, compareByName w a b = Ok z.
Proof.
  intros [sa Ha] [sb Hb]. unfold compareByName. rewrite Ha, Hb. simpl. eauto.
Qed.

Lemma compareByName_later a b z :
  has_string_name a -> has_string_name b ->
  compareByName w a b = Ok z -> (0 <= z)%Z ->
  precedes (compareByName w) b a.
Proof.
  intros [sa Ha] [sb Hb]. unfold precedes, compareByName.
  rewrite Ha, Hb. simpl.
  intros H Hz. inversion H; subst.
  eexists. split; [reflexivity |]. apply collation_antisym, Hz.
Qed.

Lemma compareByName_earlier a b :
  has_string_name a -> has_string_name b ->
  precedes (compareByName w) a b ->
  exists z, compareByName w b a = Ok z /\ (0 <= z)%Z.
Proof.
  intros [sa Ha] [sb Hb]. unfold precedes, compareByName.
  rewrite Ha, Hb. simpl.
  intros (z & H & Hz). inversion H; subst.
  eexists. split; [reflexivity |]. apply collation_antisym, Hz.
Qed.

(** An array that a sort returned is ordered by name, when all its names
    are strings. *)
Lemma sorted_by_name l' l :
  sort_by (compareByName w) l' = Ok l ->
  Forall has_string_name l ->
  Sorted (name_le w) l.
Proof.
  intros Hs Hl.
  apply (sort_by_sorted (compareByName w) has_string_name
           compareByName_later l' l); [| exact Hs].
  apply (Permutation_Forall (Permutation_sym (sort_by_perm _ _ _ Hs))), Hl.
Qed.

(** Sorting an array that is ordered by name returns it. *)
Lemma sorted_by_name_fixpoint l :
  Forall has_string_name l ->
  Sorted (name_le w) l ->
  sort_by (compareByName w) l = Ok l.
Proof.
  exact (sort_by_sorted_fixpoint (compareByName w) has_string_name
           compareByName_earlier l).
Qed.

End NameOrder.

(** An ordered list without two records that compare equal is strictly
    ordered. *)
Lemma strictly_sorted_without_ties (w : world) (l : list ToolRecord) :
  Sorted (name_le w) l ->
  ForallOrdPairs (fun a b => compareByName w a b <> Ok 0%Z) l ->
  Sorted (name_lt w) l.
Proof.
  induction 1 as [| a l Hs IH Hhd]; intros Hties; [constructor |].
  inversion Hties as [| ? ? Ha Hrest]; subst.
  constructor; [apply IH, Hrest |].
  destruct Hhd as [| b l (z & Hz & Hle)]; constructor.
  exists z. split; [exact Hz |].
  assert (z <> 0%Z).
  { intros ->. rewrite Forall_forall in Ha.
    apply (Ha b); [left; reflexivity | exact Hz]. }
  lia.
Qed.

(** C3 as stated fails: two tools of one category with the same display
    name stand next to each other, and their names do not compare as
    strictly ascending. *)
Lemma C3_equal_names_counterexample :
  exists c l,
    written (main (sample_world tree_same_names)) = Some c /\
    In ("blender", l) (document_tools c) /\
    ~ Sorted (name_lt (sample_world tree_same_names)) l.
Proof.
  eexists. eexists. split; [vm_compute; reflexivity |].
  split; [left; reflexivity |].
  intros H. inversion H as [| a l Hs Hhd]; subst.
  inversion Hhd as [| b l' (z & Hz & Hlt)]; subst.
  vm_compute in Hz. inversion Hz; subst. lia.
Qed.

(** C3, amended. In the written document every list whose names are
    strings is ordered by name under the collation of the run, each name
    comparing lower than or equal to the next; the order is strict when
    no two records of the list compare equal.  Sorting the list again
    returns the same list.  (The collation is consistent: it puts [a]
    before [b] or level with it exactly when it puts [b] after [a] or
    level with it.) *)
Theorem C3_lists_ordered_by_name (w : world) (c : Catalog) (k : string)
    (l : list ToolRecord) :
  (forall a b,
     (localeCompare w a b <= 0)%Z <-> (0 <= localeCompare w b a)%Z) ->
  written (main w) = Some c ->
  In (k, l) (document_tools c) ->
  Forall has_string_name l ->
  Sorted (name_le w) l /\
  sort_by (compareByName w) l = Ok l /\
  (ForallOrdPairs (fun a b => compareByName w a b <> Ok 0%Z) l ->
   Sorted (name_lt w) l).
Proof.
  intros Hasym H Hl Hnames.
  destruct (catalog_contents w c H) as (files & types & _ & _ & _ & _ & Hvals).
  apply In_Object_entries in Hl.
  destruct (Hvals k l Hl) as [_ [l' Hs]].
  assert (Hsorted : Sorted (name_le w) l)
    by exact (sorted_by_name w Hasym l' l Hs Hnames).
  split; [exact Hsorted |]. split.
  - exact (sorted_by_name_fixpoint w Hasym l Hnames Hsorted).
  - apply strictly_sorted_without_ties, Hsorted.
Qed.

Lemma code_unit_compare_antisym a b :
  (code_unit_compare a b <= 0)%Z <-> (0 <= code_unit_compare b a)%Z.
Proof.
  revert b. induction a as [| x a IH]; intros [| y b]; simpl; try lia.
  destruct (Nat.ltb_spec (nat_of_ascii x) (nat_of_ascii y)) as [Hlt | Hge];
    destruct (Nat.ltb_spec (nat_of_ascii y) (nat_of_ascii x)) as [Hlt' | Hge'];
    try lia.
  apply IH.
Qed.

Lemma C3_lists_ordered_by_name_witness :
  Sorted (name_le (sample_world tree_two_tools))
    [record_named "Alpha" "alpha"; record_named "Zeta" "zeta"].
Proof.
  apply (C3_lists_ordered_by_name (sample_world tree_two_tools)
           catalog_two_tools "blender"
           [record_named "Alpha" "alpha"; record_named "Zeta" "zeta"]).
  - exact code_unit_compare_antisym.
  - reflexivity.
  - left. reflexivity.
  - repeat constructor; eexists; reflexivity.
Defined.

(* ================================================================== *)
(** * The exit status *)
(* ================================================================== *)

Section ExitStatus.

Variable w : world.

Lemma process_all_succeeds files :
  forall tools0,
    (forall p r,
       In p files ->
       snd (processTool w p) = Ok (Some r) ->
       In (softwareType r) Object_prototype_keys ->
       In (softwareType r) (map fst tools0)) ->
    exists d tools1, process_all w tools0 files = (d, Ok tools1).
Proof.
  induction files as [| p files IH]; intros tools0 Hsafe.
  - simpl. unfold ret. eauto.
  - cbn [process_all].
    assert (Hstep : exists d tools', add_result w tools0 p = (d, Ok tools')).
    { unfold add_result.
      destruct (processTool_returns w p) as [res Hres].
      pose proof (Hsafe p) as Hp.
      destruct (processTool w p) as [dp op]. simpl in Hres. subst op.
      unfold bind at 1. cbn beta iota.
      destruct res as [r |]; cbn beta iota.
      - destruct (get_property tools0 (softwareType r)) as [arr | |] eqn:Hg.
        + unfold ret. eauto.
        + exfalso. apply get_property_Inherited in Hg.
          destruct Hg as [Hnone Hin].
          apply assoc_None_iff in Hnone. apply Hnone.
          apply (Hp r); [left; reflexivity | reflexivity | exact Hin].
        + unfold bind, tell, ret. eauto.
      - unfold ret. eauto. }
    destruct Hstep as (d1 & tools' & Hstep).
    destruct (add_result_appends w _ _ _ _ Hstep) as [Hkeys _].
    destruct (IH tools') as (d2 & tools1 & Hrest).
    { intros q r Hq Hr Hin. rewrite Hkeys.
      apply (Hsafe q r); [right; exact Hq | exact Hr | exact Hin]. }
    unfold bind. rewrite Hstep, Hrest. eauto.
Qed.

Lemma sort_each_succeeds keys :
  forall tools1,
    (forall k arr, assoc k tools1 = Some arr -> Forall has_string_name arr) ->
    exists tools2, sort_each w keys tools1 = Ok tools2.
Proof.
  induction keys as [| k0 keys IH]; intros tools1 Hnames; simpl; [eauto |].
  destruct (assoc k0 tools1) as [arr |] eqn:Hk0; [| apply IH, Hnames].
  destruct (sort_by_defined (compareByName w) has_string_name
              (compareByName_defined w) arr (Hnames k0 arr Hk0))
    as [s Hs].
  rewrite Hs. simpl. apply IH.
  intros k a. destruct (String.eqb_spec k k0) as [-> | Hne].
  - rewrite assoc_own_set_same. intros H. inversion H; subst.
    apply (Permutation_Forall (sort_by_perm _ _ _ Hs)), (Hnames k0 arr Hk0).
  - rewrite assoc_own_set_other by exact Hne. apply Hnames.
Qed.

Lemma main_status_and_document :
  (exit_status (main w) = 0%Z /\ exists c, written (main w) = Some c)
  \/ (exit_status (main w) = 1%Z /\ written (main w) = None).
Proof.
  unfold main. destruct (main_try w) as [d [c | e]]; simpl; eauto.
Qed.

Lemma main_without_root :
  existsSync w (toolsDir_of w) = false ->
  main_try w = ([LogGenerating], Throw ToolsDirNotFound).
Proof.
  intros H. unfold main_try. fold (toolsDir_of w). rewrite H. reflexivity.
Qed.

End ExitStatus.

(** C8 as stated fails in its second half: the tools root exists, and
    the run ends with status 1 and writes nothing, because the names the
    descriptors give are numbers and the comparator of the sort calls
    [localeCompare] on them. *)
Lemma C8_root_exists_counterexample :
  existsSync (sample_world tree_numeric_names)
    (toolsDir_of (sample_world tree_numeric_names)) = true /\
  exit_status (main (sample_world tree_numeric_names)) = 1%Z /\
  written (main (sample_world tree_numeric_names)) = None /\
  In (ErrFatal (TypeError "a.name.localeCompare is not a function"))
     (console (main (sample_world tree_numeric_names))).
Proof.
  vm_compute. repeat split; auto 10.
Qed.

(** C8, amended. A run ends with status 1 exactly when it writes no
    catalog, and with status 0 otherwise.  Without tools root it ends
    with status 1.  With a tools root that is a directory it ends with
    status 0 and writes the catalog, however many tools it skips,
    provided that no error reaches the top level: every record built has
    a string as name, no category read from a path is a property
    inherited from [Object.prototype] without being a discovered type,
    and [catalog.json] is not a directory. *)
Theorem C8_exit_status (w : world) :
  ((exit_status (main w) = 0%Z /\ exists c, written (main w) = Some c)
   \/ (exit_status (main w) = 1%Z /\ written (main w) = None)) /\
  (existsSync w (toolsDir_of w) = false ->
   exit_status (main w) = 1%Z /\ written (main w) = None) /\
  (forall tes types,
     resolve w (toolsDir_of w) = Some (Dir tes) ->
     discoverSoftwareTypes w (toolsDir_of w) = Ok types ->
     (forall p r,
        In p (traverse (toolsDir_of w) (Dir tes)) ->
        snd (processTool w p) = Ok (Some r) ->
        has_string_name (tool r) /\
        (In (softwareType r) Object_prototype_keys ->
         In (softwareType r) types)) ->
     (forall es, resolve w (path_join (cwd w) "catalog.json")
                 <> Some (Dir es)) ->
     exit_status (main w) = 0%Z /\ exists c, written (main w) = Some c).
Proof.
  split; [apply main_status_and_document |]. split.
  - intros H. unfold main. rewrite (main_without_root w H). auto.
  - intros tes types Hres Htypes Hrecords Hwrite.
    set (tools0 := Object_fromEntries
                     (map (fun type : string => (type, @nil ToolRecord))
                        types)).
    set (files := traverse (toolsDir_of w) (Dir tes)).
    destruct (process_all_succeeds w files tools0) as (d1 & tools1 & Hall).
    { intros p r Hp Hr Hin. apply initial_tools_keys.
      apply (Hrecords p r Hp Hr), Hin. }
    destruct (process_all_appends w _ _ _ _ Hall) as [Hkeys Hvals].
    destruct (sort_each_succeeds w (ownKeys tools1) tools1) as [tools2 Hsort].
    { intros k arr Hk.
      assert (Hin : In k (map fst tools0))
        by (rewrite <- Hkeys; exact (assoc_In_keys _ _ _ Hk)).
      destruct (In_keys_assoc k tools0 Hin) as [a0 Ha0].
      pose proof (initial_tools_empty types k a0 Ha0) as ->.
      rewrite (Hvals k [] Ha0) in Hk. simpl in Hk. inversion Hk; subst.
      apply Forall_forall. intros t Ht.
      destruct (In_collected w t files k Ht) as (p & r & Hp & Hr & _ & <-).
      apply (Hrecords p r Hp Hr). }
    assert (Hex : existsSync w (toolsDir_of w) = true)
      by (unfold existsSync; rewrite Hres; reflexivity).
    assert (Hw : writeFileSync w (path_join (cwd w) "catalog.json") = Ok tt).
    { unfold writeFileSync.
      destruct (resolve w (path_join (cwd w) "catalog.json"))
        as [[content | es] |] eqn:Hcat; try reflexivity.
      exfalso. apply (Hwrite es). reflexivity. }
    assert (Hrun : exists d c, main_try w = (d, Ok c)).
    { unfold main_try. fold (toolsDir_of w). rewrite Hex. cbn [negb].
      eexists. eexists.
      eapply bind_intro; [reflexivity |].
      eapply bind_intro;
        [unfold lift, findMetadataFiles; rewrite Hres; reflexivity |].
      eapply bind_intro; [unfold lift; rewrite Htypes; reflexivity |].
      eapply bind_intro; [reflexivity |].
      eapply bind_intro; [reflexivity |].
      eapply bind_intro; [exact Hall |].
      eapply bind_intro; [unfold lift, sort_all; rewrite Hsort; reflexivity |].
      eapply bind_intro; [unfold lift; rewrite Hw; reflexivity |].
      eapply bind_intro; [reflexivity |].
      reflexivity. }
    destruct Hrun as (d & c & Hrun).
    unfold main. rewrite Hrun. simpl. eauto.
Qed.

Lemma C8_exit_status_witness :
  exit_status (main (sample_world tree_two_tools)) = 0%Z /\
  exists c, written (main (sample_world tree_two_tools)) = Some c.
Proof.
  apply (proj2 (proj2 (C8_exit_status (sample_world tree_two_tools)))
           _ ["blender"; "sketchup"] eq_refl eq_refl).
  - intros p r [<- | [<- | [<- | []]]] Hr;
      vm_compute in Hr; inversion Hr; subst r; simpl.
    + split; [eexists; reflexivity |].
      intros H. repeat (destruct H as [H | H]; [discriminate |]). destruct H.
    + split; [eexists; reflexivity |].
      intros H. repeat (destruct H as [H | H]; [discriminate |]). destruct H.
  - intros es H. vm_compute in H. discriminate.
Defined.

(* ================================================================== *)
(** * Further properties of the scan and of the paths *)
(* ================================================================== *)

Section ScanAndPaths.

Lemma path_join_shape d e :
  exists pre, path_join d e = pre ++ String slash e.
Proof.
  unfold path_join. destruct (d =? "/").
  - exists "". reflexivity.
  - exists d. reflexivity.
Qed.

Lemma path_basename_joined d e :
  plain_name e = true -> path_basename (path_join d e) = e.
Proof.
  intros He. destruct (path_join_shape d e) as [pre ->].
  unfold path_basename.
  rewrite (last_slash_split_app pre e (plain_name_no_slash e He)).
  reflexivity.
Qed.

Lemma append_assoc a b c : (a ++ b) ++ c = a ++ (b ++ c).
Proof.
  induction a as [| x a IH]; simpl; [reflexivity | rewrite IH; reflexivity].
Qed.

(** A directory reached from a proper one is proper and spelled by
    appending segments to it. *)
Lemma reaches_below dir n dir' n' :
  proper dir ->
  reaches dir n dir' n' ->
  proper dir' /\
  exists t, dir' = dir ++ t /\ (t = "" \/ exists t', t = String slash t').
Proof.
  intros Hd. induction 1 as [| dir' es entry child _ IH Hin].
  - split; [exact Hd |]. exists "". split; [| left; reflexivity].
    clear. induction dir as [| c dir IH]; simpl; [| rewrite <- IH];
      reflexivity.
  - destruct IH as [Hp (t & -> & Ht)].
    split; [apply path_join_is_proper, Hp |].
    rewrite (path_join_proper _ entry Hp).
    exists (t ++ "/" ++ entry). split; [apply append_assoc |].
    right. destruct Ht as [-> | [t' ->]]; simpl; eauto.
Qed.

Lemma pathParts_not_nil p : pathParts p <> [].
Proof. apply split_on_not_nil. Qed.

Lemma indexOf_bounds x pre rest :
  (0 <= indexOf x (pre ++ x :: rest)
   /\ indexOf x (pre ++ x :: rest) <= Z.of_nat (List.length pre))%Z.
Proof.
  induction pre as [| y pre IH]; cbn [app indexOf List.length].
  - rewrite String.eqb_refl. lia.
  - destruct (y =? x); [lia |].
    destruct (Z.eqb_spec (indexOf x (pre ++ x :: rest)) (-1)); lia.
Qed.

(** A path with a part after some [tools] part has a category. *)
Lemma extractSoftwareType_anchor_followed p pre b post :
  pathParts p = (pre ++ "tools" :: b :: post)%list ->
  exists c, extractSoftwareType p = Ok c.
Proof.
  intros Hp. unfold extractSoftwareType. rewrite Hp.
  pose proof (indexOf_bounds "tools" pre (b :: post)) as [H0 H1].
  rewrite length_app. cbn [List.length].
  destruct (Z.eqb_spec (indexOf "tools" (pre ++ "tools" :: b :: post)) (-1));
    [lia |].
  replace (indexOf "tools" (pre ++ "tools" :: b :: post) + 1
           >=? Z.of_nat (List.length pre + S (S (List.length post))))%Z
    with false by (symmetry; rewrite Z.geb_leb; apply Z.leb_gt; lia).
  cbn [orb]. eauto.
Qed.

Lemma append_empty a : a ++ "" = a.
Proof.
  induction a as [| x a IH]; simpl; [reflexivity | rewrite IH; reflexivity].
Qed.

Lemma pathParts_app_slash a b :
  pathParts (a ++ String slash b) = (pathParts a ++ pathParts b)%list.
Proof. exact (pathParts_app a b). Qed.

(** The parts of a path spelled below a directory named [tools]. *)
Lemma pathParts_below_tools pre t e :
  (t = "" \/ exists t', t = String slash t') ->
  exists b post,
    pathParts ((pre ++ String slash "tools") ++ t ++ "/" ++ e)
    = (pathParts pre ++ "tools" :: b :: post)%list.
Proof.
  intros [-> | [t' ->]].
  - pose proof (pathParts_not_nil e) as Hne.
    destruct (pathParts e) as [| b post] eqn:He; [contradiction |].
    exists b, post.
    change ("" ++ "/" ++ e) with (String slash e).
    rewrite !pathParts_app_slash, He, <- app_assoc. reflexivity.
  - pose proof (pathParts_not_nil (t' ++ String slash e)) as Hne.
    destruct (pathParts (t' ++ String slash e)) as [| b post] eqn:He;
      [contradiction |].
    exists b, post.
    change (String slash t' ++ "/" ++ e)
      with (String slash (t' ++ String slash e)).
    rewrite (pathParts_app_slash (pre ++ String slash "tools")),
      (pathParts_app_slash pre), He, <- app_assoc.
    reflexivity.
Qed.

Lemma findMetadataFiles_Ok (w : world) dir files :
  findMetadataFiles w dir = Ok files ->
  exists es, resolve w dir = Some (Dir es) /\ files = traverse dir (Dir es).
Proof.
  unfold findMetadataFiles.
  destruct (resolve w dir) as [[content | es] |]; try discriminate.
  intros H. exists es. split; [reflexivity | congruence].
Qed.

End ScanAndPaths.



Lemma path_below_the_tools_root_has_a_category (w : world) n dir' n' e :
  reaches (toolsDir_of w) n dir' n' ->
  exists c, extractSoftwareType (path_join dir' e) = Ok c.
Proof.
  intros Hr.
  assert (Ht : proper (toolsDir_of w))
    by (apply path_join_entry_proper; discriminate).
  destruct (reaches_below _ _ _ _ Ht Hr) as [Hp (t & -> & Hshape)].
  destruct (path_join_shape (cwd w) "tools") as [pre Hpre].
  fold (toolsDir_of w) in Hpre.
  rewrite (path_join_proper _ _ Hp), Hpre, append_assoc.
  destruct (pathParts_below_tools pre t e Hshape) as (b & post & Hparts).
  exact (extractSoftwareType_anchor_followed _ _ b post Hparts).
Qed.

(** X2. Every path built below the tools root has a category, whatever
    the working directory: the derivation of the category cannot fail on
    a descriptor that the scan of the tools root returns. *)
Theorem scanned_paths_have_a_category (w : world) (files : list string)
    (q : string) :
  findMetadataFiles w (toolsDir_of w) = Ok files ->
  In q files ->
  exists c, extractSoftwareType q = Ok c.
Proof.
  intros Hf Hq.
  destruct (findMetadataFiles_Ok w _ files Hf) as (es & _ & ->).
  destruct (traverse_sound _ _ _ Hq) as (dir' & es' & c & Hr & _ & ->).
  exact (path_below_the_tools_root_has_a_category w _ dir' _
           "metadata.json" Hr).
Qed.

Lemma scanned_paths_have_a_category_witness :
  exists c,
    extractSoftwareType "/repo/tools/blender/group/a/metadata.json" = Ok c.
Proof.
  apply (scanned_paths_have_a_category (sample_world tree_odd_depths)
           ["/repo/tools/blender/metadata.json";
            "/repo/tools/blender/group/a/metadata.json"]).
  - reflexivity.
  - right. left. reflexivity.
Defined.

(* ------------------------------------------------------------------ *)
(** ** Descriptors at an unexpected depth *)

Lemma extractSoftwareType_in_category c cat :
  ~ In "tools" (pathParts c) ->
  plain_name cat = true ->
  extractSoftwareType
    (path_join (path_join (path_join c "tools") cat) "metadata.json")
  = Ok cat.
Proof.
  intros Hc Hcat.
  destruct (pathParts_toolsDir c Hc) as (pre & Hparts & Hpre).
  assert (Ht : proper (path_join c "tools"))
    by (apply path_join_entry_proper; discriminate).
  assert (Hcd : proper (path_join (path_join c "tools") cat))
    by (apply path_join_is_proper, Ht).
  apply (extractSoftwareType_anchor _ pre cat (pathParts "metadata.json"));
    [| exact Hpre].
  rewrite (pathParts_join _ _ Hcd), (pathParts_join _ _ Ht), Hparts,
    (plain_name_parts cat Hcat).
  rewrite <- !app_assoc. reflexivity.
Qed.

(** C10 as stated fails on the derived category: run from
    [/srv/tools/peg], the descriptor directly inside [tools/blender] is
    found and processed with the folder [blender], but its category is
    [peg], the part after the first [tools] of its path; no key [peg]
    exists and the record is left out of the catalog. *)
Lemma C10_checkout_below_tools_counterexample :
  exists files d r c,
    findMetadataFiles world_below_tools (toolsDir_of world_below_tools)
    = Ok files /\
    In "/srv/tools/peg/tools/blender/metadata.json" files /\
    processTool world_below_tools
      "/srv/tools/peg/tools/blender/metadata.json" = (d, Ok (Some r)) /\
    folder (tool r) = "blender" /\
    softwareType r = "peg" /\
    softwareType r <> "blender" /\
    written (main world_below_tools) = Some c /\
    document_tools c = [("blender", [])] /\
    In (WarnUnknownCategory "peg") (console (main world_below_tools)).
Proof.
  do 4 eexists.
  split; [vm_compute; reflexivity |].
  split; [left; reflexivity |].
  split; [vm_compute; reflexivity |].
  split; [reflexivity |]. split; [reflexivity |].
  split; [discriminate |].
  split; [vm_compute; reflexivity |].
  split; [reflexivity |].
  vm_compute. auto 20.
Qed.

(** C10, amended. The scanner finds every [metadata.json] that is not a
    directory, at any depth below the tools root, and nothing else.  One
    that lies directly inside a category directory is processed as a
    tool: its folder is the name of that directory and its main file is
    looked up in that directory; it gives a record when it parses to a
    value other than [null], that main file exists and its name and id
    can be converted to strings.  Its category is read from its path and
    is the name of the category directory when the working directory has
    no part equal to [tools].  (The name of the category directory has no
    slash or backslash.) *)
Theorem C10_descriptor_in_category_directory (w : world)
    (tes ces : list (string * node)) (cat : string)
    (content : option json) :
  plain_name cat = true ->
  resolve w (toolsDir_of w) = Some (Dir tes) ->
  In (cat, Dir ces) tes ->
  In ("metadata.json", File content) ces ->
  (exists files,
     findMetadataFiles w (toolsDir_of w) = Ok files /\
     (forall q,
        In q files <->
        exists dir' es c,
          reaches (toolsDir_of w) (Dir tes) dir' (Dir es) /\
          In ("metadata.json", File c) es /\
          q = path_join dir' "metadata.json") /\
     In (path_join (path_join (toolsDir_of w) cat) "metadata.json") files) /\
  extractToolName
    (path_join (path_join (toolsDir_of w) cat) "metadata.json") = cat /\
  exists st,
    extractSoftwareType
      (path_join (path_join (toolsDir_of w) cat) "metadata.json") = Ok st /\
    (~ In "tools" (pathParts (cwd w)) -> st = cat) /\
    (forall d r,
       processTool w
         (path_join (path_join (toolsDir_of w) cat) "metadata.json")
       = (d, Ok (Some r)) ->
       folder (tool r) = cat /\
       softwareType r = st /\
       existsSync w
         (path_join (path_join (toolsDir_of w) cat) (mainFileName_of st))
       = true) /\
    (existsSync w
       (path_join (path_join (toolsDir_of w) cat) (mainFileName_of st))
     = false ->
     snd (processTool w
            (path_join (path_join (toolsDir_of w) cat) "metadata.json"))
     = Ok None) /\
    (forall metadata entries,
       descriptor w
         (path_join (path_join (toolsDir_of w) cat) "metadata.json")
       = Ok metadata ->
       metadata <> JNull ->
       readdirSync w (path_join (toolsDir_of w) cat) = Ok entries ->
       existsSync w
         (path_join (path_join (toolsDir_of w) cat) (mainFileName_of st))
       = true ->
       Forall (printable w) (logged metadata cat) ->
       exists d r,
         processTool w
           (path_join (path_join (toolsDir_of w) cat) "metadata.json")
         = (d, Ok (Some r)) /\
         folder (tool r) = cat /\
         softwareType r = st /\
         name (tool r) = js_or (field metadata "name") (JStr cat)).
Proof.
  intros Hcat Hres Hcatdir Hmeta.
  set (catDir := path_join (toolsDir_of w) cat).
  set (p := path_join catDir "metadata.json").
  assert (Ht : proper (toolsDir_of w))
    by (apply path_join_entry_proper; discriminate).
  assert (Hcd : proper catDir) by (apply path_join_is_proper, Ht).
  assert (Hdir : path_dirname p = catDir)
    by (apply (path_dirname_join catDir "metadata.json" Hcd eq_refl)).
  assert (Hname : extractToolName p = cat).
  { unfold extractToolName. rewrite Hdir.
    apply (path_basename_join (toolsDir_of w) cat Ht Hcat). }
  assert (Hreach : reaches (toolsDir_of w) (Dir tes) catDir (Dir ces)).
  { apply (reaches_down _ _ (toolsDir_of w) tes cat (Dir ces));
      [apply reaches_here | exact Hcatdir]. }
  destruct (path_below_the_tools_root_has_a_category w _ catDir _
              "metadata.json" Hreach) as [st Hst].
  fold p in Hst.
  split; [| split; [exact Hname |]].
  - exists (traverse (toolsDir_of w) (Dir tes)).
    split; [unfold findMetadataFiles; rewrite Hres; reflexivity |].
    split.
    + intros q. split.
      * apply traverse_sound.
      * intros (dir' & es & c & Hr & Hin & ->).
        exact (traverse_complete _ _ dir' es c Hr Hin).
    + exact (traverse_complete _ _ catDir ces content Hreach Hmeta).
  - exists st. split; [exact Hst |].
    split; [| split; [| split]].
    + intros Hcwd.
      pose proof (extractSoftwareType_in_category (cwd w) cat Hcwd Hcat)
        as Htype.
      fold (toolsDir_of w) in Htype. fold catDir in Htype. fold p in Htype.
      congruence.
    + intros d r H.
      destruct (processTool_success w p d r H)
        as (metadata & entries & date & _ & _ & Hst' & Hex & _ & _ & Htool).
      assert (Heq : softwareType r = st) by congruence.
      rewrite Heq, Hdir in Hex.
      split; [rewrite Htool; exact Hname |].
      split; [exact Heq | exact Hex].
    + intros Hex. unfold processTool, processTool_try.
      destruct (readJSON w p) as [metadata | e]; [| reflexivity].
      rewrite Hst. simpl. unfold verifyMainToolFile.
      pose proof (getMainFileName_value st) as Hm.
      destruct (getMainFileName st) as [dm om]; simpl in Hm; subst om; simpl.
      rewrite Hdir, Hex. reflexivity.
    + intros metadata entries Hdesc Hnn Hlist Hex Hlog.
      rewrite <- Hdir in Hlist, Hex. rewrite <- Hname in Hlog.
      destruct (processTool_unfolded w p metadata st entries
                  Hdesc Hnn Hst Hex Hlist Hlog) as (r & Hr & Hs).
      destruct (processTool_success w p _ r Hr)
        as (m & entries' & date & Hm & _ & _ & _ & _ & _ & Hrec).
      assert (m = metadata) by congruence. subst m.
      eexists. exists r. split; [exact Hr |].
      split; [rewrite Hrec; exact Hname |]. split; [exact Hs |].
      rewrite Hrec. cbn [name]. rewrite Hname. reflexivity.
Qed.

Lemma C10_descriptor_in_category_directory_witness :
  In "/repo/tools/blender/metadata.json"
     (traverse "/repo/tools" (Dir [("blender", Dir blender_odd_depths)])) /\
  exists d r,
    processTool (sample_world tree_odd_depths)
      "/repo/tools/blender/metadata.json" = (d, Ok (Some r)) /\
    folder (tool r) = "blender" /\
    softwareType r = "blender" /\
    name (tool r) = JStr "blender".
Proof.
  destruct (C10_descriptor_in_category_directory
              (sample_world tree_odd_depths)
              [("blender", Dir blender_odd_depths)]
              blender_odd_depths
              "blender" (Some (JObj [])))
    as ((files & Hfiles & _ & Hin) & _ & st & _ & Hcat & _ & _ & Hrec).
  - reflexivity.
  - reflexivity.
  - left. reflexivity.
  - left. reflexivity.
  - vm_compute in Hfiles. inversion Hfiles; subst files.
    split; [exact Hin |].
    assert (Hst : st = "blender").
    { apply Hcat. vm_compute. intros [H | [H | []]]; discriminate. }
    subst st.
    apply (Hrec (JObj []) blender_odd_depths).
    + reflexivity.
    + discriminate.
    + reflexivity.
    + reflexivity.
    + repeat constructor; eexists; reflexivity.
Defined.

Section Categories.

Lemma replace_backslashes_idempotent s :
  replace_backslashes (replace_backslashes s) = replace_backslashes s.
Proof.
  induction s as [| c s IH]; simpl; [reflexivity |].
  rewrite IH. destruct (Ascii.eqb c backslash) eqn:Hc; [reflexivity |].
  rewrite Hc. reflexivity.
Qed.

(** No part of a path holds a slash or a backslash. *)
Lemma pathParts_plain p : Forall (fun x => plain_name x = true) (pathParts p).
Proof.
  unfold pathParts. induction p as [| c p IH]; simpl.
  - repeat constructor.
  - destruct (Ascii.eqb c backslash) eqn:Hb.
    + simpl. constructor; [reflexivity | exact IH].
    + destruct (Ascii.eqb c slash) eqn:Hs.
      * constructor; [reflexivity | exact IH].
      * destruct (split_on slash (replace_backslashes p)) as [| x xs];
          [repeat constructor; simpl; rewrite Hs, Hb; reflexivity |].
        inversion IH; subst. constructor; [| assumption].
        simpl. rewrite Hs, Hb. assumption.
Qed.

Lemma extractSoftwareType_Ok_parts p c :
  extractSoftwareType p = Ok c ->
  exists pre post,
    pathParts p = (pre ++ "tools" :: c :: post)%list /\ ~ In "tools" pre.
Proof.
  intros H.
  destruct (pathParts_shape p)
    as [H0 | [(pre & Hp & Hpre) | (pre & c' & post & Hp & Hpre)]].
  - rewrite (extractSoftwareType_no_anchor p H0) in H. discriminate.
  - rewrite (extractSoftwareType_anchor_last p pre Hp Hpre) in H.
    discriminate.
  - rewrite (extractSoftwareType_anchor p pre c' post Hp Hpre) in H.
    inversion H; subst. eauto.
Qed.

End Categories.

(** X3. A derived category never holds a slash or a backslash, and the
    two separators are interchangeable: a path and its spelling with
    slashes only have the same category. *)
Theorem category_is_a_plain_name (p c : string) :
  extractSoftwareType p = Ok c ->
  plain_name c = true /\
  extractSoftwareType (replace_backslashes p) = Ok c.
Proof.
  intros H.
  destruct (extractSoftwareType_Ok_parts p c H) as (pre & post & Hp & Hpre).
  split.
  - pose proof (pathParts_plain p) as Hall. rewrite Hp in Hall.
    rewrite Forall_forall in Hall. apply Hall.
    apply in_or_app. right. right. left. reflexivity.
  - apply (extractSoftwareType_anchor _ pre c post); [| exact Hpre].
    unfold pathParts in *. rewrite replace_backslashes_idempotent. exact Hp.
Qed.

Lemma category_is_a_plain_name_witness :
  plain_name "sketchup" = true /\
  extractSoftwareType (replace_backslashes windows_descriptor_path)
  = Ok "sketchup".
Proof.
  apply (category_is_a_plain_name windows_descriptor_path "sketchup").
  reflexivity.
Defined.

(** X4. The folder of a descriptor is the name of the directory that
    holds it: for the descriptor of the entry [entry] of a directory
    [dir], it is [entry]. *)
Theorem folder_is_the_directory_name (dir entry : string) :
  proper dir ->
  plain_name entry = true ->
  extractToolName (path_join (path_join dir entry) "metadata.json") = entry.
Proof.
  intros Hd He. unfold extractToolName.
  rewrite (path_dirname_join _ "metadata.json"
             (path_join_is_proper dir entry Hd) eq_refl).
  apply (path_basename_join dir entry Hd He).
Qed.

Lemma folder_is_the_directory_name_witness :
  extractToolName
    (path_join (path_join "/repo/tools/blender" "a") "metadata.json") = "a".
Proof.
  apply (folder_is_the_directory_name "/repo/tools/blender" "a").
  - split; discriminate.
  - reflexivity.
Defined.

(* ================================================================== *)
(** * Further properties of the main file name *)
(* ================================================================== *)

(** X5. The main file is [tool.rb] for [sketchup]; for each of the twelve
    names that every object inherits, such as [constructor], it is
    [tool.undefined], without warning; for every other type it is
    [tool.py], with a warning unless the type is [blender], [rhino] or
    [revit]. *)
Theorem main_file_names (softwareType : string) :
  (softwareType = "sketchup" ->
   getMainFileName softwareType = ([], Ok "tool.rb")) /\
  (In softwareType Object_prototype_keys ->
   getMainFileName softwareType = ([], Ok "tool.undefined")) /\
  (In softwareType ["blender"; "rhino"; "revit"] ->
   getMainFileName softwareType = ([], Ok "tool.py")) /\
  (~ In softwareType ["blender"; "sketchup"; "rhino"; "revit"] ->
   ~ In softwareType Object_prototype_keys ->
   getMainFileName softwareType
   = ([WarnUnknownSoftwareType softwareType], Ok "tool.py")).
Proof.
  split; [intros ->; reflexivity |].
  split; [| split].
  - intros H. simpl in H.
    repeat (destruct H as [<- | H]; [reflexivity |]). destruct H.
  - intros H. simpl in H.
    repeat (destruct H as [<- | H]; [reflexivity |]). destruct H.
  - intros Hc Hp. unfold getMainFileName, get_property.
    assert (Ha : assoc softwareType SOFTWARE_CONFIG = None)
      by (apply assoc_None_iff; exact Hc).
    assert (He : existsb (String.eqb softwareType) Object_prototype_keys
                 = false).
    { destruct (existsb (String.eqb softwareType) Object_prototype_keys)
        eqn:He; [| reflexivity].
      apply existsb_exists in He. destruct He as (x & Hin & Hx).
      apply String.eqb_eq in Hx. subst x. contradiction. }
    rewrite Ha, He. reflexivity.
Qed.

Lemma main_file_names_witness :
  getMainFileName "constructor" = ([], Ok "tool.undefined").
Proof.
  apply (proj1 (proj2 (main_file_names "constructor"))).
  left. reflexivity.
Defined.

Lemma getMainFileName_unknown (softwareType : string) :
  ~ In softwareType ["blender"; "sketchup"; "rhino"; "revit"] ->
  ~ In softwareType Object_prototype_keys ->
  getMainFileName softwareType
  = ([WarnUnknownSoftwareType softwareType], Ok "tool.py").
Proof.
  intros Hc Hp. unfold getMainFileName, get_property.
  assert (Ha : assoc softwareType SOFTWARE_CONFIG = None)
    by (apply assoc_None_iff; exact Hc).
  assert (He : existsb (String.eqb softwareType) Object_prototype_keys
               = false).
  { destruct (existsb (String.eqb softwareType) Object_prototype_keys)
      eqn:He; [| reflexivity].
    apply existsb_exists in He. destruct He as (x & Hin & Hx).
    apply String.eqb_eq in Hx. subst x. contradiction. }
  rewrite Ha, He. reflexivity.
Qed.

(* ================================================================== *)
(** * Further properties of the timestamp *)
(* ================================================================== *)

Section Timestamp.

Lemma trim_start_empty s : trim_start s = "" <-> blank s = true.
Proof.
  induction s as [| c s IH]; simpl; [tauto |].
  destruct (is_space c); simpl; [exact IH |].
  split; discriminate.
Qed.

Lemma blank_trim_start s : blank (trim_start s) = blank s.
Proof.
  induction s as [| c s IH]; simpl; [reflexivity |].
  destruct (is_space c) eqn:Hc; simpl; [exact IH |].
  rewrite Hc. reflexivity.
Qed.

Lemma trim_end_empty s : trim_end s = "" <-> blank s = true.
Proof.
  induction s as [| c s IH]; simpl; [tauto |].
  destruct (trim_end s) as [| d t] eqn:Ht.
  - destruct (is_space c); simpl.
    + rewrite <- IH. tauto.
    + split; discriminate.
  - split; [discriminate |]. rewrite andb_true_iff. intros [_ Hb].
    apply IH in Hb. discriminate.
Qed.

Lemma trim_empty s : trim s = "" <-> blank s = true.
Proof.
  unfold trim. rewrite trim_end_empty, blank_trim_start. tauto.
Qed.

Lemma trim_end_idempotent s : trim_end (trim_end s) = trim_end s.
Proof.
  induction s as [| c s IH]; simpl; [reflexivity |].
  destruct (trim_end s) as [| d t] eqn:Ht.
  - destruct (is_space c) eqn:Hc; simpl; [reflexivity |].
    rewrite Hc. reflexivity.
  - change (trim_end (String c (String d t)))
      with (match trim_end (String d t) with
            | EmptyString =>
                if is_space c then EmptyString else String c EmptyString
            | u => String c u
            end).
    rewrite IH. reflexivity.
Qed.

Lemma trim_end_keeps_head c s :
  is_space c = false -> exists t, trim_end (String c s) = String c t.
Proof.
  intros Hc. simpl. destruct (trim_end s); [rewrite Hc |]; eauto.
Qed.

Lemma trim_start_head s :
  trim_start s = ""
  \/ exists c t, trim_start s = String c t /\ is_space c = false.
Proof.
  induction s as [| c s IH]; simpl; [left; reflexivity |].
  destruct (is_space c) eqn:Hc; [exact IH |]. right. eauto.
Qed.

Lemma trim_idempotent s : trim (trim s) = trim s.
Proof.
  unfold trim.
  destruct (trim_start_head s) as [-> | (c & t & -> & Hc)]; [reflexivity |].
  destruct (trim_end_keeps_head c t Hc) as [u Hu].
  rewrite Hu. simpl trim_start. rewrite Hc, <- Hu.
  apply trim_end_idempotent.
Qed.

End Timestamp.

(** X6. The timestamp of a directory is the trimmed output of the version
    control when that output is not blank, then without warning; it is
    the time of the run, with the warning for a missing history, when the
    output is blank, and with the warning for a failed query when the
    query throws.  The value returned is therefore the time of the run or
    a string that is not blank and that trimming leaves unchanged. *)
Theorem timestamp_of_a_directory (w : world) (dirPath : string) :
  (forall out,
     git_log w dirPath = Ok out -> blank out = false ->
     getLastCommitDate w dirPath = ([], Ok (trim out))) /\
  (forall out,
     git_log w dirPath = Ok out -> blank out = true ->
     getLastCommitDate w dirPath
     = ([WarnNoGitHistory dirPath], Ok (now w))) /\
  (forall e,
     git_log w dirPath = Throw e ->
     getLastCommitDate w dirPath
     = ([WarnGitFailed dirPath e], Ok (now w))) /\
  (exists d v,
     getLastCommitDate w dirPath = (d, Ok v) /\
     (v = now w \/ (blank v = false /\ trim v = v))).
Proof.
  assert (Hblank : forall out,
            blank out = false -> (trim out =? "") = false).
  { intros out Hb. apply String.eqb_neq. intros He.
    apply trim_empty in He. congruence. }
  assert (Hfull : forall out,
            blank out = true -> (trim out =? "") = true).
  { intros out Hb. apply String.eqb_eq, trim_empty, Hb. }
  split; [| split; [| split]].
  - intros out Hg Hb. unfold getLastCommitDate. rewrite Hg.
    unfold lift, bind, try_catch. rewrite (Hblank out Hb). reflexivity.
  - intros out Hg Hb. unfold getLastCommitDate. rewrite Hg.
    unfold lift, bind, try_catch. rewrite (Hfull out Hb). reflexivity.
  - intros e Hg. apply getLastCommitDate_failed, Hg.
  - unfold getLastCommitDate.
    destruct (git_log w dirPath) as [out | e];
      unfold lift, bind, try_catch.
    + destruct (blank out) eqn:Hb.
      * rewrite (Hfull out Hb). simpl. eauto.
      * rewrite (Hblank out Hb). simpl. do 2 eexists.
        split; [reflexivity |]. right. split; [| apply trim_idempotent].
        destruct (blank (trim out)) eqn:Hbt; [| reflexivity].
        apply trim_empty in Hbt. rewrite trim_idempotent in Hbt.
        apply trim_empty in Hbt. congruence.
    + simpl. eauto.
Qed.

Lemma timestamp_of_a_directory_witness :
  getLastCommitDate (sample_world tree_one_tool) "/repo/tools/blender/a"
  = ([], Ok "2024-05-01T10:00:00+00:00").
Proof.
  apply (proj1 (timestamp_of_a_directory (sample_world tree_one_tool)
                  "/repo/tools/blender/a")
           "2024-05-01T10:00:00+00:00");
    reflexivity.
Defined.

(* ================================================================== *)
(** * Further properties of the tool processor *)
(* ================================================================== *)

(** X7. A descriptor gives a record exactly when it can be read and
    parses to a value other than [null], its path has a category, an
    entry with the main file name of that category exists in its
    directory, that directory can be listed, and the values printed on
    the success line, the name of the record and its id if it has one,
    can be converted to strings.  The record is then filed under that
    category. *)
Theorem tool_is_processed_iff (w : world) (p : string) :
  (forall metadata st entries,
     descriptor w p = Ok metadata ->
     metadata <> JNull ->
     extractSoftwareType p = Ok st ->
     existsSync w (path_join (path_dirname p) (mainFileName_of st)) = true ->
     readdirSync w (path_dirname p) = Ok entries ->
     Forall (printable w) (logged metadata (extractToolName p)) ->
     exists d r, processTool w p = (d, Ok (Some r)) /\ softwareType r = st) /\
  (forall d r,
     processTool w p = (d, Ok (Some r)) ->
     exists metadata entries,
       descriptor w p = Ok metadata /\
       metadata <> JNull /\
       extractSoftwareType p = Ok (softwareType r) /\
       existsSync w (path_join (path_dirname p)
                       (mainFileName_of (softwareType r))) = true /\
       readdirSync w (path_dirname p) = Ok entries /\
       Forall (printable w) (logged metadata (extractToolName p))).
Proof.
  split.
  - intros metadata st entries Hd Hnn Hst Hex Hdir Hlog.
    destruct (processTool_unfolded w p metadata st entries
                Hd Hnn Hst Hex Hdir Hlog) as (r & Hr & Hs).
    eauto.
  - intros d r H.
    destruct (processTool_inversion w p d r H)
      as (metadata & entries & date & H1 & H2 & H3 & H4 & H5 & _ & _ & H8).
    exists metadata, entries. auto 10.
Qed.

Lemma tool_is_processed_iff_witness :
  exists d r,
    processTool (sample_world tree_one_tool)
      "/repo/tools/blender/a/metadata.json" = (d, Ok (Some r)) /\
    softwareType r = "blender".
Proof.
  apply (proj1 (tool_is_processed_iff (sample_world tree_one_tool)
                  "/repo/tools/blender/a/metadata.json")
           (JObj [("name", JStr "A"); ("id", JStr "tool-a")]) "blender"
           [("metadata.json",
             descriptor_file [("name", JStr "A"); ("id", JStr "tool-a")]);
            ("tool.py", plain_file);
            ("helper.py", plain_file);
            ("assets", Dir [])]);
    try reflexivity.
  - discriminate.
  - repeat constructor; eexists; reflexivity.
Defined.

(** X8. For a type that is neither configured nor inherited, the warning
    about the unknown type is printed twice for each tool: once by the
    check of the main file and once more by the search for dependencies
    when the tool is processed, or by the report of the missing file when
    it is skipped. *)
Theorem unknown_type_is_warned_twice (w : world) (p : string)
    (metadata : json) (st : string) :
  ~ In st ["blender"; "sketchup"; "rhino"; "revit"] ->
  ~ In st Object_prototype_keys ->
  descriptor w p = Ok metadata ->
  extractSoftwareType p = Ok st ->
  (forall d r,
     processTool w p = (d, Ok (Some r)) ->
     unknown_type_warnings st d
     = [WarnUnknownSoftwareType st; WarnUnknownSoftwareType st]) /\
  (existsSync w (path_join (path_dirname p) "tool.py") = false ->
   processTool w p
   = ([WarnUnknownSoftwareType st; WarnUnknownSoftwareType st;
       ErrSkipping (extractToolName p) "tool.py"], Ok None)).
Proof.
  intros Hc Hp Hd Hst.
  pose proof (getMainFileName_unknown st Hc Hp) as Hm.
  assert (Hname : mainFileName_of st = "tool.py").
  { pose proof (getMainFileName_value st) as Hv. rewrite Hm in Hv.
    simpl in Hv. congruence. }
  split.
  - intros d r H.
    destruct (processTool_inversion w p d r H)
      as (m & entries & date & H1 & H2 & H3 & H4 & H5 & _ & _ & H8).
    assert (softwareType r = st) by congruence. subst st.
    destruct (processTool_unfolded w p m _ entries H1 H2 H3 H4 H5 H8)
      as (r' & Hr' & _).
    rewrite Hr' in H. inversion H; subst d. clear H.
    rewrite Hm. cbn [fst].
    unfold unknown_type_warnings. rewrite !filter_app.
    fold (unknown_type_warnings (softwareType r)
            (fst (getLastCommitDate w (path_dirname p)))).
    rewrite no_warning_in_timestamp. simpl.
    rewrite String.eqb_refl. reflexivity.
  - intros Hex. rewrite <- Hname in Hex.
    rewrite (processTool_skipped w p metadata st Hd Hst Hex), Hm, Hname.
    reflexivity.
Qed.

Lemma unknown_type_is_warned_twice_witness :
  unknown_type_warnings "unknownsoft"
    (fst (processTool (sample_world tree_unknown_type)
            "/repo/tools/unknownsoft/c/metadata.json"))
  = [WarnUnknownSoftwareType "unknownsoft";
     WarnUnknownSoftwareType "unknownsoft"].
Proof.
  apply (proj1 (unknown_type_is_warned_twice
                  (sample_world tree_unknown_type)
                  "/repo/tools/unknownsoft/c/metadata.json"
                  (JObj []) "unknownsoft"
                  ltac:(simpl; intuition discriminate)
                  ltac:(simpl; intuition discriminate)
                  eq_refl eq_refl)
           _ (record_named_result "c" "unknownsoft")).
  reflexivity.
Defined.

(** X9. A descriptor that holds [null] never gives a record.  One that
    holds any other value that is not an object (a string, a number, a
    boolean, an array) is accepted like an empty object: the name is the
    folder, the description is empty and there is no id. *)
Theorem descriptor_that_is_not_an_object (w : world) (p : string) :
  (descriptor w p = Ok JNull -> snd (processTool w p) = Ok None) /\
  (forall metadata d r,
     descriptor w p = Ok metadata ->
     (forall props, metadata <> JObj props) ->
     processTool w p = (d, Ok (Some r)) ->
     name (tool r) = JStr (folder (tool r)) /\
     description (tool r) = JStr "" /\
     id (tool r) = None).
Proof.
  split.
  - intros Hd. destruct (processTool_returns w p) as [[r |] Hres];
      [| exact Hres].
    destruct (processTool w p) as [d o] eqn:Hp. simpl in Hres. subst o.
    destruct (processTool_success w p d r Hp)
      as (m & _ & _ & Hm & Hnn & _).
    congruence.
  - intros metadata d r Hd Hno H.
    destruct (processTool_success w p d r H)
      as (m & entries & date & Hm & _ & _ & _ & _ & _ & Ht).
    assert (m = metadata) by congruence. subst m.
    assert (Hf : forall k, field metadata k = None).
    { intros k. destruct metadata; try reflexivity.
      exfalso. apply (Hno props). reflexivity. }
    rewrite Ht. cbn [name description id folder].
    rewrite !Hf. repeat split; reflexivity.
Qed.

Lemma descriptor_that_is_not_an_object_witness :
  name (record_named "a" "a") = JStr (folder (record_named "a" "a")) /\
  description (record_named "a" "a") = JStr "" /\
  id (record_named "a" "a") = None.
Proof.
  apply (proj2 (descriptor_that_is_not_an_object
                  (sample_world tree_array_descriptor)
                  "/repo/tools/blender/a/metadata.json")
           (JArr [JStr "A"])
           (fst (processTool (sample_world tree_array_descriptor)
                   "/repo/tools/blender/a/metadata.json"))
           (record_named_result "a" "blender")).
  - reflexivity.
  - intros props. discriminate.
  - reflexivity.
Defined.

(** X10. No record carries an optional field that is present and empty:
    a list of dependencies is never empty, an id is a value that counts
    as true, a description is such a value or the empty string, and a
    name is such a value or the folder name. *)
Theorem record_fields_are_never_empty (w : world) (p : string)
    (d : list diag) (r : ProcessResult) :
  processTool w p = (d, Ok (Some r)) ->
  dependencies (tool r) <> Some [] /\
  (forall v, id (tool r) = Some v -> truthy v = true) /\
  (truthy (description (tool r)) = true \/ description (tool r) = JStr "") /\
  (truthy (name (tool r)) = true
   \/ name (tool r) = JStr (folder (tool r))).
Proof.
  intros H.
  destruct (processTool_success w p d r H)
    as (m & entries & date & _ & _ & _ & _ & _ & _ & Ht).
  rewrite Ht. cbn [dependencies id description name folder].
  split; [| split; [| split]].
  - destruct (map fst _) as [| x l]; simpl; discriminate.
  - intros v. destruct (field m "id") as [x |]; simpl; [| discriminate].
    destruct (truthy x) eqn:Hx; [congruence | discriminate].
  - unfold js_or. destruct (field m "description") as [x |]; [| auto].
    destruct (truthy x) eqn:Hx; auto.
  - unfold js_or. destruct (field m "name") as [x |]; [| auto].
    destruct (truthy x) eqn:Hx; auto.
Qed.

Lemma record_fields_are_never_empty_witness :
  dependencies record_a <> Some [] /\
  (forall v, id record_a = Some v -> truthy v = true) /\
  (truthy (description record_a) = true \/ description record_a = JStr "") /\
  (truthy (name record_a) = true
   \/ name record_a = JStr (folder record_a)).
Proof.
  apply (record_fields_are_never_empty (sample_world tree_one_tool)
           "/repo/tools/blender/a/metadata.json"
           (fst (processTool (sample_world tree_one_tool)
                   "/repo/tools/blender/a/metadata.json"))
           result_a).
  reflexivity.
Defined.

(* ================================================================== *)
(** * Further properties of the run *)
(* ================================================================== *)

Section RunFailures.

Variable w : world.

(** The status and the document of a run follow the outcome of the body
    of [main]. *)
Lemma main_of_a_throw e :
  snd (main_try w) = Throw e ->
  exit_status (main w) = 1%Z /\ written (main w) = None /\
  In (ErrFatal e) (console (main w)).
Proof.
  unfold main. destruct (main_try w) as [d [c | e']]; simpl;
    [discriminate |].
  intros H. inversion H; subst. repeat split.
  apply in_or_app. right. left. reflexivity.
Qed.

(** The outcome of the body of [main] once the tools root is listed. *)
Lemma main_try_after_discovery tes types :
  resolve w (toolsDir_of w) = Some (Dir tes) ->
  discoverSoftwareTypes w (toolsDir_of w) = Ok types ->
  forall e,
    snd (process_all w
           (Object_fromEntries
              (map (fun type : string => (type, @nil ToolRecord)) types))
           (traverse (toolsDir_of w) (Dir tes))) = Throw e ->
    snd (main_try w) = Throw e.
Proof.
  intros Hres Htypes e Hall.
  assert (Hex : existsSync w (toolsDir_of w) = true)
    by (unfold existsSync; rewrite Hres; reflexivity).
  unfold main_try. fold (toolsDir_of w). rewrite Hex. cbn [negb].
  rewrite (snd_bind_Ok _ _ [LogGenerating] tt eq_refl).
  erewrite snd_bind_Ok
    by (unfold lift, findMetadataFiles; rewrite Hres; reflexivity).
  erewrite snd_bind_Ok by (unfold lift; rewrite Htypes; reflexivity).
  erewrite snd_bind_Ok by reflexivity.
  erewrite snd_bind_Ok by reflexivity.
  apply snd_bind_Throw, Hall.
Qed.

Lemma process_all_throws files :
  forall tools0 p r,
    In p files ->
    snd (processTool w p) = Ok (Some r) ->
    In (softwareType r) Object_prototype_keys ->
    ~ In (softwareType r) (map fst tools0) ->
    exists e, snd (process_all w tools0 files) = Throw e.
Proof.
  induction files as [| q files IH]; intros tools0 p r Hin Hr Hproto Hkey;
    [destruct Hin |].
  cbn [process_all].
  destruct (add_result w tools0 q) as [d1 [tools' | e]] eqn:Hstep.
  - destruct Hin as [-> | Hin].
    + exfalso. unfold add_result in Hstep.
      destruct (processTool w p) as [dp op]. simpl in Hr. subst op.
      unfold bind at 1 in Hstep. cbn beta iota in Hstep.
      unfold get_property in Hstep.
      rewrite (proj2 (assoc_None_iff _ _) Hkey) in Hstep.
      assert (He : existsb (String.eqb (softwareType r))
                     Object_prototype_keys = true).
      { apply existsb_exists. exists (softwareType r).
        split; [exact Hproto | apply String.eqb_refl]. }
      rewrite He in Hstep. unfold throw in Hstep. discriminate.
    + destruct (add_result_appends w _ _ _ _ Hstep) as [Hkeys _].
      destruct (IH tools' p r Hin Hr Hproto) as [e He];
        [rewrite Hkeys; exact Hkey |].
      exists e. rewrite (snd_bind_Ok _ _ d1 tools' eq_refl). exact He.
  - exists e. apply snd_bind_Throw. reflexivity.
Qed.

End RunFailures.

(** X11. A record whose category is the name of a property that every
    object inherits, and not a discovered type, is not dropped with a
    warning: the call of [push] on the inherited value throws, the run
    ends with status 1 and no catalog is written. *)
Theorem inherited_category_aborts_the_run (w : world)
    (tes : list (string * node)) (types : list string) (p : string)
    (r : ProcessResult) :
  resolve w (toolsDir_of w) = Some (Dir tes) ->
  discoverSoftwareTypes w (toolsDir_of w) = Ok types ->
  In p (traverse (toolsDir_of w) (Dir tes)) ->
  snd (processTool w p) = Ok (Some r) ->
  In (softwareType r) Object_prototype_keys ->
  ~ In (softwareType r) types ->
  exit_status (main w) = 1%Z /\ written (main w) = None.
Proof.
  intros Hres Htypes Hp Hr Hproto Hkey.
  destruct (process_all_throws w _
              (Object_fromEntries
                 (map (fun type : string => (type, @nil ToolRecord)) types))
              p r Hp Hr Hproto) as [e He].
  { intros H. apply Hkey. exact (proj1 (initial_tools_keys types _) H). }
  destruct (main_of_a_throw w e
              (main_try_after_discovery w tes types Hres Htypes e He))
    as (H1 & H2 & _).
  auto.
Qed.

Lemma inherited_category_aborts_the_run_witness :
  exit_status (main (sample_world tree_backslash_constructor)) = 1%Z /\
  written (main (sample_world tree_backslash_constructor)) = None.
Proof.
  apply (inherited_category_aborts_the_run
           (sample_world tree_backslash_constructor)
           _ ["constructor\plugins"]
           "/repo/tools/constructor\plugins/a/metadata.json"
           (record_named_result "a" "constructor")
           eq_refl eq_refl).
  - left. reflexivity.
  - reflexivity.
  - left. reflexivity.
  - intros [H | []]. discriminate.
Defined.

(** X12. When the tools root exists and is a regular file, the run does
    not report a missing tools directory: the scan throws, the run ends
    with status 1, writes nothing and prints the error of the listing. *)
Theorem tools_root_that_is_a_file (w : world) (content : option json) :
  resolve w (toolsDir_of w) = Some (File content) ->
  exit_status (main w) = 1%Z /\
  written (main w) = None /\
  console (main w) = [LogGenerating; ErrFatal (ENOTDIR (toolsDir_of w))].
Proof.
  intros Hres.
  assert (Hrun : main_try w
                 = ([LogGenerating], Throw (ENOTDIR (toolsDir_of w)))).
  { unfold main_try. fold (toolsDir_of w).
    unfold existsSync, findMetadataFiles. rewrite Hres. reflexivity. }
  unfold main. rewrite Hrun. auto.
Qed.

Lemma tools_root_that_is_a_file_witness :
  console (main (sample_world tree_tools_is_a_file))
  = [LogGenerating; ErrFatal (ENOTDIR "/repo/tools")].
Proof.
  apply (tools_root_that_is_a_file (sample_world tree_tools_is_a_file) None).
  reflexivity.
Defined.

Section DroppedRecords.

Variable w : world.

Lemma add_result_warns tools0 p r d tools' :
  add_result w tools0 p = (d, Ok tools') ->
  snd (processTool w p) = Ok (Some r) ->
  ~ In (softwareType r) (map fst tools0) ->
  In (WarnUnknownCategory (softwareType r)) d /\ tools' = tools0.
Proof.
  unfold add_result. intros H Hr Hkey.
  destruct (processTool w p) as [dp op]. simpl in Hr. subst op.
  unfold bind at 1 in H. cbn beta iota in H.
  unfold get_property in H.
  rewrite (proj2 (assoc_None_iff _ _) Hkey) in H.
  destruct (existsb (String.eqb (softwareType r)) Object_prototype_keys).
  - unfold throw in H. discriminate.
  - unfold bind, tell, ret in H. inversion H; subst.
    split; [| reflexivity].
    apply in_or_app. right. left. reflexivity.
Qed.

Lemma process_all_warns files :
  forall tools0 d tools1 p r,
    process_all w tools0 files = (d, Ok tools1) ->
    In p files ->
    snd (processTool w p) = Ok (Some r) ->
    ~ In (softwareType r) (map fst tools0) ->
    In (WarnUnknownCategory (softwareType r)) d.
Proof.
  induction files as [| q files IH]; intros tools0 d tools1 p r H Hin Hr Hkey;
    [destruct Hin |].
  cbn [process_all] in H.
  apply bind_Ok in H as (d1 & tools' & d2 & Hstep & Hrest & ->).
  apply in_or_app. destruct Hin as [-> | Hin].
  - left. exact (proj1 (add_result_warns _ _ _ _ _ Hstep Hr Hkey)).
  - right. apply (IH tools' d2 tools1 p r Hrest Hin Hr).
    destruct (add_result_appends w _ _ _ _ Hstep) as [Hkeys _].
    rewrite Hkeys. exact Hkey.
Qed.

(** The diagnostics of the loop are part of the console of a run that
    wrote its catalog. *)
Lemma main_written_console c :
  written (main w) = Some c ->
  exists tes types d1 tools1,
    resolve w (toolsDir_of w) = Some (Dir tes) /\
    discoverSoftwareTypes w (toolsDir_of w) = Ok types /\
    process_all w
      (Object_fromEntries
         (map (fun type : string => (type, @nil ToolRecord)) types))
      (traverse (toolsDir_of w) (Dir tes)) = (d1, Ok tools1) /\
    (forall x, In x d1 -> In x (console (main w))).
Proof.
  unfold main. destruct (main_try w) as [d [c' | e]] eqn:Hrun; simpl;
    [| discriminate].
  intros H. inversion H; subst c'. clear H.
  unfold main_try in Hrun. fold (toolsDir_of w) in Hrun.
  apply bind_Ok in Hrun as (d0 & [] & d0' & _ & Hrun & ->).
  destruct (existsSync w (toolsDir_of w)); cbn [negb] in Hrun;
    [| discriminate].
  apply bind_Ok in Hrun as (df & files & df' & Hfiles & Hrun & ->).
  apply bind_Ok in Hrun as (dt & types & dt' & Htypes & Hrun & ->).
  apply bind_Ok in Hrun as (dl & [] & dl' & _ & Hrun & ->).
  apply bind_Ok in Hrun as (dl2 & [] & dl2' & _ & Hrun & ->).
  apply bind_Ok in Hrun as (d1 & tools1 & d1' & Hall & Hrun & ->).
  unfold lift in Hfiles, Htypes.
  inversion Hfiles as [[Hd Hf]]. inversion Htypes as [[Hd' Ht]].
  clear Hfiles Htypes.
  destruct (findMetadataFiles_Ok w _ files Hf) as (tes & Hres & ->).
  exists tes, types, d1, tools1.
  repeat (split; [assumption |]).
  intros x Hx. do 5 (apply in_or_app; right).
  apply in_or_app. left. exact Hx.
Qed.

End DroppedRecords.

(** X13. In a run that writes its catalog, a record whose category is not
    a key of the mapping is dropped, and the console holds the warning
    that names this category. *)
Theorem unknown_category_is_reported (w : world) (c : Catalog)
    (files : list string) (p : string) (r : ProcessResult) :
  written (main w) = Some c ->
  findMetadataFiles w (toolsDir_of w) = Ok files ->
  In p files ->
  snd (processTool w p) = Ok (Some r) ->
  ~ In (softwareType r) (map fst (document_tools c)) ->
  In (WarnUnknownCategory (softwareType r)) (console (main w)).
Proof.
  intros H Hf Hp Hr Hkey.
  destruct (main_written_console w c H)
    as (tes & types & d1 & tools1 & Hres & Htypes & Hall & Hcons).
  destruct (findMetadataFiles_Ok w _ files Hf) as (tes' & Hres' & ->).
  assert (tes' = tes) by congruence. subst tes'.
  apply Hcons. apply (process_all_warns w _ _ _ _ p r Hall Hp Hr).
  intros Hin. apply Hkey.
  destruct (catalog_contents w c H) as (files' & types' & _ & Ht' & Hk & _).
  assert (types' = types) by congruence. subst types'.
  unfold document_tools. rewrite keys_Object_entries.
  apply In_key_order, Hk.
  exact (proj1 (initial_tools_keys types _) Hin).
Qed.

Lemma unknown_category_is_reported_witness :
  In (WarnUnknownCategory "legacy")
     (console (main (sample_world tree_backslash_legacy))).
Proof.
  apply (unknown_category_is_reported (sample_world tree_backslash_legacy)
           {| version := "1.0.0";
              generated_at := "2024-06-01T00:00:00.000Z";
              tools := [("legacy\2019", [])] |}
           ["/repo/tools/legacy\2019/a/metadata.json"]
           "/repo/tools/legacy\2019/a/metadata.json"
           (record_named_result "a" "legacy")).
  - reflexivity.
  - reflexivity.
  - left. reflexivity.
  - reflexivity.
  - intros [H | []]. discriminate.
Defined.

(* ================================================================== *)
(** * Further properties of the sort *)
(* ================================================================== *)

Section Stability.

Context {A : Type}.
Variable cmp : A -> A -> outcome Z.
Variable same : A -> bool.

Hypothesis same_not_before :
  forall x y z,
    same x = true -> same y = true -> cmp x y = Ok z -> (0 <= z)%Z.

Lemma insert_by_stable x l r :
  insert_by cmp x l = Ok r -> filter same r = filter same (x :: l).
Proof.
  revert r. induction l as [| y l IH]; intros r; simpl.
  - intros H. inversion H. reflexivity.
  - destruct (cmp x y) as [c | e] eqn:Hc; simpl; [| discriminate].
    destruct (Z.ltb_spec c 0) as [Hlt | Hge].
    + destruct (insert_by cmp x l) as [r' | e] eqn:Hr; simpl;
        [| discriminate].
      intros H. inversion H; subst. simpl.
      rewrite (IH r' eq_refl). simpl.
      destruct (same x) eqn:Hx, (same y) eqn:Hy; try reflexivity.
      pose proof (same_not_before x y c Hx Hy Hc). lia.
    + intros H. inversion H. reflexivity.
Qed.

Lemma sort_from_stable l :
  forall s r,
    sort_from cmp s l = Ok r ->
    filter same r = filter same (rev s ++ l)%list.
Proof.
  induction l as [| x l IH]; intros s r; simpl.
  - intros H. inversion H. rewrite app_nil_r. reflexivity.
  - destruct (insert_by cmp x s) as [s' | e] eqn:Hi; simpl; [| discriminate].
    intros H. rewrite (IH s' r H), !filter_app, !filter_rev.
    rewrite (insert_by_stable x s s' Hi). simpl.
    destruct (same x); simpl; [| reflexivity].
    rewrite <- app_assoc. reflexivity.
Qed.

(** The sort keeps the relative order of the elements of a class whose
    members the comparator never puts before one another. *)
Lemma sort_by_stable l r :
  sort_by cmp l = Ok r -> filter same r = filter same l.
Proof.
  exact (sort_from_stable l [] r).
Qed.

End Stability.

Section StableCatalog.

Variable w : world.
Variable s : string.

Hypothesis collation_refl : (0 <= localeCompare w s s)%Z.

Lemma same_name_not_before x y z :
  name_is s x = true -> name_is s y = true ->
  compareByName w x y = Ok z -> (0 <= z)%Z.
Proof.
  unfold name_is, compareByName.
  destruct (name x) as [| | | sx | |]; try discriminate.
  destruct (name y) as [| | | sy | |]; try discriminate.
  intros Hx Hy. apply String.eqb_eq in Hx, Hy. subst sx sy. simpl.
  intros H. inversion H; subst. exact collation_refl.
Qed.

Lemma sort_each_stable keys :
  forall tools1 tools2,
    sort_each w keys tools1 = Ok tools2 ->
    forall k a2,
      assoc k tools2 = Some a2 ->
      exists a1,
        assoc k tools1 = Some a1 /\
        filter (name_is s) a2 = filter (name_is s) a1.
Proof.
  induction keys as [| k0 keys IH]; intros tools1 tools2; simpl.
  - intros H. inversion H; subst. intros k a2 Hk. eauto.
  - destruct (assoc k0 tools1) as [arr |] eqn:Hk0; [| apply IH].
    destruct (sort_by (compareByName w) arr) as [sorted | e] eqn:Hs; simpl;
      [| discriminate].
    intros H k a2 Hk.
    destruct (IH _ _ H k a2 Hk) as (a1 & Ha1 & Hf).
    destruct (String.eqb_spec k k0) as [-> | Hne].
    + rewrite assoc_own_set_same in Ha1. inversion Ha1; subst a1.
      exists arr. split; [exact Hk0 |]. rewrite Hf.
      exact (sort_by_stable (compareByName w) (name_is s)
               same_name_not_before arr sorted Hs).
    + rewrite assoc_own_set_other in Ha1 by exact Hne. eauto.
Qed.

End StableCatalog.

(** X14. The sort of a category is stable for equal names: the records of
    the document that carry one name stand in the order in which the scan
    found their descriptors, provided the collation does not put that
    name before itself. *)
Theorem equal_names_keep_the_scan_order (w : world) (c : Catalog)
    (files : list string) (k s : string) (l : list ToolRecord) :
  (0 <= localeCompare w s s)%Z ->
  written (main w) = Some c ->
  findMetadataFiles w (toolsDir_of w) = Ok files ->
  In (k, l) (document_tools c) ->
  filter (name_is s) l = filter (name_is s) (collected w files k).
Proof.
  intros Hrefl H Hf Hl.
  destruct (main_written w c H)
    as (tes & types & d1 & tools1 & Hres & Htypes & Hall & Hsort & _).
  destruct (findMetadataFiles_Ok w _ files Hf) as (tes' & Hres' & ->).
  assert (tes' = tes) by congruence. subst tes'.
  apply In_Object_entries in Hl.
  destruct (sort_each_stable w s Hrefl _ _ _ Hsort k l Hl) as (a1 & Ha1 & Hfl).
  rewrite Hfl. f_equal.
  destruct (process_all_appends w _ _ _ _ Hall) as [Hk1 Hv1].
  destruct (In_keys_assoc k _
              (eq_ind _ (fun ks => In k ks) (assoc_In_keys _ _ _ Ha1) _ Hk1))
    as [a0 Ha0].
  pose proof (initial_tools_empty types k a0 Ha0) as ->.
  rewrite (Hv1 k [] Ha0) in Ha1. injection Ha1 as <-. reflexivity.
Qed.

Lemma equal_names_keep_the_scan_order_witness :
  filter (name_is "Align")
    [record_named "Align" "a"; record_named "Align" "b"]
  = filter (name_is "Align")
      (collected (sample_world tree_same_names)
         ["/repo/tools/blender/a/metadata.json";
          "/repo/tools/blender/b/metadata.json"] "blender").
Proof.
  apply (equal_names_keep_the_scan_order (sample_world tree_same_names)
           {| version := "1.0.0";
              generated_at := "2024-06-01T00:00:00.000Z";
              tools :=
                [("blender",
                  [record_named "Align" "a"; record_named "Align" "b"])] |}).
  - reflexivity.
  - reflexivity.
  - reflexivity.
  - left. reflexivity.
Defined.

(* ================================================================== *)
(** * Further properties of the summary *)
(* ================================================================== *)

Section Summary.

Lemma fold_sum_lengths {A} (ls : list (list A)) n :
  fold_left (fun sum l => (sum + List.length l)%nat) ls n
  = (n + List.length (List.concat ls))%nat.
Proof.
  revert n. induction ls as [| l ls IH]; intros n; simpl; [lia |].
  rewrite IH, length_app. lia.
Qed.

Lemma sum_of_nonempty_rows {A} (es : list (string * list A)) :
  list_sum
    (map (fun e => List.length (snd e))
       (filter (fun e => negb (List.length (snd e) =? 0)%nat) es))
  = List.length (List.concat (map snd es)).
Proof.
  induction es as [| [k l] es IH]; simpl; [reflexivity |].
  rewrite length_app, <- IH.
  destruct l as [| x l]; simpl; [reflexivity |]. lia.
Qed.

End Summary.

(** X15. The summary prints one line per category that has tools, in the
    order of the document; its total is the number of records of the
    document and the sum of the counts of its lines; on each line the
    count is positive and the number of tools with dependencies does not
    exceed it. *)
Theorem summary_adds_up (c : Catalog) :
  exists total rows,
    logCatalogSummary c = ([LogSummary total rows], Ok tt) /\
    total = List.length (List.concat (map snd (document_tools c))) /\
    total = list_sum (map (fun row => snd (fst row)) rows) /\
    map (fun row => fst (fst row)) rows
    = map fst (filter (fun e => negb (List.length (snd e) =? 0)%nat)
                 (document_tools c)) /\
    Forall (fun row => (0 < snd (fst row))%nat
                       /\ (snd row <= snd (fst row))%nat) rows.
Proof.
  unfold logCatalogSummary, tell, Object_values, document_tools.
  set (es := Object_entries (tools c)).
  do 2 eexists. split; [reflexivity |].
  split; [rewrite fold_sum_lengths; reflexivity |].
  split; [| split].
  - rewrite fold_sum_lengths, map_map. simpl.
    symmetry. apply sum_of_nonempty_rows.
  - rewrite map_map. reflexivity.
  - apply Forall_forall. intros row Hrow.
    apply in_map_iff in Hrow. destruct Hrow as ([k l] & <- & Hin).
    apply filter_In in Hin. destruct Hin as [_ Hne]. simpl in *.
    split; [| apply filter_length_le].
    destruct l; [discriminate | simpl; lia].
Qed.

(* ================================================================== *)
(** * Further properties of the discovery *)
(* ================================================================== *)

Section CanonicalOrder.

Lemma nat_of_ascii_injective x y : nat_of_ascii x = nat_of_ascii y -> x = y.
Proof.
  intros H. rewrite <- (ascii_nat_embedding x), <- (ascii_nat_embedding y).
  rewrite H. reflexivity.
Qed.

Lemma code_unit_leb_antisym a b :
  code_unit_leb a b = true -> code_unit_leb b a = true -> a = b.
Proof.
  revert b. induction a as [| x a IH]; intros [| y b]; simpl;
    try congruence.
  destruct (Nat.ltb_spec (nat_of_ascii x) (nat_of_ascii y)) as [Hlt | Hge];
    destruct (Nat.ltb_spec (nat_of_ascii y) (nat_of_ascii x)) as [Hlt' | Hge'];
    try discriminate; try lia.
  intros Hab Hba. f_equal; [apply nat_of_ascii_injective; lia |].
  apply IH; assumption.
Qed.

Lemma code_unit_leb_trans a b c :
  code_unit_leb a b = true -> code_unit_leb b c = true ->
  code_unit_leb a c = true.
Proof.
  revert b c. induction a as [| x a IH]; intros [| y b] [| z c]; simpl;
    try congruence.
  destruct (Nat.ltb_spec (nat_of_ascii x) (nat_of_ascii y));
    destruct (Nat.ltb_spec (nat_of_ascii y) (nat_of_ascii x));
    destruct (Nat.ltb_spec (nat_of_ascii y) (nat_of_ascii z));
    destruct (Nat.ltb_spec (nat_of_ascii z) (nat_of_ascii y));
    destruct (Nat.ltb_spec (nat_of_ascii x) (nat_of_ascii z));
    destruct (Nat.ltb_spec (nat_of_ascii z) (nat_of_ascii x));
    try discriminate; try lia; try reflexivity.
  apply IH.
Qed.

Lemma code_unit_leb_refl a : code_unit_leb a a = true.
Proof.
  induction a as [| x a IH]; simpl; [reflexivity |].
  rewrite Nat.ltb_irrefl. exact IH.
Qed.

(** Two sorted lists with the same elements are the same list. *)
Lemma sorted_strings_unique l1 :
  forall l2,
    StronglySorted (fun a b => code_unit_leb a b = true) l1 ->
    StronglySorted (fun a b => code_unit_leb a b = true) l2 ->
    Permutation l1 l2 ->
    l1 = l2.
Proof.
  induction l1 as [| a l1 IH]; intros l2 H1 H2 Hp.
  - apply Permutation_nil in Hp. congruence.
  - destruct l2 as [| b l2];
      [apply Permutation_sym, Permutation_nil in Hp; discriminate |].
    apply StronglySorted_inv in H1. destruct H1 as [Hs1 Ha].
    apply StronglySorted_inv in H2. destruct H2 as [Hs2 Hb].
    rewrite Forall_forall in Ha, Hb.
    assert (Hab : a = b).
    { assert (Hin_b : In b (a :: l1))
        by (apply (Permutation_in _ (Permutation_sym Hp)); left; reflexivity).
      assert (Hin_a : In a (b :: l2))
        by (apply (Permutation_in _ Hp); left; reflexivity).
      destruct Hin_b as [-> | Hb1]; [reflexivity |].
      destruct Hin_a as [-> | Ha2]; [reflexivity |].
      apply code_unit_leb_antisym; [apply Ha, Hb1 | apply Hb, Ha2]. }
    subst b. f_equal. apply IH; try assumption.
    exact (Permutation_cons_inv Hp).
Qed.

Lemma sort_strings_canonical l1 l2 :
  Permutation l1 l2 -> sort_strings l1 = sort_strings l2.
Proof.
  intros Hp. apply sorted_strings_unique.
  - apply Sorted_StronglySorted;
      [intros a b c; apply code_unit_leb_trans | apply sort_strings_sorted].
  - apply Sorted_StronglySorted;
      [intros a b c; apply code_unit_leb_trans | apply sort_strings_sorted].
  - apply perm_trans with l1;
      [apply Permutation_sym, sort_strings_perm |].
    apply perm_trans with l2; [exact Hp | apply sort_strings_perm].
Qed.

Lemma Permutation_filter_entries {A} (f : A -> bool) l1 l2 :
  Permutation l1 l2 -> Permutation (filter f l1) (filter f l2).
Proof.
  induction 1 as [| x l l' _ IH | x y l | l l' l'' _ IH1 _ IH2]; simpl.
  - constructor.
  - destruct (f x); [apply perm_skip |]; exact IH.
  - destruct (f x), (f y); try apply Permutation_refl. apply perm_swap.
  - exact (perm_trans IH1 IH2).
Qed.

End CanonicalOrder.

(** X16. The discovered types do not depend on the order in which the
    tools root is listed: two listings with the same entries give the
    same list of types. *)
Theorem discovery_ignores_the_listing_order (w1 w2 : world)
    (dir1 dir2 : string) (entries1 entries2 : list (string * node)) :
  readdirSync w1 dir1 = Ok entries1 ->
  readdirSync w2 dir2 = Ok entries2 ->
  Permutation entries1 entries2 ->
  discoverSoftwareTypes w1 dir1 = discoverSoftwareTypes w2 dir2.
Proof.
  intros H1 H2 Hp. unfold discoverSoftwareTypes. rewrite H1, H2. simpl.
  f_equal. apply sort_strings_canonical.
  apply Permutation_map, Permutation_filter_entries, Hp.
Qed.

Lemma discovery_ignores_the_listing_order_witness :
  discoverSoftwareTypes (sample_world tree_numeric_categories) "/repo/tools"
  = discoverSoftwareTypes (sample_world tree_numeric_categories_relisted)
      "/repo/tools".
Proof.
  apply (discovery_ignores_the_listing_order
           (sample_world tree_numeric_categories)
           (sample_world tree_numeric_categories_relisted)
           "/repo/tools" "/repo/tools"
           [("10", Dir []); (".archive", Dir []); ("9", Dir [])]
           [("9", Dir []); ("10", Dir []); (".archive", Dir [])]
           eq_refl eq_refl).
  apply Permutation_sym.
  apply (Permutation_cons_append [("10", Dir []); (".archive", Dir [])]
           ("9", Dir [])).
Defined.

(* ================================================================== *)
(** * From the tree to the catalog *)
(* ================================================================== *)

Section WellFormedTrees.

Lemma walk_app n s1 s2 :
  walk n (s1 ++ s2)
  = match walk n s1 with
    | Some n' => walk n' s2
    | None => None
    end.
Proof.
  revert n. induction s1 as [| s s1 IH]; intros n; simpl; [reflexivity |].
  destruct n as [content | es]; [reflexivity |].
  destruct (assoc s es); [apply IH | reflexivity].
Qed.

Lemma segments_join d e :
  plain_name e = true -> nonempty e = true ->
  segments (path_join d e) = (segments d ++ [e])%list.
Proof.
  intros Hp Hn. unfold segments, path_join.
  destruct (String.eqb_spec d "/") as [-> | Hd].
  - change ("/" ++ e) with ("" ++ String slash e).
    rewrite split_on_app, (plain_name_split e Hp). simpl.
    rewrite Hn. reflexivity.
  - change (d ++ "/" ++ e) with (d ++ String slash e).
    rewrite split_on_app, (plain_name_split e Hp), filter_app. simpl.
    rewrite Hn. reflexivity.
Qed.

Lemma distinct_assoc {V} (es : list (string * V)) e v :
  distinct (map fst es) = true -> In (e, v) es -> assoc e es = Some v.
Proof.
  induction es as [| [k x] es IH]; simpl; [intros _ [] |].
  rewrite andb_true_iff, negb_true_iff. intros [Hk Hd] [Heq | Hin].
  - inversion Heq; subst. rewrite String.eqb_refl. reflexivity.
  - destruct (String.eqb_spec k e) as [-> | Hne]; [| apply IH; assumption].
    exfalso. assert (Hex : existsb (String.eqb e) (map fst es) = true).
    { apply existsb_exists. exists e. split; [| apply String.eqb_refl].
      apply in_map_iff. exists (e, v). auto. }
    congruence.
Qed.

Lemma assoc_In_pair {V} (es : list (string * V)) e v :
  assoc e es = Some v -> In (e, v) es.
Proof.
  induction es as [| [k x] es IH]; simpl; [discriminate |].
  destruct (String.eqb_spec k e) as [-> | Hne].
  - intros H. inversion H. left. reflexivity.
  - intros H. right. apply IH, H.
Qed.

Lemma well_formed_Dir es :
  well_formed (Dir es) = true ->
  distinct (map fst es) = true /\
  forall e child,
    In (e, child) es ->
    plain_name e = true /\ nonempty e = true /\ well_formed child = true.
Proof.
  cbn [well_formed]. rewrite andb_true_iff. intros [Hd Hall].
  split; [exact Hd |]. clear Hd.
  induction es as [| [k x] es IH]; [intros e child [] |].
  rewrite !andb_true_iff in Hall. destruct Hall as [[[Hp Hn] Hw] Hrest].
  intros e child [Heq | Hin].
  - inversion Heq; subst. auto.
  - apply IH; assumption.
Qed.

Lemma walk_well_formed segs :
  forall n n',
    well_formed n = true -> walk n segs = Some n' -> well_formed n' = true.
Proof.
  induction segs as [| s segs IH]; intros n n' Hw; simpl.
  - intros H. inversion H; subst. exact Hw.
  - destruct n as [content | es]; [discriminate |].
    destruct (assoc s es) as [c |] eqn:Hs; [| discriminate].
    apply IH.
    destruct (well_formed_Dir es Hw) as [_ Hall].
    apply (Hall s c), assoc_In_pair, Hs.
Qed.

Variable w : world.
Hypothesis tree_well_formed : well_formed (root w) = true.

(** An entry of a directory is found at the path that joins the
    directory and its name. *)
Lemma resolve_entry d es e child :
  resolve w d = Some (Dir es) ->
  In (e, child) es ->
  resolve w (path_join d e) = Some child.
Proof.
  unfold resolve. fold (segments d). fold (segments (path_join d e)).
  intros Hd Hin.
  destruct (well_formed_Dir es (walk_well_formed _ _ _ tree_well_formed Hd))
    as [Hdist Hall].
  destruct (Hall e child Hin) as (Hp & Hn & _).
  rewrite (segments_join d e Hp Hn), walk_app, Hd. simpl.
  rewrite (distinct_assoc es e child Hdist Hin). reflexivity.
Qed.

Lemma entry_is_plain d es e child :
  resolve w d = Some (Dir es) -> In (e, child) es -> plain_name e = true.
Proof.
  unfold resolve. intros Hd Hin.
  destruct (well_formed_Dir es (walk_well_formed _ _ _ tree_well_formed Hd))
    as [_ Hall].
  apply (Hall e child Hin).
Qed.

End WellFormedTrees.

Lemma collected_In (w : world) files k p r :
  In p files ->
  snd (processTool w p) = Ok (Some r) ->
  softwareType r = k ->
  In (tool r) (collected w files k).
Proof.
  intros Hin Hr Hk. induction files as [| q files IH]; [destruct Hin |].
  rewrite collected_cons. apply in_or_app. destruct Hin as [-> | Hin].
  - left. rewrite Hr, Hk, String.eqb_refl. left. reflexivity.
  - right. apply IH, Hin.
Qed.

Lemma mainFileName_of_cases st :
  mainFileName_of st = "tool.py" \/ mainFileName_of st = "tool.rb"
  \/ mainFileName_of st = "tool.undefined".
Proof.
  unfold mainFileName_of, get_property.
  destruct (assoc st SOFTWARE_CONFIG) as [ext |] eqn:Ha.
  - apply assoc_In_pair in Ha. simpl in Ha.
    repeat (destruct Ha as [Ha | Ha];
            [inversion Ha; subst; auto |]).
    destruct Ha.
  - destruct (existsb (String.eqb st) Object_prototype_keys); auto.
Qed.



(* ================================================================== *)
(** * Further properties of the console *)
(* ================================================================== *)

Section Console.

Variable w : world.

Lemma add_result_console tools0 p d tools' x :
  add_result w tools0 p = (d, Ok tools') ->
  In x (fst (processTool w p)) -> In x d.
Proof.
  unfold add_result. intros H Hx.
  apply bind_Ok in H as (d1 & res & d2 & Hp & _ & ->).
  rewrite Hp in Hx. apply in_or_app. left. exact Hx.
Qed.

Lemma process_all_console files :
  forall tools0 d tools1 p x,
    process_all w tools0 files = (d, Ok tools1) ->
    In p files ->
    In x (fst (processTool w p)) ->
    In x d.
Proof.
  induction files as [| q files IH]; intros tools0 d tools1 p x H Hin Hx;
    [destruct Hin |].
  cbn [process_all] in H.
  apply bind_Ok in H as (d1 & tools' & d2 & Hstep & Hrest & ->).
  apply in_or_app. destruct Hin as [-> | Hin].
  - left. exact (add_result_console _ _ _ _ x Hstep Hx).
  - right. exact (IH _ _ _ p x Hrest Hin Hx).
Qed.

End Console.

(** X18. In a run that writes its catalog, everything that the processing
    of a scanned descriptor prints is on the console of the run: a tool
    skipped for its missing main file or dropped for a failure leaves its
    diagnostic there. *)
Theorem console_holds_the_diagnostics_of_each_tool (w : world) (c : Catalog)
    (files : list string) (p : string) (x : diag) :
  written (main w) = Some c ->
  findMetadataFiles w (toolsDir_of w) = Ok files ->
  In p files ->
  In x (fst (processTool w p)) ->
  In x (console (main w)).
Proof.
  intros H Hf Hp Hx.
  destruct (main_written_console w c H)
    as (tes & types & d1 & tools1 & Hres & _ & Hall & Hcons).
  destruct (findMetadataFiles_Ok w _ files Hf) as (tes' & Hres' & ->).
  assert (tes' = tes) by congruence. subst tes'.
  apply Hcons. exact (process_all_console w _ _ _ _ p x Hall Hp Hx).
Qed.

Lemma console_holds_the_diagnostics_of_each_tool_witness :
  In (ErrSkipping "draft" "tool.rb")
     (console (main (sample_world tree_two_tools))).
Proof.
  apply (console_holds_the_diagnostics_of_each_tool
           (sample_world tree_two_tools) catalog_two_tools
           ["/repo/tools/blender/zeta/metadata.json";
            "/repo/tools/blender/alpha/metadata.json";
            "/repo/tools/sketchup/draft/metadata.json"]
           "/repo/tools/sketchup/draft/metadata.json").
  - reflexivity.
  - reflexivity.
  - right. right. left. reflexivity.
  - left. reflexivity.
Defined.

(** X19. A run that writes its catalog gives it the version [1.0.0] and
    the time of the run; its console starts with the announcement of the
    generation and ends with the summary of the catalog it wrote. *)
Theorem written_catalog_and_console (w : world) (c : Catalog) :
  written (main w) = Some c ->
  version c = "1.0.0" /\
  generated_at c = now w /\
  exit_status (main w) = 0%Z /\
  exists d,
    console (main w)
    = (LogGenerating :: d ++ fst (logCatalogSummary c))%list.
Proof.
  unfold main. destruct (main_try w) as [d [c' | e]] eqn:Hrun; simpl;
    [| discriminate].
  intros H. inversion H; subst c'. clear H.
  unfold main_try in Hrun. fold (toolsDir_of w) in Hrun.
  apply bind_Ok in Hrun as (d0 & [] & d0' & H0 & Hrun & ->).
  destruct (existsSync w (toolsDir_of w)); cbn [negb] in Hrun;
    [| discriminate].
  apply bind_Ok in Hrun as (df & files & df' & _ & Hrun & ->).
  apply bind_Ok in Hrun as (dt & types & dt' & _ & Hrun & ->).
  apply bind_Ok in Hrun as (dl & [] & dl' & _ & Hrun & ->).
  apply bind_Ok in Hrun as (dl2 & [] & dl2' & _ & Hrun & ->).
  apply bind_Ok in Hrun as (d1 & tools1 & d1' & _ & Hrun & ->).
  apply bind_Ok in Hrun as (ds & tools2 & ds' & _ & Hrun & ->).
  apply bind_Ok in Hrun as (dw & [] & dw' & _ & Hrun & ->).
  apply bind_Ok in Hrun as (dy & [] & dy' & Hsum & Hrun & ->).
  unfold ret in Hrun. injection Hrun as Hdy Hc.
  unfold tell in H0. injection H0 as Hd0.
  rewrite <- Hc, <- Hdy, <- Hd0. clear Hc Hdy Hd0.
  cbn [version generated_at]. repeat (split; [reflexivity |]).
  exists (df ++ dt ++ dl ++ dl2 ++ d1 ++ ds ++ dw)%list.
  unfold logCatalogSummary, tell in Hsum. injection Hsum as <-.
  rewrite app_nil_r. cbn [app]. f_equal.
  rewrite <- !app_assoc. reflexivity.
Qed.

Lemma written_catalog_and_console_witness :
  version catalog_two_tools = "1.0.0" /\
  generated_at catalog_two_tools = now (sample_world tree_two_tools) /\
  exit_status (main (sample_world tree_two_tools)) = 0%Z /\
  exists d,
    console (main (sample_world tree_two_tools))
    = (LogGenerating :: d ++ fst (logCatalogSummary catalog_two_tools))%list.
Proof.
  apply (written_catalog_and_console (sample_world tree_two_tools)
           catalog_two_tools).
  reflexivity.
Defined.

(* ================================================================== *)
(** * The scan of a well-formed tree *)
(* ================================================================== *)

Section ScanOnce.

(** The segments of a directory reached from another extend its
    segments. *)
Lemma reaches_segments dir n dir' n' :
  well_formed n = true ->
  reaches dir n dir' n' ->
  well_formed n' = true /\
  exists chain, segments dir' = (segments dir ++ chain)%list.
Proof.
  intros Hw. induction 1 as [| dir' es entry child _ IH Hin].
  - split; [exact Hw |]. exists []. rewrite app_nil_r. reflexivity.
  - destruct IH as [Hwes [chain Hchain]].
    destruct (well_formed_Dir es Hwes) as [_ Hall].
    destruct (Hall entry child Hin) as (Hp & Hn & Hwc).
    split; [exact Hwc |].
    exists (chain ++ [entry])%list.
    rewrite (segments_join dir' entry Hp Hn), Hchain, app_assoc.
    reflexivity.
Qed.

Lemma found_segments dir n q :
  well_formed n = true ->
  In q (traverse dir n) ->
  exists rest, segments q = (segments dir ++ rest)%list.
Proof.
  intros Hw Hq.
  destruct (traverse_sound _ _ _ Hq) as (dir' & es & c & Hr & _ & ->).
  destruct (reaches_segments dir n dir' (Dir es) Hw Hr) as [_ [chain Hc]].
  exists (chain ++ ["metadata.json"])%list.
  rewrite (segments_join dir' "metadata.json" eq_refl eq_refl), Hc, app_assoc.
  reflexivity.
Qed.

Lemma found_in_entry_segments dir e child q :
  plain_name e = true -> nonempty e = true -> well_formed child = true ->
  In q (found_in_entry dir (e, child)) ->
  exists rest, segments q = (segments dir ++ e :: rest)%list.
Proof.
  intros Hp Hn Hw. unfold found_in_entry. cbn [fst snd].
  destruct child as [content | sub].
  - destruct (e =? "metadata.json"); [| intros []].
    intros [<- | []]. exists [].
    apply (segments_join dir e Hp Hn).
  - intros Hq. destruct (found_segments _ _ q Hw Hq) as [rest Hrest].
    exists rest. rewrite Hrest, (segments_join dir e Hp Hn), <- app_assoc.
    reflexivity.
Qed.

Lemma scan_without_repetition n :
  forall dir, well_formed n = true -> NoDup (traverse dir n).
Proof.
  induction n as [content | es IH] using node_tree_ind; intros dir Hw;
    [constructor |].
  rewrite traverse_Dir.
  destruct (well_formed_Dir es Hw) as [Hdist Hall]. clear Hw.
  induction es as [| [e child] es IHes]; [constructor |].
  cbn [flat_map]. inversion IH as [| ? ? IHchild IHrest]; subst.
  cbn [map fst distinct] in Hdist.
  apply andb_true_iff in Hdist. destruct Hdist as [Hfresh Hdist].
  apply negb_true_iff in Hfresh.
  destruct (Hall e child (or_introl eq_refl)) as (Hp & Hn & Hwc).
  apply NoDup_app.
  - unfold found_in_entry. cbn [fst snd].
    destruct child as [content | sub]; [| apply IHchild, Hwc].
    destruct (e =? "metadata.json"); repeat constructor. intros [].
  - apply IHes; [exact IHrest | exact Hdist |].
    intros e' c' Hin. apply Hall. right. exact Hin.
  - intros q Hq1 Hq2.
    destruct (found_in_entry_segments dir e child q Hp Hn Hwc Hq1)
      as [r1 H1].
    apply in_flat_map in Hq2. destruct Hq2 as ([e2 c2] & Hin2 & Hq2).
    destruct (Hall e2 c2 (or_intror Hin2)) as (Hp2 & Hn2 & Hwc2).
    destruct (found_in_entry_segments dir e2 c2 q Hp2 Hn2 Hwc2 Hq2)
      as [r2 H2].
    rewrite H1 in H2. apply app_inv_head in H2. inversion H2; subst e2.
    assert (Hex : existsb (String.eqb e) (map fst es) = true).
    { apply existsb_exists. exists e. split; [| apply String.eqb_refl].
      apply in_map_iff. exists (e, c2). auto. }
    congruence.
Qed.

End ScanOnce.



(* ================================================================== *)
(** * The fate of a scanned descriptor *)
(* ================================================================== *)

Section Fate.

Variable w : world.
Hypothesis tree_well_formed : well_formed (root w) = true.

Lemma reaches_resolve dir n dir' n' :
  resolve w dir = Some n ->
  reaches dir n dir' n' ->
  resolve w dir' = Some n'.
Proof.
  intros Hd. induction 1 as [| dir' es entry child _ IH Hin];
    [exact Hd |].
  exact (resolve_entry w tree_well_formed dir' es entry child IH Hin).
Qed.

(** A scanned descriptor is a regular file in a directory that can be
    listed. *)
Lemma scanned_descriptor_is_a_file dir es q :
  proper dir ->
  resolve w dir = Some (Dir es) ->
  In q (traverse dir (Dir es)) ->
  exists content entries,
    resolve w q = Some (File content) /\
    resolve w (path_dirname q) = Some (Dir entries).
Proof.
  intros Hp Hd Hq.
  destruct (traverse_sound _ _ _ Hq) as (dir' & es' & c & Hr & Hin & ->).
  destruct (reaches_below _ _ _ _ Hp Hr) as [Hp' _].
  pose proof (reaches_resolve _ _ _ _ Hd Hr) as Hd'.
  exists c, es'. split.
  - exact (resolve_entry w tree_well_formed dir' es' _ _ Hd' Hin).
  - rewrite (path_dirname_join dir' "metadata.json" Hp' eq_refl). exact Hd'.
Qed.

End Fate.

Lemma printable_dec (w : world) (v : json) :
  {printable w v} + {~ printable w v}.
Proof.
  unfold printable. destruct (ToString w v) as [s | e].
  - left. exists s. reflexivity.
  - right. intros [s H]. discriminate.
Qed.



(** X22. When [catalog.json] in the working directory is a directory, the
    run ends with status 1 and writes nothing, whatever the tools are. *)
Theorem catalog_path_that_is_a_directory (w : world)
    (es : list (string * node)) :
  resolve w (path_join (cwd w) "catalog.json") = Some (Dir es) ->
  exit_status (main w) = 1%Z /\ written (main w) = None.
Proof.
  intros Hcat. unfold main.
  destruct (main_try w) as [d [c | e]] eqn:Hrun; [exfalso | auto].
  unfold main_try in Hrun. fold (toolsDir_of w) in Hrun.
  apply bind_Ok in Hrun as (d0 & [] & d0' & _ & Hrun & ->).
  destruct (existsSync w (toolsDir_of w)); cbn [negb] in Hrun;
    [| discriminate].
  apply bind_Ok in Hrun as (df & files & df' & _ & Hrun & ->).
  apply bind_Ok in Hrun as (dt & types & dt' & _ & Hrun & ->).
  apply bind_Ok in Hrun as (dl & [] & dl' & _ & Hrun & ->).
  apply bind_Ok in Hrun as (dl2 & [] & dl2' & _ & Hrun & ->).
  apply bind_Ok in Hrun as (d1 & tools1 & d1' & _ & Hrun & ->).
  apply bind_Ok in Hrun as (ds & tools2 & ds' & _ & Hrun & ->).
  apply bind_Ok in Hrun as (dw & [] & dw' & Hw & _ & ->).
  unfold lift, writeFileSync in Hw. rewrite Hcat in Hw. discriminate.
Qed.

Lemma catalog_path_that_is_a_directory_witness :
  exit_status (main (sample_world tree_catalog_is_a_directory)) = 1%Z /\
  written (main (sample_world tree_catalog_is_a_directory)) = None.
Proof.
  apply (catalog_path_that_is_a_directory
           (sample_world tree_catalog_is_a_directory) []).
  reflexivity.
Defined.

(* ================================================================== *)
(** * The version control and the catalog *)
(* ================================================================== *)

Section RelatedSorts.

Context {A B : Type}.
Variable f : A -> B.
Variables cmp cmp' : A -> A -> outcome Z.

Hypothesis cmp_related :
  forall a b a' b', f a' = f a -> f b' = f b -> cmp' a' b' = cmp a b.

Lemma insert_by_related x x' l :
  forall l' r,
    f x' = f x -> map f l' = map f l ->
    insert_by cmp x l = Ok r ->
    exists r', insert_by cmp' x' l' = Ok r' /\ map f r' = map f r.
Proof.
  induction l as [| y l IH]; intros [| y' l'] r Hx Hl; simpl in Hl;
    try discriminate.
  - simpl. intros H. inversion H; subst. exists [x'].
    split; [reflexivity | simpl; rewrite Hx; reflexivity].
  - injection Hl as Hy Hl. simpl.
    rewrite (cmp_related x y x' y' Hx Hy).
    destruct (cmp x y) as [c | e]; simpl; [| discriminate].
    destruct (c <? 0)%Z.
    + destruct (insert_by cmp x l) as [r0 | e] eqn:Hr; simpl;
        [| discriminate].
      intros H. inversion H; subst.
      destruct (IH l' r0 Hx Hl eq_refl) as (r0' & Hr0' & Hmap).
      rewrite Hr0'. simpl. eexists. split; [reflexivity |].
      simpl. rewrite Hy, Hmap. reflexivity.
    + intros H. inversion H; subst. eexists. split; [reflexivity |].
      simpl. rewrite Hx, Hy, Hl. reflexivity.
Qed.

Lemma sort_from_related l :
  forall l' s s' r,
    map f l' = map f l -> map f s' = map f s ->
    sort_from cmp s l = Ok r ->
    exists r', sort_from cmp' s' l' = Ok r' /\ map f r' = map f r.
Proof.
  induction l as [| x l IH]; intros [| x' l'] s s' r Hl Hs; simpl in Hl;
    try discriminate; simpl.
  - intros H. inversion H; subst. eexists. split; [reflexivity |].
    rewrite !map_rev, Hs. reflexivity.
  - injection Hl as Hx Hl.
    destruct (insert_by cmp x s) as [t | e] eqn:Hi; simpl; [| discriminate].
    intros H.
    destruct (insert_by_related x x' s s' t Hx Hs Hi) as (t' & Hi' & Ht).
    rewrite Hi'. simpl. exact (IH l' t t' r Hl Ht H).
Qed.

Lemma sort_by_related l :
  forall l' r,
    map f l' = map f l ->
    sort_by cmp l = Ok r ->
    exists r', sort_by cmp' l' = Ok r' /\ map f r' = map f r.
Proof.
  intros l' r Hl. exact (sort_from_related l l' [] [] r Hl eq_refl).
Qed.

End RelatedSorts.

Section GitIndependence.

Variable w : world.
Variable g : string -> outcome string.

Lemma compareByName_with_git_log a b a' b' :
  without_date a' = without_date a -> without_date b' = without_date b ->
  compareByName (with_git_log w g) a' b' = compareByName w a b.
Proof.
  intros Ha Hb.
  assert (Hna : name a' = name a) by exact (f_equal name Ha).
  assert (Hnb : name b' = name b) by exact (f_equal name Hb).
  unfold compareByName. rewrite Hna, Hnb, ToString_with_git_log.
  reflexivity.
Qed.

(** A record built with another version control differs by its
    timestamp only. *)
Lemma processTool_with_git_log p r :
  snd (processTool w p) = Ok (Some r) ->
  exists r',
    snd (processTool (with_git_log w g) p) = Ok (Some r') /\
    softwareType r' = softwareType r /\
    without_date (tool r') = without_date (tool r).
Proof.
  intros H. destruct (processTool w p) as [d o] eqn:Hp. simpl in H. subst o.
  destruct (processTool_inversion w p d r Hp)
    as (m & entries & date & H1 & H2 & H3 & H4 & H5 & _ & Hrec & Hlog).
  assert (Hlog' : Forall (printable (with_git_log w g))
                    (logged m (extractToolName p))).
  { apply (Forall_impl _ (P := printable w)); [| exact Hlog].
    intros v [sv Hv]. exists sv. rewrite ToString_with_git_log. exact Hv. }
  destruct (processTool_unfolded (with_git_log w g) p m (softwareType r)
              entries H1 H2 H3 H4 H5 Hlog') as (r' & Hr' & Hst).
  destruct (processTool_success (with_git_log w g) p _ r' Hr')
    as (m' & entries' & date' & H1' & _ & _ & _ & H5' & _ & Hrec').
  change (descriptor (with_git_log w g) p) with (descriptor w p) in H1'.
  change (readdirSync (with_git_log w g)) with (readdirSync w) in H5'.
  assert (m' = m) by congruence. assert (entries' = entries) by congruence.
  subst m' entries'.
  exists r'. rewrite Hr'. split; [reflexivity |]. split; [exact Hst |].
  rewrite Hrec, Hrec', Hst. reflexivity.
Qed.

Lemma assoc_without_dates k o :
  assoc k (without_dates o) = option_map (map without_date) (assoc k o).
Proof.
  induction o as [| [k' v] o IH]; simpl; [reflexivity |].
  destruct (k' =? k); [reflexivity | exact IH].
Qed.

Lemma own_set_without_dates k v o :
  without_dates (own_set k v o)
  = own_set k (map without_date v) (without_dates o).
Proof.
  induction o as [| [k' v'] o IH]; simpl; [reflexivity |].
  destruct (k' =? k); simpl; [reflexivity |]. rewrite IH. reflexivity.
Qed.

Lemma keys_without_dates o : map fst (without_dates o) = map fst o.
Proof.
  unfold without_dates. rewrite map_map. reflexivity.
Qed.

Lemma related_lookup k o o' :
  without_dates o' = without_dates o ->
  match assoc k o, assoc k o' with
  | Some a, Some a' => map without_date a' = map without_date a
  | None, None => True
  | _, _ => False
  end.
Proof.
  intros H. pose proof (assoc_without_dates k o) as Ho.
  pose proof (assoc_without_dates k o') as Ho'. rewrite H in Ho'.
  rewrite Ho in Ho'.
  destruct (assoc k o), (assoc k o'); simpl in Ho';
    [injection Ho' as <-; reflexivity | discriminate | discriminate
    | exact I].
Qed.

Lemma add_result_with_git_log tools0 tools0' p d tools1 :
  without_dates tools0' = without_dates tools0 ->
  add_result w tools0 p = (d, Ok tools1) ->
  exists d' tools1',
    add_result (with_git_log w g) tools0' p = (d', Ok tools1') /\
    without_dates tools1' = without_dates tools1.
Proof.
  intros Hrel. unfold add_result. intros H.
  apply bind_Ok in H as (dp & res & d2 & Hp & H & ->).
  destruct res as [r |].
  - destruct (processTool_with_git_log p r) as (r' & Hr' & Hst & Hrec);
      [rewrite Hp; reflexivity |].
    destruct (processTool (with_git_log w g) p) as [dp' op'].
    simpl in Hr'. subst op'. unfold bind at 1. cbn beta iota.
    rewrite Hst. unfold get_property in *.
    pose proof (related_lookup (softwareType r) tools0 tools0' Hrel) as Hl.
    destruct (assoc (softwareType r) tools0) as [arr |],
             (assoc (softwareType r) tools0') as [arr' |];
      try contradiction.
    + unfold ret in *. inversion H; subst. do 2 eexists.
      split; [reflexivity |].
      rewrite !own_set_without_dates, Hrel, !map_app, Hl. simpl.
      rewrite Hrec. reflexivity.
    + destruct (existsb (String.eqb (softwareType r)) Object_prototype_keys).
      * unfold throw in H. discriminate.
      * unfold bind, tell, ret in *. inversion H; subst. do 2 eexists.
        split; [reflexivity | exact Hrel].
  - assert (Hnone : snd (processTool (with_git_log w g) p) = Ok None)
      by (apply processTool_skip_independent_of_git; rewrite Hp; reflexivity).
    destruct (processTool (with_git_log w g) p) as [dp' op'].
    simpl in Hnone. subst op'. unfold bind, ret in *.
    inversion H; subst. do 2 eexists. split; [reflexivity | exact Hrel].
Qed.

Lemma process_all_with_git_log files :
  forall tools0 tools0' d tools1,
    without_dates tools0' = without_dates tools0 ->
    process_all w tools0 files = (d, Ok tools1) ->
    exists d' tools1',
      process_all (with_git_log w g) tools0' files = (d', Ok tools1') /\
      without_dates tools1' = without_dates tools1.
Proof.
  induction files as [| p files IH]; intros tools0 tools0' d tools1 Hrel H.
  - simpl in *. unfold ret in *. inversion H; subst. eauto.
  - cbn [process_all] in *.
    apply bind_Ok in H as (d1 & t1 & d2 & Hstep & Hrest & ->).
    destruct (add_result_with_git_log _ _ _ _ _ Hrel Hstep)
      as (d1' & t1' & Hstep' & Hrel1).
    destruct (IH _ _ _ _ Hrel1 Hrest) as (d2' & t2' & Hrest' & Hrel2).
    exists (d1' ++ d2')%list, t2'. split; [| exact Hrel2].
    exact (bind_intro _ _ _ _ _ _ Hstep' Hrest').
Qed.

Lemma sort_each_with_git_log keys :
  forall tools1 tools1' tools2,
    without_dates tools1' = without_dates tools1 ->
    sort_each w keys tools1 = Ok tools2 ->
    exists tools2',
      sort_each (with_git_log w g) keys tools1' = Ok tools2' /\
      without_dates tools2' = without_dates tools2.
Proof.
  induction keys as [| k keys IH]; intros tools1 tools1' tools2 Hrel; simpl.
  - intros H. inversion H; subst. eauto.
  - pose proof (related_lookup k tools1 tools1' Hrel) as Hl.
    destruct (assoc k tools1) as [arr |], (assoc k tools1') as [arr' |];
      try contradiction; [| apply IH, Hrel].
    destruct (sort_by (compareByName w) arr) as [sorted | e] eqn:Hs; simpl;
      [| discriminate].
    destruct (sort_by_related without_date (compareByName w)
                (compareByName (with_git_log w g))
                compareByName_with_git_log arr arr' sorted Hl Hs)
      as (sorted' & Hs' & Hmap).
    rewrite Hs'. simpl. apply IH.
    rewrite !own_set_without_dates, Hrel, Hmap. reflexivity.
Qed.

End GitIndependence.

Lemma Object_entries_without_dates o :
  Object_entries (without_dates o) = without_dates (Object_entries o).
Proof.
  unfold Object_entries, ownKeys. rewrite keys_without_dates.
  induction (key_order (map fst o)) as [| k ks IH]; [reflexivity |].
  cbn [Object_entries_of]. rewrite assoc_without_dates.
  destruct (assoc k o) as [v |]; simpl; rewrite IH; reflexivity.
Qed.

(** The steps of a run that wrote a catalog, and back. *)
Lemma main_try_steps (w : world) d c :
  main_try w = (d, Ok c) ->
  exists files types d1 tools1,
    findMetadataFiles w (toolsDir_of w) = Ok files /\
    discoverSoftwareTypes w (toolsDir_of w) = Ok types /\
    process_all w
      (Object_fromEntries
         (map (fun type : string => (type, @nil ToolRecord)) types))
      files = (d1, Ok tools1) /\
    sort_all w tools1 = Ok (tools c) /\
    writeFileSync w (path_join (cwd w) "catalog.json") = Ok tt /\
    version c = "1.0.0" /\
    generated_at c = now w.
Proof.
  intros Hrun. unfold main_try in Hrun. fold (toolsDir_of w) in Hrun.
  apply bind_Ok in Hrun as (d0 & [] & d0' & _ & Hrun & ->).
  destruct (existsSync w (toolsDir_of w)); cbn [negb] in Hrun;
    [| discriminate].
  apply bind_Ok in Hrun as (df & files & df' & Hfiles & Hrun & ->).
  apply bind_Ok in Hrun as (dt & types & dt' & Htypes & Hrun & ->).
  apply bind_Ok in Hrun as (dl & [] & dl' & _ & Hrun & ->).
  apply bind_Ok in Hrun as (dl2 & [] & dl2' & _ & Hrun & ->).
  apply bind_Ok in Hrun as (d1 & tools1 & d1' & Hall & Hrun & ->).
  apply bind_Ok in Hrun as (ds & tools2 & ds' & Hsort & Hrun & ->).
  apply bind_Ok in Hrun as (dw & [] & dw' & Hwrite & Hrun & ->).
  apply bind_Ok in Hrun as (dy & [] & dy' & _ & Hrun & ->).
  unfold ret in Hrun. inversion Hrun; subst c. clear Hrun.
  unfold lift in Hfiles, Htypes, Hsort, Hwrite.
  inversion Hfiles as [[Hd Hf]]. inversion Htypes as [[Hd' Ht]].
  inversion Hsort as [[Hd2 Hs]]. inversion Hwrite as [[Hd3 Hw]].
  exists files, types, d1, tools1. simpl. auto 10.
Qed.

Lemma main_try_of_steps (w : world) files types d1 tools1 tools2 :
  findMetadataFiles w (toolsDir_of w) = Ok files ->
  discoverSoftwareTypes w (toolsDir_of w) = Ok types ->
  process_all w
    (Object_fromEntries
       (map (fun type : string => (type, @nil ToolRecord)) types))
    files = (d1, Ok tools1) ->
  sort_all w tools1 = Ok tools2 ->
  writeFileSync w (path_join (cwd w) "catalog.json") = Ok tt ->
  exists d,
    main_try w
    = (d, Ok {| version := "1.0.0"; generated_at := now w;
                tools := tools2 |}).
Proof.
  intros Hf Ht Hall Hs Hw.
  assert (Hex : existsSync w (toolsDir_of w) = true).
  { destruct (findMetadataFiles_Ok w _ files Hf) as (tes & Hres & _).
    unfold existsSync. rewrite Hres. reflexivity. }
  unfold main_try. fold (toolsDir_of w). rewrite Hex. cbn [negb].
  eexists.
  eapply bind_intro; [reflexivity |].
  eapply bind_intro; [unfold lift; rewrite Hf; reflexivity |].
  eapply bind_intro; [unfold lift; rewrite Ht; reflexivity |].
  eapply bind_intro; [reflexivity |].
  eapply bind_intro; [reflexivity |].
  eapply bind_intro; [exact Hall |].
  eapply bind_intro; [unfold lift; rewrite Hs; reflexivity |].
  eapply bind_intro; [unfold lift; rewrite Hw; reflexivity |].
  eapply bind_intro; [reflexivity |].
  reflexivity.
Qed.

(** X23. The version control decides the timestamps and nothing else:
    when a run writes its catalog, the run in the same tree with any
    other answers of [git log], failures included, writes a catalog too,
    with the same version and generation time, the same categories in the
    same order, and in each of them the same records in the same order up
    to [updated_at]. *)
Theorem version_control_decides_the_dates_only (w : world)
    (g : string -> outcome string) (c : Catalog) :
  written (main w) = Some c ->
  exists c',
    written (main (with_git_log w g)) = Some c' /\
    exit_status (main (with_git_log w g)) = 0%Z /\
    version c' = version c /\
    generated_at c' = generated_at c /\
    without_dates (document_tools c') = without_dates (document_tools c).
Proof.
  intros H. unfold main in H.
  destruct (main_try w) as [d [c0 | e]] eqn:Hrun; simpl in H;
    [| discriminate].
  injection H as ->.
  destruct (main_try_steps w d c Hrun)
    as (files & types & d1 & tools1 & Hf & Ht & Hall & Hs & Hw & Hv & Hg).
  destruct (process_all_with_git_log w g files _ _ d1 tools1 eq_refl Hall)
    as (d1' & tools1' & Hall' & Hrel1).
  unfold sort_all in Hs.
  destruct (sort_each_with_git_log w g _ tools1 tools1' (tools c) Hrel1 Hs)
    as (tools2' & Hs' & Hrel2).
  assert (Hkeys : ownKeys tools1' = ownKeys tools1).
  { unfold ownKeys.
    rewrite <- (keys_without_dates tools1'), Hrel1, keys_without_dates.
    reflexivity. }
  rewrite <- Hkeys in Hs'.
  destruct (main_try_of_steps (with_git_log w g) files types d1' tools1'
              tools2' Hf Ht Hall' Hs' Hw) as [d' Hrun'].
  eexists. unfold main. rewrite Hrun'. simpl.
  split; [reflexivity |]. split; [reflexivity |].
  split; [symmetry; exact Hv |]. split; [symmetry; exact Hg |].
  unfold document_tools. simpl.
  rewrite <- !Object_entries_without_dates, Hrel2. reflexivity.
Qed.

Lemma version_control_decides_the_dates_only_witness :
  written (main (sample_world tree_two_tools)) = Some catalog_two_tools /\
  exists c',
    written (main (with_git_log (sample_world tree_two_tools)
                     (fun _ => Throw (ExecError "not a git repository"))))
    = Some c' /\
    exit_status (main (with_git_log (sample_world tree_two_tools)
                         (fun _ => Throw (ExecError "not a git repository"))))
    = 0%Z /\
    version c' = version catalog_two_tools /\
    generated_at c' = generated_at catalog_two_tools /\
    without_dates (document_tools c')
    = without_dates (document_tools catalog_two_tools).
Proof.
  split; [vm_compute; reflexivity |].
  apply (version_control_decides_the_dates_only
           (sample_world tree_two_tools)
           (fun _ => Throw (ExecError "not a git repository"))
           catalog_two_tools).
  vm_compute. reflexivity.
Defined.
